(** * NSE-Py: the [NseAPI] client of [nse_api.py]

    A shallow embedding of the six query methods of the class [NseAPI] and of
    the Python and pandas operations they call, followed by the properties the
    specification states about them.

    Conventions of the embedding.
    - A Python exception is a value of [exn]; a computation that may raise
      has type [result A] and is sequenced with [x <- c ;; k].
    - A decoded JSON document (what [response.json()] returns) is a [value]:
      [None], booleans, integers, binary64 floats, strings, lists and
      dictionaries.  A dictionary keeps its items in insertion order, as a
      Python [dict] does.
    - Strings are ASCII: a character of a [string] is one code point.
    - [self.client.get] is the field [client] of [NseAPI]; the cookies the
      session collects are not part of the model.
    - A pandas column carries its dtype; [DataFrame.columns] are the labelled
      columns in order.  The two text parsers of pandas, [read_csv] and the
      text-to-number conversion of [to_numeric], are the fields of the class
      [Pandas]: the theorems hold for every instance, and the examples run
      on the instance [reader].
    - [get_historical_data] answers with what it printed next to its
      outcome. *)

From Stdlib Require Import ZArith List String Ascii Bool Lia.
From Stdlib Require Import SpecFloat DecimalString.
Import ListNotations.
Local Open Scope string_scope.
Local Open Scope Z_scope.
#[local] Set Warnings "-register-all".

(* ================================================================== *)
(** * Exceptions and the error monad *)

Inductive exn : Type :=
| KeyError (key : string)
| TypeError
| AttributeError
| ValueError
| IndexError
| JSONDecodeError
| ParserError
| EmptyDataError
| ConnectionError
| Exception (message : string).

Inductive result (A : Type) : Type :=
| Ok (a : A)
| Raise (e : exn).
Arguments Ok {A} a.
Arguments Raise {A} e.

Definition bind {A B : Type} (c : result A) (k : A -> result B) : result B :=
  match c with
  | Ok a => k a
  | Raise e => Raise e
  end.

Notation "x <- c ;; k" := (bind c (fun x => k))
  (at level 61, c at next level, right associativity).

Fixpoint mapM {A B : Type} (f : A -> result B) (l : list A) : result (list B) :=
  match l with
  | [] => Ok []
  | a :: l' => b <- f a ;; bs <- mapM f l' ;; Ok (b :: bs)
  end.

(** A comprehension with a condition: [f] answers [None] for an item the
    condition rejects. *)
Fixpoint filter_mapM {A B : Type} (f : A -> result (option B)) (l : list A)
  : result (list B) :=
  match l with
  | [] => Ok []
  | a :: l' =>
      ob <- f a ;;
      bs <- filter_mapM f l' ;;
      Ok (match ob with Some b => b :: bs | None => bs end)
  end.

(* ================================================================== *)
(** * Python floats (IEEE binary64) *)

Definition float : Type := spec_float.
Definition prec : Z := 53.
Definition emax : Z := 1024.

(** The float nearest to the integer [z]. *)
Definition float_of_Z (z : Z) : float := binary_normalize prec emax z 0 false.

(** The float nearest to [n / d] (ties to even), as [float("n/d")] would be
    read from a decimal literal. *)
Definition float_of_ratio (n : Z) (d : positive) : float :=
  match n with
  | Z0 => S754_zero false
  | Zpos p => SFdiv prec emax (S754_finite false p 0) (S754_finite false d 0)
  | Zneg p => SFdiv prec emax (S754_finite true p 0) (S754_finite false d 0)
  end.

(** The float written [m] followed by [scale] decimals: [float_of_decimal 2675 3]
    is [2.675]. *)
Definition float_of_decimal (m : Z) (scale : nat) : float :=
  float_of_ratio m (Z.to_pos (10 ^ Z.of_nat scale)).

(** [n / d] rounded to an integer, halves to the even neighbour. *)
Definition round_half_even (n : Z) (d : Z) : Z :=
  let q := n / d in
  let r := n mod d in
  match Z.compare (2 * r) d with
  | Lt => q
  | Gt => q + 1
  | Eq => if Z.even q then q else q + 1
  end.

(** [float.__round__(x, ndigits)] for [0 <= ndigits]: the exact value of [x]
    is rounded to [ndigits] decimals, halves to even, and the decimal is read
    back as the nearest float; infinities and NaN round to themselves and the
    sign of a zero result is the sign of [x]. *)
Definition float_round (x : float) (ndigits : nat) : float :=
  match x with
  | S754_finite s m e =>
      let scale := Z.pow 10 (Z.of_nat ndigits) in
      let r :=
        match e with
        | Zneg k => round_half_even (Zpos m * scale) (Z.pow 2 (Zpos k))
        | _ => Zpos m * scale * Z.pow 2 e
        end in
      match r with
      | Zpos p =>
          SFdiv prec emax (S754_finite s p 0)
                (S754_finite false (Z.to_pos scale) 0)
      | _ => S754_zero s
      end
  | _ => x
  end.

Definition float_is_zero (x : float) : bool :=
  match x with
  | S754_zero _ => true
  | _ => false
  end.

(* ================================================================== *)
(** * Python values *)

Inductive value : Type :=
| VNone
| VBool (b : bool)
| VInt (z : Z)
| VFloat (f : float)
| VStr (s : string)
| VList (items : list value)
| VDict (items : list (string * value)).

(** The first item of a dictionary's item list with key [k]. *)
Fixpoint dict_lookup (k : string) (d : list (string * value)) : option value :=
  match d with
  | [] => None
  | (k', v) :: d' => if String.eqb k k' then Some v else dict_lookup k d'
  end.

(** [d[k] = v]: the value of an existing key is replaced in place, a new key
    goes to the end. *)
Fixpoint dict_set (k : string) (v : value) (d : list (string * value))
  : list (string * value) :=
  match d with
  | [] => [(k, v)]
  | (k', v') :: d' =>
      if String.eqb k k' then (k', v) :: d' else (k', v') :: dict_set k v d'
  end.

Definition dict_keys (d : list (string * value)) : list string := map fst d.

(** [obj[k]] for a string key [k]. *)
Definition py_getitem (obj : value) (k : string) : result value :=
  match obj with
  | VDict d =>
      match dict_lookup k d with
      | Some v => Ok v
      | None => Raise (KeyError k)
      end
  | _ => Raise TypeError
  end.

(** [obj.get(k, default)]: only a dictionary has the method. *)
Definition py_get (obj : value) (k : string) (default : value) : result value :=
  match obj with
  | VDict d =>
      match dict_lookup k d with
      | Some v => Ok v
      | None => Ok default
      end
  | _ => Raise AttributeError
  end.

(** [obj.keys()]. *)
Definition py_keys (obj : value) : result (list string) :=
  match obj with
  | VDict d => Ok (dict_keys d)
  | _ => Raise AttributeError
  end.

Fixpoint chars (s : string) : list value :=
  match s with
  | EmptyString => []
  | String c s' => VStr (String c EmptyString) :: chars s'
  end.

(** The items [for x in obj] visits. *)
Definition py_iter (obj : value) : result (list value) :=
  match obj with
  | VList l => Ok l
  | VDict d => Ok (map VStr (dict_keys d))
  | VStr s => Ok (chars s)
  | _ => Raise TypeError
  end.

(** Truth value of an object. *)
Definition py_truthy (obj : value) : bool :=
  match obj with
  | VNone => false
  | VBool b => b
  | VInt z => negb (Z.eqb z 0)
  | VFloat f => negb (float_is_zero f)
  | VStr s => negb (String.eqb s "")
  | VList l => match l with [] => false | _ => true end
  | VDict d => match d with [] => false | _ => true end
  end.

(** [obj != s] for a string [s]: only an equal string is not different. *)
Definition py_ne_str (obj : value) (s : string) : bool :=
  match obj with
  | VStr t => negb (String.eqb t s)
  | _ => true
  end.

(** [round(obj, ndigits)] for [0 <= ndigits]: an integer is its own rounding,
    a float rounds as [float_round], anything else has no [__round__]. *)
Definition py_round (obj : value) (ndigits : nat) : result value :=
  match obj with
  | VInt z => Ok (VInt z)
  | VBool b => Ok (VInt (if b then 1 else 0))
  | VFloat f => Ok (VFloat (float_round f ndigits))
  | _ => Raise TypeError
  end.

(* ================================================================== *)
(** * Strings: [str.upper] and [urllib.parse.quote] *)

Definition upper_char (c : ascii) : ascii :=
  let n := nat_of_ascii c in
  if andb (Nat.leb 97 n) (Nat.leb n 122) then ascii_of_nat (n - 32) else c.

(** [s.upper()] for a text of ASCII characters: the letters [a] to [z] are
    mapped, every other character is kept. *)
Fixpoint upper (s : string) : string :=
  match s with
  | EmptyString => EmptyString
  | String c s' => String (upper_char c) (upper s')
  end.

Definition is_digit (c : ascii) : bool :=
  let n := nat_of_ascii c in andb (Nat.leb 48 n) (Nat.leb n 57).

Definition is_alpha (c : ascii) : bool :=
  let n := nat_of_ascii c in
  orb (andb (Nat.leb 65 n) (Nat.leb n 90)) (andb (Nat.leb 97 n) (Nat.leb n 122)).

(** The characters [quote] never escapes: letters, digits, [_.-~], and its
    default [safe='/']. *)
Definition quote_safe (c : ascii) : bool :=
  orb (orb (is_alpha c) (is_digit c))
      (existsb (Ascii.eqb c) ["_"; "."; "-"; "~"; "/"]%char).

Definition hex_digit (n : nat) : ascii :=
  if Nat.ltb n 10 then ascii_of_nat (48 + n) else ascii_of_nat (55 + n).

(** [quote(s)]: every other character becomes [%XX]. *)
Fixpoint quote (s : string) : string :=
  match s with
  | EmptyString => EmptyString
  | String c s' =>
      if quote_safe c then String c (quote s')
      else
        let n := nat_of_ascii c in
        String "%" (String (hex_digit (Nat.div n 16))
                      (String (hex_digit (Nat.modulo n 16)) (quote s')))
  end.

(* ================================================================== *)
(** * Responses and the client object *)

(** What the methods read of a [requests.Response]: [status_code], [text],
    and the outcome of calling [json()] (the decoded body, or the decoder's
    exception). *)
Record Response : Type := {
  status_code : Z;
  text : string;
  json : result value
}.

(** [requests.Session.get(url, headers=..., timeout=...)]: the response, or
    the transport's exception. *)
Definition Session : Type :=
  string -> list (string * string) -> option Z -> result Response.

Record NseAPI : Type := {
  HEADERS : list (string * string);
  client : Session
}.

Definition USER_AGENT : string :=
  "Mozilla/5.0 (Windows NT 10.0; Win64; x64) AppleWebKit/537.36 (KHTML, like Gecko) Chrome/93.0.4577.82 Safari/537.36 Edg/93.0.961.52".

(** [NseAPI.__init__]: the headers, the session, and the warm-up request
    whose failure propagates. *)
Definition init (session : Session) : result NseAPI :=
  let headers :=
    [("User-Agent", USER_AGENT); ("X-Requested-With", "XMLHttpRequest")] in
  _ <- session "https://www.nseindia.com/market-data/live-equity-market"
               headers None ;;
  Ok {| HEADERS := headers; client := session |}.

(* ================================================================== *)
(** * [get_indices] *)

Definition indices_url : string := "https://www.nseindia.com/api/equity-master".

Definition get_indices (self : NseAPI) : result value :=
  r <- client self indices_url (HEADERS self) None ;;
  response <- json r ;;
  keys <- py_keys response ;;
  groups <- mapM (fun symbols =>
                    group <- py_getitem response symbols ;;
                    py_iter group) keys ;;
  Ok (VList (List.concat groups)).

(* ================================================================== *)
(** * [get_all_stocks] *)

Definition stocks_url (index : string) : string :=
  "https://www.nseindia.com/api/equity-stockIndices?index=" ++ quote (upper index).

(** One turn of the comprehension: the condition, then the record. *)
Definition stock_entry (index : string) (stock : value) : result (option value) :=
  sym <- py_getitem stock "symbol" ;;
  if py_ne_str sym (upper index) then
    stock_symbol <- py_getitem stock "symbol" ;;
    meta <- py_get stock "meta" (VDict []) ;;
    company_name <- py_get meta "companyName" VNone ;;
    Ok (Some (VDict [("stock_symbol", stock_symbol);
                     ("company_name", company_name)]))
  else Ok None.

Definition get_all_stocks (self : NseAPI) (index : string) : result value :=
  let url := stocks_url index in
  r <- client self url (HEADERS self) None ;;
  j <- json r ;;
  response <- py_getitem j "data" ;;
  stocks <- py_iter response ;;
  results <- filter_mapM (stock_entry index) stocks ;;
  Ok (VList results).

(* ================================================================== *)
(** * [index_data] *)

Definition index_url (stock_index : string) : string :=
  "https://www.nseindia.com/api/equity-stockIndices?index=" ++ stock_index.

(** The body of the loop for the [i]-th [datum]. *)
Definition index_row (last_updated : value) (i : nat) (datum : value)
  : result value :=
  symbol <- py_getitem datum "symbol" ;;
  open <- py_getitem datum "open" ;;
  dayHigh <- py_getitem datum "dayHigh" ;;
  dayLow <- py_getitem datum "dayLow" ;;
  lastPrice <- py_getitem datum "lastPrice" ;;
  previousClose <- py_getitem datum "previousClose" ;;
  change <- py_getitem datum "change" ;;
  pChange <- py_getitem datum "pChange" ;;
  yearHigh <- py_getitem datum "yearHigh" ;;
  yearLow <- py_getitem datum "yearLow" ;;
  totalTradedVolume <- py_getitem datum "totalTradedVolume" ;;
  totalTradedValue <- py_getitem datum "totalTradedValue" ;;
  perChange365d <- py_getitem datum "perChange365d" ;;
  perChange30d <- py_getitem datum "perChange30d" ;;
  let temp_dict :=
    [("symbol", symbol);
     ("open", open);
     ("dayHigh", dayHigh);
     ("dayLow", dayLow);
     ("lastPrice", lastPrice);
     ("previousClose", previousClose);
     ("change", change);
     ("pChange", pChange);
     ("52W_High", yearHigh);
     ("52W_Low", yearLow);
     ("totalTradedVolume", totalTradedVolume);
     ("totalTradedValue", totalTradedValue);
     ("perChange365d", perChange365d);
     ("perChange30d", perChange30d);
     ("last_updated_at", last_updated)] in
  if negb (Nat.eqb i 0) then
    meta <- py_getitem datum "meta" ;;
    company_name <- py_get meta "companyName" VNone ;;
    Ok (VDict (dict_set "company_name" company_name temp_dict))
  else Ok (VDict temp_dict).

(** [for i, datum in enumerate(data)], from index [i] on. *)
Fixpoint index_loop (last_updated : value) (i : nat) (data : list value)
  : result (list value) :=
  match data with
  | [] => Ok []
  | datum :: rest =>
      row <- index_row last_updated i datum ;;
      rows <- index_loop last_updated (S i) rest ;;
      Ok (row :: rows)
  end.

Definition index_data (self : NseAPI) (stock_index : string) : result value :=
  let url := index_url stock_index in
  response <- client self url (HEADERS self) None ;;
  if negb (Z.eqb (status_code response) 200) then Ok VNone
  else
    j_response <- json response ;;
    last_updated <- py_getitem j_response "timestamp" ;;
    data <- py_getitem j_response "data" ;;
    items <- py_iter data ;;
    result <- index_loop last_updated 0 items ;;
    Ok (VList result).

(* ================================================================== *)
(** * [get_stock_data] *)

Definition quote_url (symbol : string) : string :=
  "https://www.nseindia.com/api/quote-equity?symbol=" ++ symbol.

(** [obj[k1][k2]...]. *)
Fixpoint py_path (obj : value) (keys : list string) : result value :=
  match keys with
  | [] => Ok obj
  | k :: keys' => v <- py_getitem obj k ;; py_path v keys'
  end.

Definition get_stock_data (self : NseAPI) (symbol : string) : result value :=
  response <- client self (quote_url symbol) (HEADERS self) None ;;
  has_info <-
    (if Z.eqb (status_code response) 200 then
       j <- json response ;;
       info <- py_get j "info" VNone ;;
       Ok (py_truthy info)
     else Ok false) ;;
  if has_info then
    result <- json response ;;
    symbol' <- py_path result ["info"; "symbol"] ;;
    company_name <- py_path result ["info"; "companyName"] ;;
    info <- py_getitem result "info" ;;
    industry <- py_get info "industry" VNone ;;
    listingDate <- py_path result ["metadata"; "listingDate"] ;;
    open_price <- py_path result ["priceInfo"; "open"] ;;
    last_price <- py_path result ["priceInfo"; "lastPrice"] ;;
    previous_close <- py_path result ["priceInfo"; "previousClose"] ;;
    high_price <- py_path result ["priceInfo"; "intraDayHighLow"; "max"] ;;
    low_price <- py_path result ["priceInfo"; "intraDayHighLow"; "min"] ;;
    change0 <- py_path result ["priceInfo"; "change"] ;;
    change <- py_round change0 2 ;;
    pChange0 <- py_path result ["priceInfo"; "pChange"] ;;
    pChange <- py_round pChange0 2 ;;
    w52_high_date <- py_path result ["priceInfo"; "weekHighLow"; "maxDate"] ;;
    w52_high <- py_path result ["priceInfo"; "weekHighLow"; "max"] ;;
    w52_low_date <- py_path result ["priceInfo"; "weekHighLow"; "minDate"] ;;
    w52_low <- py_path result ["priceInfo"; "weekHighLow"; "min"] ;;
    total_traded_volume <- py_path result ["preOpenMarket"; "totalTradedVolume"] ;;
    total_buy_quantity <- py_path result ["preOpenMarket"; "totalBuyQuantity"] ;;
    total_sell_quantity <- py_path result ["preOpenMarket"; "totalSellQuantity"] ;;
    last_update_time <- py_path result ["metadata"; "lastUpdateTime"] ;;
    let final_dict :=
      [("symbol", symbol');
       ("company_name", company_name);
       ("industry", industry);
       ("listingDate", listingDate);
       ("open_price", open_price);
       ("last_price", last_price);
       ("previous_close", previous_close);
       ("high_price", high_price);
       ("low_price", low_price);
       ("change", change);
       ("pChange", pChange);
       ("52w_high_date", w52_high_date);
       ("52w_high", w52_high);
       ("52w_low_date", w52_low_date);
       ("52w_low", w52_low);
       ("total_traded_volume", total_traded_volume);
       ("total_buy_quantity", total_buy_quantity);
       ("total_sell_quantity", total_sell_quantity);
       ("last_update_time", last_update_time)] in
    Ok (VDict final_dict)
  else Ok VNone.

(* ================================================================== *)
(** * [str] and [repr] *)

Definition dquote : ascii := "034"%char.
Definition squote : ascii := "039"%char.
Definition backslash : ascii := "092"%char.

(** Decimal digits of an integer, as [str(int)] writes them. *)
Definition int_repr (z : Z) : string := NilZero.string_of_int (Z.to_int z).

Fixpoint zeros (n : nat) : string :=
  match n with
  | O => ""
  | S n' => String "0" (zeros n')
  end.

Fixpoint strip_zeros_rev (s : list ascii) : list ascii :=
  match s with
  | "0"%char :: s' => strip_zeros_rev s'
  | _ => s
  end.

(** [s] without its trailing zeros. *)
Definition strip_trailing_zeros (s : string) : string :=
  string_of_list_ascii
    (rev (strip_zeros_rev (rev (list_ascii_of_string s)))).

(** The least [k], searched upwards from [k0], with [num / den < 10 ^ k]. *)
Fixpoint decimal_exponent (fuel : nat) (k0 : Z) (num den : Z) : Z :=
  match fuel with
  | O => k0
  | S fuel' =>
      let below :=
        if 0 <=? k0 then num <? den * 10 ^ k0 else num * 10 ^ (- k0) <? den in
      if below then k0 else decimal_exponent fuel' (k0 + 1) num den
  end.

(** The float nearest to [c * 10 ^ (- s)]. *)
Definition float_of_scaled (c : Z) (s : Z) : float :=
  if 0 <=? s then float_of_ratio c (Z.to_pos (10 ^ s))
  else float_of_ratio (c * 10 ^ (- s)) 1.

(** The shortest decimal that reads back as the positive float [x] of exact
    value [num / den], which lies in [[10 ^ (k - 1), 10 ^ k)]; among the
    decimals of that length, the one nearest to [x].  The answer is the
    integer of its digits and the number of digits [n] asked for. *)
Fixpoint shortest_digits (fuel : nat) (n : Z) (x : float) (num den k : Z)
  : Z * Z :=
  let s := n - k in
  let num' := if 0 <=? s then num * 10 ^ s else num in
  let den' := if 0 <=? s then den else den * 10 ^ (- s) in
  let lo := num' / den' in
  let hi := lo + 1 in
  match fuel with
  | O => (lo, n)
  | S fuel' =>
      let ok_lo := SFeqb (float_of_scaled lo s) x in
      let ok_hi := SFeqb (float_of_scaled hi s) x in
      match ok_lo, ok_hi with
      | true, true =>
          match Z.compare (2 * num') ((2 * lo + 1) * den') with
          | Lt => (lo, n)
          | Gt => (hi, n)
          | Eq => (if Z.even lo then lo else hi, n)
          end
      | true, false => (lo, n)
      | false, true => (hi, n)
      | false, false => shortest_digits fuel' (n + 1) x num den k
      end
  end.

(** The text of a finite positive float from its shortest digits and the
    position [decpt] of the decimal point, in the layout of [float.__repr__]. *)
Definition layout_float (digits : string) (decpt : Z) : string :=
  let len := Z.of_nat (String.length digits) in
  if orb (16 <? decpt) (decpt <? -3) then
    let e := decpt - 1 in
    let mantissa :=
      match digits with
      | String d EmptyString => String d EmptyString
      | String d rest => String d (String "." rest)
      | EmptyString => "0"
      end in
    let exp_digits := int_repr (Z.abs e) in
    mantissa ++ "e" ++ (if e <? 0 then "-" else "+")
             ++ (if Z.abs e <? 10 then "0" else "") ++ exp_digits
  else if decpt <=? 0 then
    "0." ++ zeros (Z.to_nat (- decpt)) ++ digits
  else if len <=? decpt then
    digits ++ zeros (Z.to_nat (decpt - len)) ++ ".0"
  else
    substring 0 (Z.to_nat decpt) digits ++ "."
      ++ substring (Z.to_nat decpt) (Z.to_nat (len - decpt)) digits.

(** [repr(x)] of a float: the shortest decimal that reads back as [x]. *)
Definition float_repr (x : float) : string :=
  match x with
  | S754_nan => "nan"
  | S754_infinity s => if s then "-inf" else "inf"
  | S754_zero s => if s then "-0.0" else "0.0"
  | S754_finite s m e =>
      let num := if 0 <=? e then Zpos m * 2 ^ e else Zpos m in
      let den := if 0 <=? e then 1 else 2 ^ (- e) in
      let k := decimal_exponent 700 (-330) num den in
      let '(c, n) := shortest_digits 17 1 (S754_finite false m e) num den k in
      let all_digits := int_repr c in
      let decpt := k + (Z.of_nat (String.length all_digits) - n) in
      (if s then "-" else "") ++ layout_float (strip_trailing_zeros all_digits) decpt
  end.

Definition hex_digit_lower (n : nat) : ascii :=
  if Nat.ltb n 10 then ascii_of_nat (48 + n) else ascii_of_nat (87 + n).

Fixpoint contains_char (c : ascii) (s : string) : bool :=
  match s with
  | EmptyString => false
  | String c' s' => orb (Ascii.eqb c c') (contains_char c s')
  end.

Fixpoint escape (q : ascii) (s : string) : string :=
  match s with
  | EmptyString => EmptyString
  | String c s' =>
      let n := nat_of_ascii c in
      let rest := escape q s' in
      if orb (Ascii.eqb c q) (Ascii.eqb c backslash) then
        String backslash (String c rest)
      else if Nat.eqb n 9 then String backslash (String "t" rest)
      else if Nat.eqb n 10 then String backslash (String "n" rest)
      else if Nat.eqb n 13 then String backslash (String "r" rest)
      else if orb (Nat.ltb n 32) (Nat.leb 127 n) then
        String backslash
          (String "x" (String (hex_digit_lower (Nat.div n 16))
                         (String (hex_digit_lower (Nat.modulo n 16)) rest)))
      else String c rest
  end.

(** [repr(s)] of a string: single quotes, unless the text has a single quote
    and no double quote. *)
Definition str_repr (s : string) : string :=
  let q :=
    if andb (contains_char squote s) (negb (contains_char dquote s))
    then dquote else squote in
  String q (escape q s) ++ String q EmptyString.

Fixpoint join (sep : string) (l : list string) : string :=
  match l with
  | [] => ""
  | [s] => s
  | s :: l' => s ++ sep ++ join sep l'
  end.

(** [repr(obj)]. *)
Fixpoint py_repr (obj : value) : string :=
  match obj with
  | VNone => "None"
  | VBool b => if b then "True" else "False"
  | VInt z => int_repr z
  | VFloat f => float_repr f
  | VStr s => str_repr s
  | VList l => "[" ++ join ", " (map py_repr l) ++ "]"
  | VDict d =>
      "{" ++ join ", "
               ((fix items (d : list (string * value)) : list string :=
                   match d with
                   | [] => []
                   | (k, v) :: d' => (str_repr k ++ ": " ++ py_repr v) :: items d'
                   end) d)
          ++ "}"
  end.

(** [str(obj)], which is also what an f-string field [{obj}] writes. *)
Definition py_str (obj : value) : string :=
  match obj with
  | VStr s => s
  | _ => py_repr obj
  end.

(* ================================================================== *)
(** * Dates and [strptime] with the format [%d-%b-%Y] *)

Record date : Type := { year : Z; month : Z; day : Z }.

Definition MONTHS : list string :=
  ["JAN"; "FEB"; "MAR"; "APR"; "MAY"; "JUN";
   "JUL"; "AUG"; "SEP"; "OCT"; "NOV"; "DEC"].

Fixpoint index_of (s : string) (l : list string) (i : Z) : option Z :=
  match l with
  | [] => None
  | s' :: l' => if String.eqb s s' then Some i else index_of s l' (i + 1)
  end.

(** [%b]: an abbreviated month name, in any case. *)
Definition parse_month (s : string) : option Z := index_of (upper s) MONTHS 1.

Definition digit_value (c : ascii) : Z := Z.of_nat (nat_of_ascii c) - 48.

(** [%d]: [3[0-1]], [[1-2]\d], [0[1-9]], [[1-9]], or a space and [[1-9]]. *)
Definition parse_day (s : string) : option Z :=
  match s with
  | String a EmptyString =>
      if andb (is_digit a) (negb (Ascii.eqb a "0")) then Some (digit_value a)
      else None
  | String a (String b EmptyString) =>
      if andb (Ascii.eqb a " ") (andb (is_digit b) (negb (Ascii.eqb b "0")))
      then Some (digit_value b)
      else if andb (is_digit a) (is_digit b) then
        let n := 10 * digit_value a + digit_value b in
        if andb (1 <=? n) (n <=? 31) then Some n else None
      else None
  | _ => None
  end.

(** [%Y]: four digits. *)
Definition parse_year (s : string) : option Z :=
  match s with
  | String a (String b (String c (String d EmptyString))) =>
      if forallb is_digit [a; b; c; d] then
        Some (1000 * digit_value a + 100 * digit_value b
              + 10 * digit_value c + digit_value d)
      else None
  | _ => None
  end.

Definition is_leap (y : Z) : bool :=
  andb (y mod 4 =? 0) (orb (negb (y mod 100 =? 0)) (y mod 400 =? 0)).

Definition days_in_month (y m : Z) : Z :=
  if m =? 2 then (if is_leap y then 29 else 28)
  else if existsb (Z.eqb m) [4; 6; 9; 11] then 30
  else 31.

(** The fields of [s] between the occurrences of [sep]. *)
Fixpoint split_on (sep : ascii) (s : string) : list string :=
  match s with
  | EmptyString => [EmptyString]
  | String c s' =>
      if Ascii.eqb c sep then EmptyString :: split_on sep s'
      else
        match split_on sep s' with
        | [] => [String c EmptyString]
        | f :: fs => String c f :: fs
        end
  end.

(** [datetime.strptime(s, "%d-%b-%Y").date()]; [None] where it raises. *)
Definition strptime_dmy (s : string) : option date :=
  match split_on "-" s with
  | [d; b; y] =>
      match parse_day d, parse_month b, parse_year y with
      | Some dd, Some mm, Some yy =>
          if andb (1 <=? yy) (dd <=? days_in_month yy mm)
          then Some {| year := yy; month := mm; day := dd |}
          else None
      | _, _, _ => None
      end
  | _ => None
  end.

(** Days from 1970-01-01 to [d] in the proleptic Gregorian calendar. *)
Definition days_from_epoch (d : date) : Z :=
  let y := if month d <=? 2 then year d - 1 else year d in
  let era := y / 400 in
  let yoe := y - era * 400 in
  let mp := (month d + 9) mod 12 in
  let doy := (153 * mp + 2) / 5 + day d - 1 in
  let doe := yoe * 365 + yoe / 4 - yoe / 100 + doy in
  era * 146097 + doe - 719468.

(* ================================================================== *)
(** * pandas: columns and frames *)

(** A Python object held by a column of dtype [object], or read out of a
    column of another dtype. *)
Inductive cell : Type :=
| CStr (s : string)
| CInt (z : Z)
| CFloat (f : float)
| CBool (b : bool)
| CNone
| CTimestamp (d : date)
| CDate (d : date)
| CNaT.

Definition NaN : float := S754_nan.

Definition is_nan (f : float) : bool :=
  match f with
  | S754_nan => true
  | _ => false
  end.

(** A column with its dtype.  A missing value is [NaN] in a [Float64] or
    [Object] column and [None] (NaT) in a [Datetime64] column. *)
Inductive column : Type :=
| Int64 (values : list Z)
| UInt64 (values : list Z)
| Float64 (values : list float)
| Bool (values : list bool)
| Object (values : list cell)
| Datetime64 (values : list (option date)).

Definition timestamp_cell (o : option date) : cell :=
  match o with
  | Some d => CTimestamp d
  | None => CNaT
  end.

(** The objects iterating over a column gives. *)
Definition cells (c : column) : list cell :=
  match c with
  | Int64 l => map CInt l
  | UInt64 l => map CInt l
  | Float64 l => map CFloat l
  | Bool l => map CBool l
  | Object l => l
  | Datetime64 l => map timestamp_cell l
  end.

Definition column_length (c : column) : nat := List.length (cells c).

(** [nrows] is the length of the index; [columns] are the labelled columns in
    their order. *)
Record DataFrame : Type := {
  nrows : nat;
  columns : list (string * column)
}.

Definition labels (df : DataFrame) : list string := map fst (columns df).

(** Every column is as long as the index. *)
Definition frame_ok (df : DataFrame) : bool :=
  forallb (fun lc => Nat.eqb (column_length (snd lc)) (nrows df)) (columns df).

(** [df.columns = names]. *)
Definition set_columns (df : DataFrame) (names : list string) : result DataFrame :=
  if Nat.eqb (List.length names) (List.length (columns df)) then
    Ok {| nrows := nrows df;
          columns := combine names (map snd (columns df)) |}
  else Raise ValueError.

(** [df.insert(loc, label, value)] for a scalar [value]. *)
Definition insert (df : DataFrame) (loc : nat) (label : string) (value : cell)
  : result DataFrame :=
  if existsb (String.eqb label) (labels df) then Raise ValueError
  else if Nat.ltb (List.length (columns df)) loc then Raise IndexError
  else
    Ok {| nrows := nrows df;
          columns := firstn loc (columns df)
                       ++ (label, Object (repeat value (nrows df)))
                       :: skipn loc (columns df) |}.

Fixpoint find_column (label : string) (cols : list (string * column))
  : option column :=
  match cols with
  | [] => None
  | (l, c) :: cols' =>
      if String.eqb label l then Some c else find_column label cols'
  end.

(** [df[label]] for a label that names one column. *)
Definition getitem (df : DataFrame) (label : string) : result column :=
  match find_column label (columns df) with
  | Some c => Ok c
  | None => Raise (KeyError label)
  end.

Fixpoint replace_column (label : string) (c : column)
  (cols : list (string * column)) : list (string * column) :=
  match cols with
  | [] => [(label, c)]
  | (l, c') :: cols' =>
      if String.eqb label l then (l, c) :: cols'
      else (l, c') :: replace_column label c cols'
  end.

(** [df[label] = c] for a column [c]. *)
Definition setitem (df : DataFrame) (label : string) (c : column)
  : result DataFrame :=
  if Nat.eqb (column_length c) (nrows df) then
    Ok {| nrows := nrows df; columns := replace_column label c (columns df) |}
  else Raise ValueError.

(** The texts [to_datetime] reads as NaT, besides the empty one. *)
Definition NAT_STRINGS : list string :=
  ["NaT"; "nat"; "NAT"; "nan"; "NaN"; "NAN"].

(** One value under [pd.to_datetime(..., format=...)] with the format
    [%d-%b-%Y]: a text is parsed, a missing value becomes NaT, a number or
    boolean is written out with [str] and so never has the format.  The unit
    of the result is chosen to hold the dates, so a day of any year from 1
    to 9999 is kept. *)
Definition to_datetime_cell (c : cell) : result (option date) :=
  match c with
  | CStr s =>
      if orb (String.eqb s "") (existsb (String.eqb s) NAT_STRINGS) then Ok None
      else
        match strptime_dmy s with
        | Some d => Ok (Some d)
        | None => Raise ValueError
        end
  | CFloat f => if is_nan f then Ok None else Raise ValueError
  | CNone | CNaT => Ok None
  | CTimestamp d | CDate d => Ok (Some d)
  | CInt _ | CBool _ => Raise ValueError
  end.

Definition to_datetime (c : column) : result column :=
  values <- mapM to_datetime_cell (cells c) ;;
  Ok (Datetime64 values).

(** The [date] of a timestamp; NaT has none and stays NaT. *)
Definition date_cell (o : option date) : cell :=
  match o with
  | Some d => CDate d
  | None => CNaT
  end.

Definition is_nat (o : option date) : bool :=
  match o with
  | Some _ => false
  | None => true
  end.

(** The series made of the dates as Python objects.  Its dtype is inferred
    from them: [object], except that values which are all NaT, when there is
    at least one, make a datetime column again. *)
Definition date_objects (l : list (option date)) : column :=
  match l with
  | [] => Object []
  | _ :: _ =>
      if forallb is_nat l then Datetime64 l else Object (map date_cell l)
  end.

(** [series.dt.date]. *)
Definition dt_date (c : column) : result column :=
  match c with
  | Datetime64 l => Ok (date_objects l)
  | _ => Raise AttributeError
  end.

(* ================================================================== *)
(** * pandas: [read_csv] and [to_numeric] *)

(** What [to_numeric] makes of one object: an integer of any size, a float
    or a boolean.  [NNegZero] is the integer written [-0], which is [0] among
    integers and [-0.0] among floats. *)
Inductive number : Type :=
| NInt (z : Z)
| NNegZero
| NFloat (f : float)
| NBool (b : bool).

(** The two text parsers of pandas the client relies on.
    - [read_csv text thousands] is
      [pd.read_csv(StringIO(text), thousands=thousands)]: the frame, or the
      reader's exception.
    - [str_to_number s] is the number [pd.to_numeric] reads in the text [s],
      if it reads one. *)
Class Pandas : Type := {
  read_csv : string -> string -> result DataFrame;
  str_to_number : string -> option number
}.

Definition INT64_MIN : Z := - 2 ^ 63.
Definition INT64_MAX : Z := 2 ^ 63 - 1.
Definition UINT64_MAX : Z := 2 ^ 64 - 1.

Definition number_is_float (n : number) : bool :=
  match n with NFloat _ => true | _ => false end.

Definition number_is_int (n : number) : bool :=
  match n with NInt _ | NNegZero => true | _ => false end.

(** An integer below zero that fits 64 bits. *)
Definition number_is_sint (n : number) : bool :=
  match n with
  | NInt z => andb (INT64_MIN <=? z) (z <? 0)
  | _ => false
  end.

(** An integer that fits 64 bits without a sign only. *)
Definition number_is_uint (n : number) : bool :=
  match n with
  | NInt z => andb (INT64_MAX <? z) (z <=? UINT64_MAX)
  | _ => false
  end.

(** An integer that does not fit 64 bits, with a sign or without. *)
Definition number_is_big (n : number) : bool :=
  match n with
  | NInt z => orb (z <? INT64_MIN) (UINT64_MAX <? z)
  | _ => false
  end.

Definition number_to_float (n : number) : float :=
  match n with
  | NInt z => float_of_Z z
  | NNegZero => S754_zero true
  | NFloat f => f
  | NBool b => float_of_Z (if b then 1 else 0)
  end.

Definition number_to_int (n : number) : Z :=
  match n with
  | NInt z => z
  | NNegZero => 0
  | NFloat _ => 0
  | NBool b => if b then 1 else 0
  end.

Definition number_to_bool (n : number) : bool :=
  match n with
  | NBool b => b
  | _ => false
  end.

(** The dtype of the converted values: floats when one is a float (a missing
    value is one), when an integer does not fit 64 bits, or when one integer
    needs the sign and another the 64th bit; else integers when one is an
    integer, unsigned when one needs the 64th bit; else booleans; no value at
    all gives an empty integer column. *)
Definition unify (ns : list number) : column :=
  if orb (existsb number_is_float ns)
         (orb (existsb number_is_big ns)
              (andb (existsb number_is_uint ns) (existsb number_is_sint ns)))
  then Float64 (map number_to_float ns)
  else if existsb number_is_int ns then
    if existsb number_is_uint ns then UInt64 (map number_to_int ns)
    else Int64 (map number_to_int ns)
  else match ns with
       | [] => Int64 []
       | _ => Bool (map number_to_bool ns)
       end.

(** Nanoseconds since the epoch, as the integer view of a [datetime64[ns]]
    value; NaT is the least 64-bit integer. *)
Definition datetime_ns (o : option date) : Z :=
  match o with
  | Some d => days_from_epoch d * 86400 * 1000000000
  | None => - 2 ^ 63
  end.

Section Historical.
Context {P : Pandas}.

(** One object under [errors='coerce']: what is not a number, and no text of
    one, becomes NaN. *)
Definition coerce_cell (c : cell) : number :=
  match c with
  | CStr s =>
      match str_to_number s with
      | Some n => n
      | None => NFloat NaN
      end
  | CInt z => NInt z
  | CFloat f => NFloat f
  | CBool b => NBool b
  | CNone | CNaT | CTimestamp _ | CDate _ => NFloat NaN
  end.

(** [pd.to_numeric(c, errors='coerce')]: a numeric column is returned as it
    is; an object column is converted value by value. *)
Definition to_numeric (c : column) : column :=
  match c with
  | Int64 _ | UInt64 _ | Float64 _ | Bool _ => c
  | Datetime64 l => Int64 (map datetime_ns l)
  | Object l => unify (map coerce_cell l)
  end.

(* ================================================================== *)
(** * [get_historical_data] *)

Definition HIST_COLUMNS : list string :=
  ["DATE"; "SERIES"; "OPEN"; "HIGH"; "LOW"; "PREV_CLOSE"; "LTP"; "CLOSE";
   "VWAP"; "52W_H"; "52W_L"; "VOLUME"; "VALUE"; "NO_OF_TRADES"].

Definition historical_url (symbol start_date end_date : string) : string :=
  "https://www.nseindia.com/api/historical/cm/equity?symbol="
    ++ quote (upper symbol)
    ++ "&series=[" ++ String dquote "EQ" ++ String dquote "]&from="
    ++ start_date ++ "&to=" ++ end_date ++ "&csv=true".

(** The statements of the [try] block. *)
Definition parse_table (response_text symbol : string) : result DataFrame :=
  df <- read_csv response_text "," ;;
  df <- set_columns df HIST_COLUMNS ;;
  df <- insert df 0 "SYMBOL" (CStr symbol) ;;
  col <- getitem df "DATE" ;;
  stamps <- to_datetime col ;;
  dates <- dt_date stamps ;;
  df <- setitem df "DATE" dates ;;
  vwap <- getitem df "VWAP" ;;
  df <- setitem df "VWAP" (to_numeric vwap) ;;
  Ok df.

(** The method answers with what it printed and with its outcome: the frame,
    [None], or the exception it raised. *)
Definition get_historical_data (self : NseAPI)
  (symbol start_date end_date : string)
  : list string * result (option DataFrame) :=
  let url := historical_url symbol start_date end_date in
  match client self url (HEADERS self) (Some 1000) with
  | Raise e => ([], Raise e)
  | Ok response =>
      if Z.eqb (status_code response) 200 then
        match parse_table (text response) symbol with
        | Ok df => ([], Ok (Some df))
        | Raise _ =>
            ([], j <- json response ;;
                 showMessage <- py_get j "showMessage" VNone ;;
                 Raise (Exception ("Error: " ++ py_str showMessage)))
        end
      else ([text response], Ok None)
  end.

End Historical.

(* ================================================================== *)
(** * A reader for the examples

    An executable instance of [Pandas] for comma-separated text, written
    after the tokenizer and the type inference of [read_csv]: a header line
    and data lines, fields quoted with double quotes, empty lines and lines
    of blanks skipped, short lines filled with missing values.  When the
    first data line has more fields than the header, its leading fields are
    the index and are not columns; a later line with more fields than that
    is refused.  A column is typed from its texts in the order [read_csv]
    tries: integers, floats, booleans, else the texts themselves.  The labels
    are the fields of the header as they are written (the client replaces
    them before it reads one).  A float is the nearest one to the numeral,
    which is what pandas computes for numerals of up to fifteen digits, two
    of them decimals. *)

Module Reader.

Inductive state : Type :=
  StartField | InField | InQuoted | QuoteInQuoted | WhitespaceLine.

Definition is_newline (c : ascii) : bool :=
  orb (Ascii.eqb c "010") (Ascii.eqb c "013").

(** A space or a tab. *)
Definition is_blank (c : ascii) : bool :=
  orb (Ascii.eqb c " ") (Ascii.eqb c "009").

Definition end_field (field : list ascii) (row : list string) : list string :=
  string_of_list_ascii (rev field) :: row.

(** A line with no field at all is a blank line and is dropped. *)
Definition end_line (row : list string) (rows : list (list string))
  : list (list string) :=
  match row with
  | [] => rows
  | _ => rev row :: rows
  end.

(** The tokenizer: [field], [row] and [rows] are kept in reverse.  A record
    starts in [StartField] with no field in [row]; blanks at its start are
    held in [WhitespaceLine] until the line ends, which drops it, or until
    another character shows that they begin a field.  The input may not end
    inside a quoted field. *)
Fixpoint tokenize (st : state) (field : list ascii) (row : list string)
  (rows : list (list string)) (input : string) : option (list (list string)) :=
  match input with
  | EmptyString =>
      match st, row with
      | StartField, [] => Some (rev rows)
      | WhitespaceLine, _ => Some (rev rows)
      | InQuoted, _ => None
      | _, _ => Some (rev (end_line (end_field field row) rows))
      end
  | String c rest =>
      match st with
      | StartField =>
          if is_newline c then
            match row with
            | [] => tokenize StartField [] [] rows rest
            | _ => tokenize StartField [] [] (end_line (end_field [] row) rows) rest
            end
          else if Ascii.eqb c dquote then tokenize InQuoted [] row rows rest
          else if Ascii.eqb c "," then
            tokenize StartField [] (end_field [] row) rows rest
          else if is_blank c then
            match row with
            | [] => tokenize WhitespaceLine [c] row rows rest
            | _ => tokenize InField [c] row rows rest
            end
          else tokenize InField [c] row rows rest
      | WhitespaceLine =>
          if is_newline c then tokenize StartField [] [] rows rest
          else if is_blank c then
            tokenize WhitespaceLine (c :: field) row rows rest
          else if Ascii.eqb c "," then
            tokenize StartField [] (end_field field row) rows rest
          else tokenize InField (c :: field) row rows rest
      | InField =>
          if is_newline c then
            tokenize StartField [] [] (end_line (end_field field row) rows) rest
          else if Ascii.eqb c "," then
            tokenize StartField [] (end_field field row) rows rest
          else tokenize InField (c :: field) row rows rest
      | InQuoted =>
          if Ascii.eqb c dquote then tokenize QuoteInQuoted field row rows rest
          else tokenize InQuoted (c :: field) row rows rest
      | QuoteInQuoted =>
          if Ascii.eqb c dquote then tokenize InQuoted (c :: field) row rows rest
          else if Ascii.eqb c "," then
            tokenize StartField [] (end_field field row) rows rest
          else if is_newline c then
            tokenize StartField [] [] (end_line (end_field field row) rows) rest
          else tokenize InField (c :: field) row rows rest
      end
  end.

(** The texts read as a missing value. *)
Definition NA_VALUES : list string :=
  [""; "#N/A"; "#N/A N/A"; "#NA"; "-1.#IND"; "-1.#QNAN"; "-NaN"; "-nan";
   "1.#IND"; "1.#QNAN"; "<NA>"; "N/A"; "NA"; "NULL"; "NaN"; "None"; "n/a";
   "nan"; "null"].

Definition is_na (s : string) : bool := existsb (String.eqb s) NA_VALUES.

(** C's [isspace]: the space and the codes 9 to 13. *)
Definition is_space (c : ascii) : bool :=
  let n := nat_of_ascii c in
  orb (Nat.eqb n 32) (andb (Nat.leb 9 n) (Nat.leb n 13)).

Fixpoint drop_spaces (l : list ascii) : list ascii :=
  match l with
  | c :: l' => if is_space c then drop_spaces l' else l
  | [] => []
  end.

Definition is_separator (sep : option ascii) (c : ascii) : bool :=
  match sep with
  | Some s => Ascii.eqb c s
  | None => false
  end.

Definition take_sign (l : list ascii) : bool * list ascii :=
  match l with
  | "-"%char :: l' => (true, l')
  | "+"%char :: l' => (false, l')
  | _ => (false, l)
  end.

(** The digits of an integer: between and after them, any number of
    separators. *)
Fixpoint integer_digits (sep : option ascii) (acc : Z) (l : list ascii)
  : Z * list ascii :=
  match l with
  | c :: l' =>
      if is_digit c then integer_digits sep (10 * acc + digit_value c) l'
      else if is_separator sep c then integer_digits sep acc l'
      else (acc, l)
  | [] => (acc, [])
  end.

(** An integer: spaces, a sign, a digit, digits and separators, spaces.  The
    answer is the sign and the magnitude. *)
Definition parse_integer (sep : option ascii) (s : string) : option (bool * Z) :=
  let '(neg, l) := take_sign (drop_spaces (list_ascii_of_string s)) in
  match l with
  | c :: _ =>
      if is_digit c then
        let '(m, rest) := integer_digits sep 0 l in
        match drop_spaces rest with
        | [] => Some (neg, m)
        | _ :: _ => None
        end
      else None
  | [] => None
  end.

Definition signed (sm : bool * Z) : Z :=
  if fst sm then - snd sm else snd sm.

(** The digits of a float: after each of them, at most one separator. *)
Fixpoint float_digits (sep : option ascii) (acc : Z) (n : nat) (l : list ascii)
  : Z * nat * list ascii :=
  match l with
  | c :: l' =>
      if is_digit c then
        match l' with
        | c' :: l'' =>
            if is_separator sep c' then
              float_digits sep (10 * acc + digit_value c) (S n) l''
            else float_digits sep (10 * acc + digit_value c) (S n) l'
        | [] => (10 * acc + digit_value c, S n, [])
        end
      else (acc, n, l)
  | [] => (acc, n, [])
  end.

Definition is_finite (f : float) : bool :=
  match f with
  | S754_zero _ | S754_finite _ _ _ => true
  | _ => false
  end.

Definition INFINITY_NAMES : list string :=
  ["INF"; "+INF"; "INFINITY"; "+INFINITY"].

Definition NEG_INFINITY_NAMES : list string := ["-INF"; "-INFINITY"].

(** The name of an infinity, in any case. *)
Definition parse_infinity (s : string) : option float :=
  if existsb (String.eqb (upper s)) INFINITY_NAMES
  then Some (S754_infinity false)
  else if existsb (String.eqb (upper s)) NEG_INFINITY_NAMES
  then Some (S754_infinity true)
  else None.

(** The exponent after the digits, and what follows it; an [e] without a
    digit is not one. *)
Definition take_exponent (l : list ascii) : Z * list ascii :=
  match l with
  | c :: l' =>
      if orb (Ascii.eqb c "e") (Ascii.eqb c "E") then
        let '(eneg, l2) := take_sign l' in
        let '(e, ne, l3) := float_digits None 0 0 l2 in
        match ne with
        | O => (0, l)
        | S _ => (if eneg then - e else e, l3)
        end
      else (0, l)
  | [] => (0, [])
  end.

(** A float: spaces, a sign, digits, a fraction, an exponent, spaces, with a
    digit before the exponent; a numeral whose decimal exponent is outside
    [-1021, 1024] or which is too large for a float is none.  Or the name of
    an infinity. *)
Definition parse_float (sep : option ascii) (s : string) : option float :=
  let '(neg, l) := take_sign (drop_spaces (list_ascii_of_string s)) in
  let '(ip, ni, l) := float_digits sep 0 0 l in
  let '(m, nf, l) :=
    match l with
    | "."%char :: l' => float_digits None ip 0 l'
    | _ => (ip, O, l)
    end in
  let '(e, l) := take_exponent l in
  let scale := Z.of_nat nf - e in
  match drop_spaces l with
  | [] =>
      if andb (negb (Nat.eqb (ni + nf) 0))
              (andb (- 1024 <=? scale) (scale <=? 1021))
      then
        let x := float_of_scaled m scale in
        if andb (is_finite (float_of_Z m)) (is_finite x)
        then Some (if neg then SFopp x else x)
        else None
      else parse_infinity s
  | _ :: _ => parse_infinity s
  end.

Definition TRUE_VALUES : list string := ["True"; "TRUE"; "true"].
Definition FALSE_VALUES : list string := ["False"; "FALSE"; "false"].

Definition parse_bool (s : string) : option bool :=
  if existsb (String.eqb s) TRUE_VALUES then Some true
  else if existsb (String.eqb s) FALSE_VALUES then Some false
  else None.

Fixpoint all_some {A : Type} (l : list (option A)) : option (list A) :=
  match l with
  | [] => Some []
  | Some a :: l' =>
      match all_some l' with
      | Some r => Some (a :: r)
      | None => None
      end
  | None :: _ => None
  end.

(** What a converter makes of a field: nothing of a missing value. *)
Definition unless_na {A : Type} (convert : string -> option A) (s : string)
  : option (option A) :=
  if is_na s then Some None else option_map Some (convert s).

Definition is_missing {A : Type} (o : option A) : bool :=
  match o with
  | Some _ => false
  | None => true
  end.

Definition present {A : Type} (l : list (option A)) : list A :=
  List.concat (map (fun o => match o with
                             | Some a => [a]
                             | None => []
                             end) l).

Definition fits_int64 (z : Z) : bool :=
  andb (INT64_MIN <=? z) (z <=? INT64_MAX).

Definition float_or_nan (o : option float) : float :=
  match o with
  | Some f => f
  | None => NaN
  end.

(** A 64-bit integer column with a missing value becomes a float column;
    the least integer is the mark of a missing value there. *)
Definition upcast (o : option Z) : float :=
  match o with
  | Some z => if z =? INT64_MIN then NaN else float_of_Z z
  | None => NaN
  end.

Definition int_or_nan (o : option Z) : cell :=
  match o with
  | Some z => CInt z
  | None => CFloat NaN
  end.

Definition bool_or_nan (o : option bool) : cell :=
  match o with
  | Some b => CBool b
  | None => CFloat NaN
  end.

Definition text_or_nan (s : string) : cell :=
  if is_na s then CFloat NaN else CStr s.

Definition known {A : Type} (default : A) (o : option A) : A :=
  match o with
  | Some a => a
  | None => default
  end.

(** The column of the integers and missing values [zs], read from the texts
    [l]: 64-bit integers, floats when one is missing; else unsigned 64-bit
    integers, when all fit and none is negative or missing; else the texts,
    when all fit and one needs the 64th bit; else Python integers when the
    texts have no separator, and the texts when they have. *)
Definition integer_column (l : list string) (zs : list (option Z)) : column :=
  let values := present zs in
  let missing := existsb is_missing zs in
  if forallb fits_int64 values then
    if missing then Float64 (map upcast zs) else Int64 values
  else
    let over := existsb (fun z => UINT64_MAX <? z) values in
    let unsigned := existsb (fun z => INT64_MAX <? z) values in
    let negative := existsb (fun z => z <? 0) values in
    if andb (negb over) (andb (negb negative) (negb missing))
    then UInt64 values
    else if andb (negb over) unsigned then Object (map text_or_nan l)
    else
      match all_some (map (unless_na (parse_integer None)) l) with
      | Some _ => Object (map int_or_nan zs)
      | None => Object (map text_or_nan l)
      end.

(** The column of the texts [l]. *)
Definition infer_column (sep : option ascii) (l : list string) : column :=
  match l with
  | [] => Object []
  | _ :: _ =>
      match all_some (map (unless_na (parse_integer sep)) l) with
      | Some zs => integer_column l (map (option_map signed) zs)
      | None =>
          match all_some (map (unless_na (parse_float sep)) l) with
          | Some fs => Float64 (map float_or_nan fs)
          | None =>
              match all_some (map (unless_na parse_bool) l) with
              | Some bs =>
                  if existsb is_missing bs then Object (map bool_or_nan bs)
                  else Bool (map (known false) bs)
              | None => Object (map text_or_nan l)
              end
          end
      end
  end.

(** The [i]-th field of every row, the empty text where a row is short. *)
Definition field_column (rows : list (list string)) (i : nat) : list string :=
  map (fun row => nth i row "") rows.

(** [thousands] is one character. *)
Definition separator (thousands : string) : option ascii :=
  match thousands with
  | String c EmptyString => Some c
  | _ => None
  end.

Definition read (input thousands : string) : result DataFrame :=
  match separator thousands with
  | None => Raise ValueError
  | Some sep =>
      match tokenize StartField [] [] [] input with
      | None => Raise ParserError
      | Some [] => Raise EmptyDataError
      | Some (header :: rows) =>
          let width := List.length header in
          let leading := (List.length (hd [] rows) - width)%nat in
          if forallb (fun row => Nat.leb (List.length row) (width + leading))
                     rows
          then
            Ok {| nrows := List.length rows;
                  columns :=
                    map (fun i => (nth i header "",
                                   infer_column (Some sep)
                                     (field_column rows (i + leading))))
                        (seq 0 width) |}
          else Raise ParserError
      end
  end.

Definition NAN_NAMES : list string := ["NAN"; "+NAN"; "-NAN"].

(** The number [to_numeric] reads in a text: what is written as an integer
    is one, of any size. *)
Definition to_number (s : string) : option number :=
  match parse_float None s with
  | Some f =>
      match parse_integer None s with
      | Some (neg, m) =>
          Some (if andb neg (m =? 0) then NNegZero else NInt (signed (neg, m)))
      | None => Some (NFloat f)
      end
  | None =>
      if existsb (String.eqb (upper s)) NAN_NAMES then Some (NFloat NaN)
      else None
  end.

End Reader.

#[local] Instance reader : Pandas := {|
  read_csv := Reader.read;
  str_to_number := Reader.to_number
|}.

(* ================================================================== *)
(** * Shapes of response bodies

    The predicates below describe the bodies the endpoints answer with; they
    are the hypotheses of the theorems, written as boolean checks so that
    they can be evaluated on a concrete body. *)

(** No key occurs twice: every Python dictionary is such a list. *)
Fixpoint unique_keys (keys : list string) : bool :=
  match keys with
  | [] => true
  | k :: keys' => andb (negb (existsb (String.eqb k) keys')) (unique_keys keys')
  end.

(** A row of the constituents body: a dictionary with a ['symbol'], whose
    ['meta'], when it has one, is a dictionary. *)
Definition stock_row_ok (row : value) : bool :=
  match row with
  | VDict fields =>
      match dict_lookup "symbol" fields, dict_lookup "meta" fields with
      | Some _, None => true
      | Some _, Some (VDict _) => true
      | _, _ => false
      end
  | _ => false
  end.

(** The ['symbol'] of a row ([None] for a row without one). *)
Definition row_symbol (row : value) : value :=
  match row with
  | VDict fields =>
      match dict_lookup "symbol" fields with
      | Some s => s
      | None => VNone
      end
  | _ => VNone
  end.

(** The ['companyName'] under ['meta'], [None] when either is absent. *)
Definition row_company (row : value) : value :=
  match row with
  | VDict fields =>
      match dict_lookup "meta" fields with
      | Some (VDict meta) =>
          match dict_lookup "companyName" meta with
          | Some c => c
          | None => VNone
          end
      | _ => VNone
      end
  | _ => VNone
  end.

(** Whether a row has no ['meta'], or a ['meta'] without ['companyName']. *)
Definition lacks_company (row : value) : bool :=
  match row with
  | VDict fields =>
      match dict_lookup "meta" fields with
      | None => true
      | Some (VDict meta) =>
          match dict_lookup "companyName" meta with
          | None => true
          | Some _ => false
          end
      | Some _ => false
      end
  | _ => false
  end.

(** The record [get_all_stocks] is specified to give for a row. *)
Definition stock_record (row : value) : value :=
  VDict [("stock_symbol", row_symbol row); ("company_name", row_company row)].

(** The rows that stay: those whose symbol is not the text [name]. *)
Definition not_named (name : string) (row : value) : bool :=
  py_ne_str (row_symbol row) name.

(** The source keys of an index-snapshot row. *)
Definition INDEX_SOURCE_KEYS : list string :=
  ["symbol"; "open"; "dayHigh"; "dayLow"; "lastPrice"; "previousClose";
   "change"; "pChange"; "yearHigh"; "yearLow"; "totalTradedVolume";
   "totalTradedValue"; "perChange365d"; "perChange30d"].

(** The canonical field names of an index-snapshot record. *)
Definition INDEX_FIELDS : list string :=
  ["symbol"; "open"; "dayHigh"; "dayLow"; "lastPrice"; "previousClose";
   "change"; "pChange"; "52W_High"; "52W_Low"; "totalTradedVolume";
   "totalTradedValue"; "perChange365d"; "perChange30d"; "last_updated_at"].

Definition has_key (fields : list (string * value)) (k : string) : bool :=
  match dict_lookup k fields with
  | Some _ => true
  | None => false
  end.

(** The [i]-th row of the index-snapshot body: a dictionary with every source
    key and, after the first row, a ['meta'] dictionary. *)
Definition index_row_ok (i : nat) (datum : value) : bool :=
  match datum with
  | VDict fields =>
      andb (forallb (has_key fields) INDEX_SOURCE_KEYS)
           (match i with
            | O => true
            | S _ =>
                match dict_lookup "meta" fields with
                | Some (VDict _) => true
                | _ => false
                end
            end)
  | _ => false
  end.

Fixpoint index_rows_ok (i : nat) (data : list value) : bool :=
  match data with
  | [] => true
  | datum :: rest => andb (index_row_ok i datum) (index_rows_ok (S i) rest)
  end.

(** The field names of a record, in order. *)
Definition field_names (record : value) : option (list string) :=
  match record with
  | VDict fields => Some (dict_keys fields)
  | _ => None
  end.

(** The field names the [i]-th record of [index_data] is specified to have. *)
Definition index_record_names (i : nat) : list string :=
  match i with
  | O => INDEX_FIELDS
  | S _ => INDEX_FIELDS ++ ["company_name"]
  end.

(** Whether a record has the field [k]. *)
Definition has_field (record : value) (k : string) : bool :=
  match record with
  | VDict fields => has_key fields k
  | _ => false
  end.

(** The fields of a stock-snapshot record, in order. *)
Definition STOCK_FIELDS : list string :=
  ["symbol"; "company_name"; "industry"; "listingDate"; "open_price";
   "last_price"; "previous_close"; "high_price"; "low_price"; "change";
   "pChange"; "52w_high_date"; "52w_high"; "52w_low_date"; "52w_low";
   "total_traded_volume"; "total_buy_quantity"; "total_sell_quantity";
   "last_update_time"].

(** The fields that are a renaming: the field and the path of its source in
    the body. *)
Definition STOCK_RENAMES : list (string * list string) :=
  [("symbol", ["info"; "symbol"]);
   ("company_name", ["info"; "companyName"]);
   ("listingDate", ["metadata"; "listingDate"]);
   ("open_price", ["priceInfo"; "open"]);
   ("last_price", ["priceInfo"; "lastPrice"]);
   ("previous_close", ["priceInfo"; "previousClose"]);
   ("high_price", ["priceInfo"; "intraDayHighLow"; "max"]);
   ("low_price", ["priceInfo"; "intraDayHighLow"; "min"]);
   ("52w_high_date", ["priceInfo"; "weekHighLow"; "maxDate"]);
   ("52w_high", ["priceInfo"; "weekHighLow"; "max"]);
   ("52w_low_date", ["priceInfo"; "weekHighLow"; "minDate"]);
   ("52w_low", ["priceInfo"; "weekHighLow"; "min"]);
   ("total_traded_volume", ["preOpenMarket"; "totalTradedVolume"]);
   ("total_buy_quantity", ["preOpenMarket"; "totalBuyQuantity"]);
   ("total_sell_quantity", ["preOpenMarket"; "totalSellQuantity"]);
   ("last_update_time", ["metadata"; "lastUpdateTime"])].

(** The two fields that are rounded, with the path of their source. *)
Definition STOCK_ROUNDED : list (string * list string) :=
  [("change", ["priceInfo"; "change"]);
   ("pChange", ["priceInfo"; "pChange"])].

Definition resolves (j : value) (path : list string) : bool :=
  match py_path j path with
  | Ok _ => true
  | Raise _ => false
  end.

Definition rounds (j : value) (path : list string) : bool :=
  match v <- py_path j path ;; py_round v 2 with
  | Ok _ => true
  | Raise _ => false
  end.

(** A stock-snapshot body: a non-empty ['info'] dictionary, every source
    path present, and numbers at the two paths that are rounded. *)
Definition stock_body_ok (j : value) : bool :=
  andb (match py_getitem j "info" with
        | Ok (VDict (_ :: _)) => true
        | _ => false
        end)
       (andb (forallb (fun op => resolves j (snd op)) STOCK_RENAMES)
             (forallb (fun op => rounds j (snd op)) STOCK_ROUNDED)).

(** A cell that [to_datetime] accepts: a day-month-year text or a missing
    value. *)
Definition date_cell_ok (c : cell) : bool :=
  match to_datetime_cell c with
  | Ok _ => true
  | Raise _ => false
  end.


(** A column of a numeric dtype. *)
Definition numeric_dtype (c : column) : bool :=
  match c with
  | Int64 _ | UInt64 _ | Float64 _ | Bool _ => true
  | _ => false
  end.

(** The object a column of the dtype of [c] holds for the number [n]. *)
Definition number_cell (c : column) (n : number) : cell :=
  match c with
  | Float64 _ => CFloat (number_to_float n)
  | Bool _ => CBool (number_to_bool n)
  | _ => CInt (number_to_int n)
  end.



(** The column of the table under [label], made from the reader's column [c]
    at that position: the dates for [DATE], the converted column for [VWAP],
    the reader's column anywhere else. *)
Definition shaped_column {P : Pandas} (stamps : list (option date))
  (label : string) (c : column) : column :=
  if String.eqb label "DATE" then date_objects stamps
  else if String.eqb label "VWAP" then to_numeric c
  else c.

(** The table the historical operation is specified to build from the
    reader's frame [df] and the timestamps [stamps] of its first column. *)
Definition historical_frame {P : Pandas} (symbol : string) (df : DataFrame)
  (stamps : list (option date)) : DataFrame :=
  {| nrows := nrows df;
     columns :=
       ("SYMBOL", Object (repeat (CStr symbol) (nrows df)))
         :: map (fun lc => (fst lc, shaped_column stamps (fst lc) (snd lc)))
                (combine HIST_COLUMNS (map snd (columns df))) |}.

(** The reader's column at position [i]. *)
Definition column_at (df : DataFrame) (i : nat) : option column :=
  nth_error (map snd (columns df)) i.

(** [needle] occurs in [text]. *)
Definition occurs_in (needle text : string) : Prop :=
  exists before after, text = before ++ needle ++ after.

(* ================================================================== *)
(** * Further shapes and tables *)

(** The headers [__init__] gives every client. *)
Definition FIXED_HEADERS : list (string * string) :=
  [("User-Agent", USER_AGENT); ("X-Requested-With", "XMLHttpRequest")].

Definition WARM_UP_URL : string :=
  "https://www.nseindia.com/market-data/live-equity-market".

(** Whether [for x in obj] can start. *)
Definition iterable (obj : value) : bool :=
  match py_iter obj with
  | Ok _ => true
  | Raise _ => false
  end.

(** The value of the field [k] of a record ([None] when it has none). *)
Definition field (record : value) (k : string) : value :=
  match record with
  | VDict fields =>
      match dict_lookup k fields with
      | Some v => v
      | None => VNone
      end
  | _ => VNone
  end.

(** The record of [get_all_stocks] that corresponds to a record of
    [index_data]. *)
Definition constituent_of (record : value) : value :=
  VDict [("stock_symbol", field record "symbol");
         ("company_name", field record "company_name")].

(** The fields of an index-snapshot record that are a renaming: the field
    and the key of its source in the row. *)
Definition INDEX_RENAMES : list (string * string) :=
  [("symbol", "symbol"); ("open", "open"); ("dayHigh", "dayHigh");
   ("dayLow", "dayLow"); ("lastPrice", "lastPrice");
   ("previousClose", "previousClose"); ("change", "change");
   ("pChange", "pChange"); ("52W_High", "yearHigh"); ("52W_Low", "yearLow");
   ("totalTradedVolume", "totalTradedVolume");
   ("totalTradedValue", "totalTradedValue");
   ("perChange365d", "perChange365d"); ("perChange30d", "perChange30d")].

(** The first of [keys] that [fields] does not have. *)
Definition first_missing (fields : list (string * value)) (keys : list string)
  : option string :=
  find (fun k => negb (has_key fields k)) keys.

(** The value of one hexadecimal digit. *)
Definition hex_value (c : ascii) : nat :=
  let n := nat_of_ascii c in
  if is_digit c then n - 48
  else if Nat.leb 97 n then n - 87
  else n - 55.

(** The inverse of the escaping of [quote]: [%XX] is the character of code
    [XX]. *)
Fixpoint unescape (s : string) : string :=
  match s with
  | EmptyString => EmptyString
  | String c rest =>
      if Ascii.eqb c "%" then
        match rest with
        | String h (String l rest') =>
            String (ascii_of_nat (16 * hex_value h + hex_value l)) (unescape rest')
        | _ => String c (unescape rest)
        end
      else String c (unescape rest)
  end.

(** A cell of the [DATE] column of a returned table: a date or NaT. *)
Definition date_or_nat (c : cell) : bool :=
  match c with
  | CDate _ | CNaT => true
  | _ => false
  end.

Definition is_nat_cell (c : cell) : bool :=
  match c with
  | CNaT => true
  | _ => false
  end.

(** The fixed text of each URL before the name it is asked for. *)
Definition STOCK_INDICES_PREFIX : string :=
  "https://www.nseindia.com/api/equity-stockIndices?index=".

Definition QUOTE_PREFIX : string :=
  "https://www.nseindia.com/api/quote-equity?symbol=".

Definition HISTORICAL_PREFIX : string :=
  "https://www.nseindia.com/api/historical/cm/equity?symbol=".

(** What follows the symbol in the URL of the historical operation. *)
Definition historical_query (start_date end_date : string) : string :=
  "&series=[" ++ String dquote "EQ" ++ String dquote "]&from="
    ++ start_date ++ "&to=" ++ end_date ++ "&csv=true".

(** A character [quote] lets through, or the percent sign of an escape. *)
Definition url_char (c : ascii) : bool :=
  orb (quote_safe c) (Ascii.eqb c "%").

(** Whether [round(obj, 2)] is defined. *)
Definition roundable (obj : value) : bool :=
  match py_round obj 2 with
  | Ok _ => true
  | Raise _ => false
  end.

(* ================================================================== *)
(** * Sessions and bodies for the examples *)

(** A session that answers every request with [response]. *)
Definition always (response : Response) : NseAPI :=
  {| HEADERS := []; client := fun _ _ _ => Ok response |}.

(** The equity-master body [{"A": ["X","Y"], "B": ["Z"]}]. *)
Definition master_body : list (string * value) :=
  [("A", VList [VStr "X"; VStr "Y"]); ("B", VList [VStr "Z"])].

Definition master_response : Response :=
  {| status_code := 200; text := ""; json := Ok (VDict master_body) |}.

(** A response with a status other than 200. *)
Definition not_found_response : Response :=
  {| status_code := 404; text := "Not Found"; json := Raise JSONDecodeError |}.

(** A 200 response whose body is a dictionary without ['info']. *)
Definition no_info_response : Response :=
  {| status_code := 200; text := "";
     json := Ok (VDict [("msg", VStr "no data found")]) |}.

(** A constituents body: the index row, a row with its company name, a row
    without ['meta'], and a row whose ['meta'] has no ['companyName']. *)
Definition constituents_rows : list value :=
  [VDict [("symbol", VStr "NIFTY 50")];
   VDict [("symbol", VStr "SBIN");
          ("meta", VDict [("companyName", VStr "State Bank of India")])];
   VDict [("symbol", VStr "TCS")];
   VDict [("symbol", VStr "INFY"); ("meta", VDict [("isin", VStr "INE009A01021")])]].

Definition constituents_response : Response :=
  {| status_code := 200; text := "";
     json := Ok (VDict [("name", VStr "NIFTY 50");
                        ("data", VList constituents_rows)]) |}.

(** A server that knows one URL and answers 404 elsewhere. *)
Definition serving (url : string) (response : Response) : NseAPI :=
  {| HEADERS := [];
     client := fun u _ _ =>
                 if String.eqb u url then Ok response else Ok not_found_response |}.

(** The server of the constituents of NIFTY 50. *)
Definition nifty_server : NseAPI :=
  serving "https://www.nseindia.com/api/equity-stockIndices?index=NIFTY%2050"
          constituents_response.

(** A row of the index-snapshot body with the numbers [n]. *)
Definition snapshot_row (symbol : string) (n : Z) (extra : list (string * value))
  : value :=
  VDict ([("symbol", VStr symbol); ("open", VInt n); ("dayHigh", VInt (n + 2));
          ("dayLow", VInt (n - 2)); ("lastPrice", VInt (n + 1));
          ("previousClose", VInt n); ("change", VInt 1); ("pChange", VInt 1);
          ("yearHigh", VInt (n + 50)); ("yearLow", VInt (n - 50));
          ("totalTradedVolume", VInt 1000); ("totalTradedValue", VInt (1000 * n));
          ("perChange365d", VInt 12); ("perChange30d", VInt 3)] ++ extra).

(** An index-snapshot body: the index row and two constituents, the second
    with a ['meta'] that has no ['companyName']. *)
Definition snapshot_rows : list value :=
  [snapshot_row "NIFTY 50" 18000 [];
   snapshot_row "SBIN" 600
     [("meta", VDict [("companyName", VStr "State Bank of India")])];
   snapshot_row "TCS" 3300 [("meta", VDict [])]].

Definition snapshot_body (rows : list value) : value :=
  VDict [("name", VStr "NIFTY 50");
         ("timestamp", VStr "02-Jan-2023 15:30:00");
         ("data", VList rows)].

Definition snapshot_response (rows : list value) : Response :=
  {| status_code := 200; text := ""; json := Ok (snapshot_body rows) |}.

(** The same body with a constituent that has no ['meta']. *)
Definition snapshot_rows_no_meta : list value :=
  [snapshot_row "NIFTY 50" 18000 []; snapshot_row "SBIN" 600 []].

(** A stock-snapshot body; the change is [12.3456] and the percentage change
    [2.675]. *)
Definition stock_body : value :=
  VDict
    [("info", VDict [("symbol", VStr "SBIN");
                     ("companyName", VStr "State Bank of India")]);
     ("metadata", VDict [("listingDate", VStr "01-Mar-1995");
                         ("lastUpdateTime", VStr "02-Jan-2023 15:30:00")]);
     ("priceInfo",
      VDict [("open", VFloat (float_of_decimal 6005 1));
             ("lastPrice", VFloat (float_of_decimal 61235 2));
             ("previousClose", VInt 600);
             ("change", VFloat (float_of_decimal 123456 4));
             ("pChange", VFloat (float_of_decimal 2675 3));
             ("intraDayHighLow", VDict [("min", VInt 598); ("max", VInt 615)]);
             ("weekHighLow",
              VDict [("min", VInt 430); ("minDate", VStr "20-Jun-2022");
                     ("max", VInt 630); ("maxDate", VStr "15-Dec-2022")])]);
     ("preOpenMarket", VDict [("totalTradedVolume", VInt 1000);
                              ("totalBuyQuantity", VInt 400);
                              ("totalSellQuantity", VInt 600)])].

Definition stock_response : Response :=
  {| status_code := 200; text := ""; json := Ok stock_body |}.

Definition newline : string := String "010" "".

(** [s] between double quotes. *)
Definition quoted (s : string) : string :=
  String dquote (s ++ String dquote "").

Definition HISTORICAL_HEADER : string :=
  "Date,series,OPEN,HIGH,LOW,PREV. CLOSE,ltp,close,vwap,52W H,52W L,VOLUME,VALUE,No of trades".



(** A historical body of two rows where HIGH and VWAP have a dash in the
    second row instead of a number. *)
Definition dashed_csv : string :=
  HISTORICAL_HEADER ++ newline
    ++ "01-Jan-2023,EQ,1010.5,1020,1001.25,1005,1012,1011.5,1015.5,1100,900,5000,6172800,120"
    ++ newline
    ++ "02-Jan-2023,EQ,1011.5,-,1002.25,1011.5,1013,1012.5,-,1100,900,4000,4049600,90"
    ++ newline.

Definition dashed_response : Response :=
  {| status_code := 200; text := dashed_csv; json := Raise JSONDecodeError |}.



(** A 200 response whose body is the server's JSON diagnostic instead of
    the table. *)
Definition diagnostic_text : string :=
  "{" ++ quoted "showMessage" ++ ":" ++ quoted "No record found" ++ "}".

Definition diagnostic_response : Response :=
  {| status_code := 200; text := diagnostic_text;
     json := Ok (VDict [("showMessage", VStr "No record found")]) |}.

(** The frame the reader makes of a body ([None] when it refuses it). *)
Definition read_frame (body : string) : option DataFrame :=
  match Reader.read body "," with
  | Ok df => Some df
  | Raise _ => None
  end.

Definition empty_frame : DataFrame := {| nrows := 0; columns := [] |}.


Definition dashed_frame_read : DataFrame :=
  Eval vm_compute in
    match read_frame dashed_csv with Some df => df | None => empty_frame end.


(* ================================================================== *)
(** * Further sessions and bodies for the examples *)

(** A session with no network. *)
Definition offline : NseAPI :=
  {| HEADERS := FIXED_HEADERS; client := fun _ _ _ => Raise ConnectionError |}.

(** An equity-master body with a group that is a text and a group that is
    a dictionary. *)
Definition mixed_master_response : Response :=
  {| status_code := 200; text := "";
     json := Ok (VDict [("A", VList [VStr "X"]); ("B", VStr "YZ");
                        ("C", VDict [("K", VInt 1)])]) |}.

(** An equity-master body with a group that is [None]. *)
Definition null_group_response : Response :=
  {| status_code := 200; text := "";
     json := Ok (VDict [("A", VList [VStr "X"]); ("B", VNone)]) |}.

(** A constituents body whose second row has no ['symbol']. *)
Definition no_symbol_response : Response :=
  {| status_code := 200; text := "";
     json := Ok (VDict [("data",
                         VList [VDict [("symbol", VStr "SBIN")];
                                VDict [("identifier", VStr "TCSEQN")];
                                VDict [("symbol", VStr "INFY")]])]) |}.

(** An index-snapshot body whose second row has neither ['dayLow'] nor
    ['yearHigh']. *)
Definition incomplete_rows : list value :=
  [snapshot_row "NIFTY 50" 18000 [];
   VDict [("symbol", VStr "SBIN"); ("open", VInt 600); ("dayHigh", VInt 602);
          ("lastPrice", VInt 601); ("previousClose", VInt 600);
          ("change", VInt 1); ("pChange", VInt 1); ("yearLow", VInt 550);
          ("totalTradedVolume", VInt 1000); ("totalTradedValue", VInt 600000);
          ("perChange365d", VInt 12); ("perChange30d", VInt 3);
          ("meta", VDict [])]].

(** The index-snapshot body served under the name [NIFTY50]. *)
Definition nifty50_rows : list value :=
  [snapshot_row "NIFTY50" 18000 [];
   snapshot_row "SBIN" 600
     [("meta", VDict [("companyName", VStr "State Bank of India")])];
   snapshot_row "TCS" 3300 [("meta", VDict [])]].

(** A 200 body whose ['info'] is an empty dictionary. *)
Definition empty_info_response : Response :=
  {| status_code := 200; text := "";
     json := Ok (VDict [("info", VDict []); ("msg", VStr "no data found")]) |}.

(** A 200 body whose ['info'] has no ['companyName']. *)
Definition no_company_response : Response :=
  {| status_code := 200; text := "";
     json := Ok (VDict [("info", VDict [("symbol", VStr "SBIN");
                                        ("industry", VStr "Banks")])]) |}.

(** The stock-snapshot body with the change written as a text. *)
Definition text_change_body : value :=
  VDict
    [("info", VDict [("symbol", VStr "SBIN");
                     ("companyName", VStr "State Bank of India")]);
     ("metadata", VDict [("listingDate", VStr "01-Mar-1995");
                         ("lastUpdateTime", VStr "02-Jan-2023 15:30:00")]);
     ("priceInfo",
      VDict [("open", VInt 600); ("lastPrice", VInt 612);
             ("previousClose", VInt 600);
             ("change", VStr "12.35"); ("pChange", VStr "2.06");
             ("intraDayHighLow", VDict [("min", VInt 598); ("max", VInt 615)]);
             ("weekHighLow",
              VDict [("min", VInt 430); ("minDate", VStr "20-Jun-2022");
                     ("max", VInt 630); ("maxDate", VStr "15-Dec-2022")])]);
     ("preOpenMarket", VDict [("totalTradedVolume", VInt 1000);
                              ("totalBuyQuantity", VInt 400);
                              ("totalSellQuantity", VInt 600)])].

Definition text_change_response : Response :=
  {| status_code := 200; text := ""; json := Ok text_change_body |}.

(** A historical body with the header line and no row. *)
Definition header_only_csv : string := HISTORICAL_HEADER ++ newline.

Definition header_only_response : Response :=
  {| status_code := 200; text := header_only_csv; json := Raise JSONDecodeError |}.

Definition header_only_frame_read : DataFrame :=
  Eval vm_compute in
    match read_frame header_only_csv with Some df => df | None => empty_frame end.

(** A historical body whose second row is dated with a month number. *)
Definition bad_date_csv : string :=
  HISTORICAL_HEADER ++ newline
    ++ "01-Jan-2023,EQ,1010.5,1020,1001.25,1005,1012,1011.5,1015.5,1100,900,5000,6172800,120"
    ++ newline
    ++ "02-01-2023,EQ,1011.5,1021,1002.25,1011.5,1013,1012.5,1016.5,1100,900,4000,4049600,90"
    ++ newline.

Definition bad_date_response : Response :=
  {| status_code := 200; text := bad_date_csv;
     json := Ok (VDict [("showMessage", VStr "ok")]) |}.

Definition bad_date_frame_read : DataFrame :=
  Eval vm_compute in
    match read_frame bad_date_csv with Some df => df | None => empty_frame end.

(** The table of the body with the dashes, for the symbol as passed. *)
Definition dashed_table (symbol : string) : DataFrame :=
  historical_frame symbol dashed_frame_read
    [Some {| year := 2023; month := 1; day := 1 |};
     Some {| year := 2023; month := 1; day := 2 |}].

(** A session that answers every request with the equity-master body. *)
Definition master_session : Session := fun _ _ _ => Ok master_response.

(** The same answers, but only to requests that carry the fixed headers. *)
Definition strict_master_session : Session :=
  fun _ headers _ =>
    match headers with
    | [("User-Agent", agent); ("X-Requested-With", "XMLHttpRequest")] =>
        if String.eqb agent USER_AGENT then Ok master_response
        else Raise ConnectionError
    | _ => Raise ConnectionError
    end.

(** A 200 response whose body is a JSON object without ['showMessage']. *)
Definition mute_response : Response :=
  {| status_code := 200;
     text := "{" ++ quoted "error" ++ ":" ++ quoted "Bad Request" ++ "}";
     json := Ok (VDict [("error", VStr "Bad Request")]) |}.

(* ================================================================== *)
(** * Properties of the embedding *)

(** Splits a successful [bind] in a hypothesis into its two steps. *)
Ltac bind_inv H :=
  match type of H with
  | bind ?c _ = Ok _ =>
      let E := fresh "E" in
      destruct c eqn:E; cbn [bind] in H; [ | discriminate H ]
  end.

Lemma existsb_eqb_in (k : string) (keys : list string) :
  existsb (String.eqb k) keys = true <-> In k keys.
Proof.
  rewrite existsb_exists. split.
  - intros [x [Hin Heq]]. apply String.eqb_eq in Heq. now subst.
  - intros Hin. exists k. split; [assumption | apply String.eqb_refl].
Qed.

Lemma dict_lookup_unique (d : list (string * value)) (k : string) (v : value) :
  unique_keys (dict_keys d) = true -> In (k, v) d -> dict_lookup k d = Some v.
Proof.
  induction d as [| [k' v'] d IH]; simpl; [contradiction |].
  intros Hu Hin. apply andb_prop in Hu as [Hfresh Hu].
  destruct Hin as [[= -> ->] | Hin].
  - now rewrite String.eqb_refl.
  - destruct (String.eqb_spec k k') as [-> | Hne]; [| now apply IH].
    apply negb_true_iff in Hfresh.
    assert (Hk : In k' (dict_keys d))
      by (apply (in_map fst) in Hin; exact Hin).
    apply existsb_eqb_in in Hk. congruence.
Qed.

(** The inner comprehension of [get_indices] over the keys of a part [d] of
    the dictionary [d0]. *)
Lemma get_indices_groups (d0 d : list (string * value)) :
  forall groups : list (list value),
    (forall k v, In (k, v) d -> dict_lookup k d0 = Some v) ->
    map snd d = map VList groups ->
    mapM (fun symbols =>
            group <- py_getitem (VDict d0) symbols ;; py_iter group)
         (dict_keys d) = Ok groups.
Proof.
  induction d as [| [k v] d IH]; intros groups Hlook Hgroups.
  - destruct groups; [reflexivity | discriminate].
  - destruct groups as [| g groups]; [discriminate |].
    simpl in Hgroups. injection Hgroups as Hv Hrest. subst v.
    change (dict_keys ((k, VList g) :: d)) with (k :: dict_keys d).
    cbn [mapM]. unfold py_getitem at 1.
    rewrite (Hlook k (VList g)) by now left. cbn [bind py_iter].
    rewrite (IH groups); [reflexivity | | assumption].
    intros k' v' Hin. apply Hlook. now right.
Qed.

(** ** C7: [get_indices] flattens the mapping *)

(** C7. When the equity-master body is a mapping from category names to
    lists of symbols, [get_indices] returns the lists joined in the order
    of the mapping. *)
Theorem get_indices_flattens (self : NseAPI) (response : Response)
  (d : list (string * value)) (groups : list (list value)) :
  client self indices_url (HEADERS self) None = Ok response ->
  json response = Ok (VDict d) ->
  unique_keys (dict_keys d) = true ->
  map snd d = map VList groups ->
  get_indices self = Ok (VList (List.concat groups)).
Proof.
  intros Hget Hjson Hunique Hgroups. unfold get_indices.
  rewrite Hget. cbn [bind]. rewrite Hjson. cbn [bind py_keys].
  rewrite (get_indices_groups d d groups); [reflexivity | | assumption].
  intros k v Hin. now apply dict_lookup_unique.
Qed.

Lemma get_indices_flattens_example :
  get_indices (always master_response) = Ok (VList [VStr "X"; VStr "Y"; VStr "Z"]).
Proof.
  apply (get_indices_flattens (always master_response) master_response
           master_body [[VStr "X"; VStr "Y"]; [VStr "Z"]]); reflexivity.
Defined.

(** ** C5: the snapshots answer [None] instead of failing *)

(** C5. On a status other than 200, [get_stock_data] and [index_data]
    return [None]; and so does [get_stock_data] on a 200 response whose body
    has no ['info'] key. *)
Theorem snapshots_return_none :
  (forall self symbol response,
      client self (quote_url symbol) (HEADERS self) None = Ok response ->
      status_code response <> 200 ->
      get_stock_data self symbol = Ok VNone)
  /\ (forall self stock_index response,
         client self (index_url stock_index) (HEADERS self) None = Ok response ->
         status_code response <> 200 ->
         index_data self stock_index = Ok VNone)
  /\ (forall self symbol response body,
         client self (quote_url symbol) (HEADERS self) None = Ok response ->
         status_code response = 200 ->
         json response = Ok (VDict body) ->
         dict_lookup "info" body = None ->
         get_stock_data self symbol = Ok VNone).
Proof.
  repeat split.
  - intros self symbol response Hget Hstatus. unfold get_stock_data.
    rewrite Hget. cbn [bind].
    destruct (Z.eqb_spec (status_code response) 200); [contradiction |].
    reflexivity.
  - intros self stock_index response Hget Hstatus. unfold index_data.
    rewrite Hget. cbn [bind].
    destruct (Z.eqb_spec (status_code response) 200); [contradiction |].
    reflexivity.
  - intros self symbol response body Hget Hstatus Hjson Hinfo.
    unfold get_stock_data. rewrite Hget. cbn [bind].
    rewrite Hstatus, Hjson. cbn [Z.eqb Pos.eqb bind py_get].
    rewrite Hinfo. reflexivity.
Qed.

Lemma snapshots_return_none_example :
  get_stock_data (always not_found_response) "SBIN" = Ok VNone
  /\ index_data (always not_found_response) "NIFTY 50" = Ok VNone
  /\ get_stock_data (always no_info_response) "SBIN" = Ok VNone.
Proof.
  destruct snapshots_return_none as (Hstock & Hindex & Hinfo).
  split; [| split].
  - apply (Hstock (always not_found_response) "SBIN" not_found_response);
      [reflexivity | simpl; lia].
  - apply (Hindex (always not_found_response) "NIFTY 50" not_found_response);
      [reflexivity | simpl; lia].
  - apply (Hinfo (always no_info_response) "SBIN" no_info_response
             [("msg", VStr "no data found")]); reflexivity.
Defined.

(** ** [get_all_stocks] on a well-formed constituents body *)

Lemma filter_mapM_spec {A B : Type} (f : A -> result (option B))
  (keep : A -> bool) (g : A -> B) (l : list A) :
  (forall a, In a l -> f a = Ok (if keep a then Some (g a) else None)) ->
  filter_mapM f l = Ok (map g (filter keep l)).
Proof.
  induction l as [| a l IH]; intros Hf; [reflexivity |].
  cbn [filter_mapM filter]. rewrite (Hf a) by now left. cbn [bind].
  rewrite IH by (intros a' Hin; apply Hf; now right). cbn [bind].
  destruct (keep a); reflexivity.
Qed.

Lemma stock_entry_ok (index : string) (row : value) :
  stock_row_ok row = true ->
  stock_entry index row =
    Ok (if not_named (upper index) row then Some (stock_record row) else None).
Proof.
  destruct row as [| | | | | | fields]; try discriminate.
  unfold stock_row_ok, stock_entry, not_named, stock_record,
    row_symbol, row_company, py_getitem, py_get.
  destruct (dict_lookup "symbol" fields) as [sym |]; [| discriminate].
  cbn [bind].
  destruct (py_ne_str sym (upper index)); [| reflexivity].
  destruct (dict_lookup "meta" fields) as [meta |].
  - destruct meta; try discriminate. intros _. cbn [bind].
    destruct (dict_lookup "companyName" items); reflexivity.
  - reflexivity.
Qed.

Lemma get_all_stocks_value (self : NseAPI) (index : string)
  (response : Response) (j : value) (rows : list value) :
  client self (stocks_url index) (HEADERS self) None = Ok response ->
  json response = Ok j ->
  py_getitem j "data" = Ok (VList rows) ->
  forallb stock_row_ok rows = true ->
  get_all_stocks self index =
    Ok (VList (map stock_record (filter (not_named (upper index)) rows))).
Proof.
  intros Hget Hjson Hdata Hrows. unfold get_all_stocks.
  rewrite Hget. cbn [bind]. rewrite Hjson. cbn [bind].
  rewrite Hdata. cbn [bind py_iter].
  rewrite (filter_mapM_spec (stock_entry index) (not_named (upper index))
             stock_record); [reflexivity |].
  intros row Hin. apply stock_entry_ok.
  rewrite forallb_forall in Hrows. now apply Hrows.
Qed.

Lemma upper_char_idempotent (c : ascii) : upper_char (upper_char c) = upper_char c.
Proof.
  destruct c as [[] [] [] [] [] [] [] []]; reflexivity.
Qed.

Lemma upper_idempotent (s : string) : upper (upper s) = upper s.
Proof.
  induction s as [| c s IH]; [reflexivity |].
  cbn [upper]. now rewrite upper_char_idempotent, IH.
Qed.

Lemma get_all_stocks_upper (self : NseAPI) (a b : string) :
  upper a = upper b -> get_all_stocks self a = get_all_stocks self b.
Proof.
  intros H. unfold get_all_stocks, stocks_url, stock_entry.
  rewrite H. reflexivity.
Qed.

(** ** C8: [get_all_stocks] lists the constituents *)

(** C8. The request of [get_all_stocks] carries the upper-cased index name;
    on a parsed constituents body the result holds one record
    [{stock_symbol, company_name}] for every row but the rows whose symbol is
    the upper-cased index name, in the order of the rows; and two index
    names that differ only in case give the same result. *)
Theorem get_all_stocks_lists_constituents (self : NseAPI) (index : string)
  (response : Response) (j : value) (rows : list value) :
  client self (stocks_url index) (HEADERS self) None = Ok response ->
  json response = Ok j ->
  py_getitem j "data" = Ok (VList rows) ->
  forallb stock_row_ok rows = true ->
  stocks_url index =
    "https://www.nseindia.com/api/equity-stockIndices?index="
      ++ quote (upper index)
  /\ get_all_stocks self index =
       Ok (VList (map stock_record (filter (not_named (upper index)) rows)))
  /\ get_all_stocks self (upper index) = get_all_stocks self index
  /\ (forall index', upper index' = upper index ->
                     get_all_stocks self index' = get_all_stocks self index).
Proof.
  intros Hget Hjson Hdata Hrows. repeat split.
  - now apply (get_all_stocks_value self index response j rows).
  - apply get_all_stocks_upper, upper_idempotent.
  - intros index' H. now apply get_all_stocks_upper.
Qed.

Lemma get_all_stocks_lists_constituents_example :
  get_all_stocks nifty_server "nifty 50" =
    Ok (VList
          [VDict [("stock_symbol", VStr "SBIN");
                  ("company_name", VStr "State Bank of India")];
           VDict [("stock_symbol", VStr "TCS"); ("company_name", VNone)];
           VDict [("stock_symbol", VStr "INFY"); ("company_name", VNone)]])
  /\ get_all_stocks nifty_server "Nifty 50" = get_all_stocks nifty_server "nifty 50".
Proof.
  destruct (get_all_stocks_lists_constituents nifty_server "nifty 50"
              constituents_response
              (VDict [("name", VStr "NIFTY 50");
                      ("data", VList constituents_rows)])
              constituents_rows)
    as (_ & Hvalue & _ & Hcase); try reflexivity.
  split; [exact Hvalue | apply Hcase; reflexivity].
Defined.

(** ** [index_data]: one record per row *)

(** Splits the successful steps of a row or record under construction. *)
Ltac binds_inv H := repeat bind_inv H.

Lemma index_row_names (last_updated : value) (i : nat) (datum r : value) :
  index_row last_updated i datum = Ok r ->
  field_names r = Some (index_record_names i).
Proof.
  unfold index_row. intros H. binds_inv H.
  destruct i as [| i]; cbn [negb Nat.eqb] in H.
  - injection H as <-. reflexivity.
  - binds_inv H. injection H as <-. reflexivity.
Qed.

Lemma index_loop_records (last_updated : value) (data : list value) :
  forall (i0 : nat) (records : list value),
    index_loop last_updated i0 data = Ok records ->
    List.length records = List.length data
    /\ forall i r, nth_error records i = Some r ->
                   field_names r = Some (index_record_names (i0 + i)).
Proof.
  induction data as [| datum data IH]; intros i0 records H.
  - injection H as <-. split; [reflexivity |].
    intros [| i] r Hr; discriminate.
  - cbn [index_loop] in H.
    destruct (index_row last_updated i0 datum) as [row |] eqn:Hrow;
      [| discriminate].
    destruct (index_loop last_updated (S i0) data) as [rows |] eqn:Hrows;
      [| discriminate].
    cbn [bind] in H. injection H as <-.
    destruct (IH (S i0) rows Hrows) as [Hlen Hnames]. split.
    + cbn [List.length]. now rewrite Hlen.
    + intros [| i] r Hr; cbn [nth_error] in Hr.
      * injection Hr as <-. rewrite Nat.add_0_r.
        now apply (index_row_names last_updated i0 datum).
      * rewrite <- Nat.add_succ_comm. now apply Hnames.
Qed.

Lemma has_key_lookup (fields : list (string * value)) (k : string) :
  has_key fields k = true -> exists v, dict_lookup k fields = Some v.
Proof.
  unfold has_key. destruct (dict_lookup k fields) as [v |]; [| discriminate].
  intros _. now exists v.
Qed.

Lemma index_row_total (last_updated : value) (i : nat) (datum : value) :
  index_row_ok i datum = true ->
  exists r, index_row last_updated i datum = Ok r.
Proof.
  destruct datum as [| | | | | | fields]; try discriminate.
  unfold index_row_ok. intros H. apply andb_prop in H as [Hkeys Hmeta].
  cbn [forallb INDEX_SOURCE_KEYS] in Hkeys.
  repeat match goal with
         | H : andb _ _ = true |- _ => apply andb_prop in H as [? ?]
         end.
  repeat match goal with
         | H : has_key fields _ = true |- _ =>
             apply has_key_lookup in H as [? H]
         end.
  unfold index_row, py_getitem.
  repeat match goal with
         | H : dict_lookup _ fields = Some _ |- _ => rewrite H; clear H
         end.
  cbn [bind].
  destruct i as [| i]; cbn [negb Nat.eqb].
  - eexists. reflexivity.
  - destruct (dict_lookup "meta" fields) as [[| | | | | | meta] |];
      try discriminate.
    cbn [bind py_get]. destruct (dict_lookup "companyName" meta);
      eexists; reflexivity.
Qed.

Lemma index_loop_total (last_updated : value) (data : list value) :
  forall i0, index_rows_ok i0 data = true ->
             exists records, index_loop last_updated i0 data = Ok records.
Proof.
  induction data as [| datum data IH]; intros i0 H.
  - now exists [].
  - cbn [index_rows_ok] in H. apply andb_prop in H as [Hrow Hrest].
    destruct (index_row_total last_updated i0 datum Hrow) as [r Hr].
    destruct (IH (S i0) Hrest) as [rs Hrs].
    exists (r :: rs). cbn [index_loop]. now rewrite Hr, Hrs.
Qed.

Lemma names_company (i : nat) (r : value) :
  field_names r = Some (index_record_names i) ->
  has_field r "company_name" = negb (Nat.eqb i 0).
Proof.
  destruct r as [| | | | | | fields]; try discriminate.
  cbn [field_names has_field]. intros [= Hnames]. unfold has_key.
  destruct i as [| i]; cbn [index_record_names INDEX_FIELDS app] in Hnames.
  - do 16 (destruct fields as [| [? ?] fields]; try discriminate Hnames).
    cbn [dict_keys map fst] in Hnames. injection Hnames as -> -> -> -> -> -> -> -> -> -> -> -> -> -> ->.
    reflexivity.
  - do 17 (destruct fields as [| [? ?] fields]; try discriminate Hnames).
    cbn [dict_keys map fst] in Hnames. injection Hnames as -> -> -> -> -> -> -> -> -> -> -> -> -> -> -> ->.
    reflexivity.
Qed.

(** ** C2: the records of [index_data] *)

(** C2. On a 200 response, whenever [index_data] returns it returns one
    record per item of the body's data array, the first with exactly the
    canonical field names and every later one with these and [company_name];
    and it does return on a body with a timestamp and a data array of
    well-formed rows. *)
Theorem index_data_records (self : NseAPI) (stock_index : string)
  (response : Response) (j : value) :
  client self (index_url stock_index) (HEADERS self) None = Ok response ->
  status_code response = 200 ->
  json response = Ok j ->
  (forall r, index_data self stock_index = Ok r ->
             exists data records,
               (d <- py_getitem j "data" ;; py_iter d) = Ok data
               /\ r = VList records
               /\ List.length records = List.length data
               /\ forall i record,
                    nth_error records i = Some record ->
                    field_names record = Some (index_record_names i)
                    /\ has_field record "company_name" = negb (Nat.eqb i 0))
  /\ (forall last_updated data,
         py_getitem j "timestamp" = Ok last_updated ->
         py_getitem j "data" = Ok (VList data) ->
         index_rows_ok 0 data = true ->
         exists records, index_data self stock_index = Ok (VList records)).
Proof.
  intros Hget Hstatus Hjson. split.
  - intros r H. unfold index_data in H. rewrite Hget in H. cbn [bind] in H.
    rewrite Hstatus, Hjson in H. cbn [Z.eqb Pos.eqb negb bind] in H.
    destruct (py_getitem j "timestamp") as [last_updated |]; [| discriminate].
    destruct (py_getitem j "data") as [d |]; [| discriminate].
    cbn [bind] in H |- *.
    destruct (py_iter d) as [data |]; [| discriminate].
    cbn [bind] in H.
    destruct (index_loop last_updated 0 data) as [records |] eqn:Hloop;
      [| discriminate].
    cbn [bind] in H. injection H as <-.
    destruct (index_loop_records last_updated data 0 records Hloop)
      as [Hlen Hnames].
    exists data, records. repeat split.
    + assumption.
    + now apply Hnames.
    + apply names_company. now apply Hnames.
  - intros last_updated data Hts Hdata Hrows.
    destruct (index_loop_total last_updated data 0 Hrows) as [records Hloop].
    exists records. unfold index_data. rewrite Hget. cbn [bind].
    rewrite Hstatus, Hjson. cbn [Z.eqb Pos.eqb negb bind].
    rewrite Hts. cbn [bind]. rewrite Hdata. cbn [bind py_iter].
    now rewrite Hloop.
Qed.

Lemma index_data_records_example :
  exists records,
    index_data (always (snapshot_response snapshot_rows)) "NIFTY 50"
      = Ok (VList records)
    /\ List.length records = 3%nat
    /\ forall i record,
         nth_error records i = Some record ->
         field_names record = Some (index_record_names i)
         /\ has_field record "company_name" = negb (Nat.eqb i 0).
Proof.
  destruct (index_data_records (always (snapshot_response snapshot_rows))
              "NIFTY 50" (snapshot_response snapshot_rows)
              (snapshot_body snapshot_rows))
    as [Hpartial Htotal]; try reflexivity.
  destruct (Htotal (VStr "02-Jan-2023 15:30:00") snapshot_rows)
    as [records Hrecords]; try reflexivity.
  exists records. split; [exact Hrecords |].
  destruct (Hpartial (VList records) Hrecords)
    as (data & records' & Hdata & Heq & Hlen & Hnames).
  injection Heq as <-. injection Hdata as <-.
  split; [exact Hlen | exact Hnames].
Defined.

(** ** A row without ['meta'] in [index_data] *)

Lemma index_row_no_meta (last_updated : value) (i : nat)
  (fields : list (string * value)) :
  i <> 0%nat ->
  dict_lookup "meta" fields = None ->
  exists e, index_row last_updated i (VDict fields) = Raise e.
Proof.
  intros Hi Hmeta. unfold index_row, py_getitem. rewrite Hmeta.
  destruct i as [| i]; [contradiction |]. cbn [negb Nat.eqb].
  repeat match goal with
         | |- context [dict_lookup ?k fields] =>
             destruct (dict_lookup k fields);
             cbn [bind]; [| eexists; reflexivity]
         end.
  eexists; reflexivity.
Qed.

Lemma index_loop_no_meta (last_updated : value) (rows : list value) :
  forall (i0 i : nat) (fields : list (string * value)),
    nth_error rows i = Some (VDict fields) ->
    (i0 + i)%nat <> 0%nat ->
    dict_lookup "meta" fields = None ->
    exists e, index_loop last_updated i0 rows = Raise e.
Proof.
  induction rows as [| datum rows IH]; intros i0 i fields Hnth Hi Hmeta.
  - destruct i; discriminate.
  - cbn [index_loop]. destruct i as [| i]; cbn [nth_error] in Hnth.
    + injection Hnth as ->. rewrite Nat.add_0_r in Hi.
      destruct (index_row_no_meta last_updated i0 fields Hi Hmeta) as [e He].
      exists e. now rewrite He.
    + destruct (index_row last_updated i0 datum) as [row | e];
        [| now exists e].
      cbn [bind].
      destruct (IH (S i0) i fields Hnth) as [e He]; [lia | assumption |].
      exists e. now rewrite He.
Qed.

(** ** C10: a row without ['meta'] *)

(** C10. [get_all_stocks] does not fail on rows that have no ['meta'] or
    whose ['meta'] has no ['companyName']: it returns its records, and the
    record of such a row has [company_name] equal to [None].  [index_data]
    reads ['meta'] of every row after the first without a default, so it
    raises when such a row has none. *)
Theorem missing_meta_is_tolerated_by_get_all_stocks_only :
  (forall self index response j rows,
      client self (stocks_url index) (HEADERS self) None = Ok response ->
      json response = Ok j ->
      py_getitem j "data" = Ok (VList rows) ->
      forallb stock_row_ok rows = true ->
      get_all_stocks self index =
        Ok (VList (map stock_record (filter (not_named (upper index)) rows)))
      /\ forall row, In row rows -> lacks_company row = true ->
                     stock_record row =
                       VDict [("stock_symbol", row_symbol row);
                              ("company_name", VNone)])
  /\ (forall self stock_index response j rows i fields,
         client self (index_url stock_index) (HEADERS self) None = Ok response ->
         status_code response = 200 ->
         json response = Ok j ->
         py_getitem j "data" = Ok (VList rows) ->
         nth_error rows i = Some (VDict fields) ->
         i <> 0%nat ->
         dict_lookup "meta" fields = None ->
         exists e, index_data self stock_index = Raise e).
Proof.
  split.
  - intros self index response j rows Hget Hjson Hdata Hrows. split.
    + now apply (get_all_stocks_value self index response j rows).
    + intros row _ Hlacks. unfold stock_record, row_company.
      destruct row as [| | | | | | fields]; try reflexivity.
      cbn [lacks_company] in Hlacks.
      destruct (dict_lookup "meta" fields) as [[| | | | | | meta] |];
        try reflexivity.
      destruct (dict_lookup "companyName" meta);
        [discriminate | reflexivity].
  - intros self stock_index response j rows i fields
      Hget Hstatus Hjson Hdata Hnth Hi Hmeta.
    unfold index_data. rewrite Hget. cbn [bind].
    rewrite Hstatus, Hjson. cbn [Z.eqb Pos.eqb negb bind].
    destruct (py_getitem j "timestamp") as [last_updated | e];
      [| now exists e].
    cbn [bind]. rewrite Hdata. cbn [bind py_iter].
    destruct (index_loop_no_meta last_updated rows 0 i fields Hnth)
      as [e He]; [lia | assumption |].
    exists e. now rewrite He.
Qed.

Lemma missing_meta_example :
  get_all_stocks nifty_server "NIFTY 50" =
    Ok (VList
          [VDict [("stock_symbol", VStr "SBIN");
                  ("company_name", VStr "State Bank of India")];
           VDict [("stock_symbol", VStr "TCS"); ("company_name", VNone)];
           VDict [("stock_symbol", VStr "INFY"); ("company_name", VNone)]])
  /\ exists e,
       index_data (always (snapshot_response snapshot_rows_no_meta)) "NIFTY 50"
         = Raise e.
Proof.
  destruct missing_meta_is_tolerated_by_get_all_stocks_only as [Hstocks Hindex].
  split.
  - exact (proj1 (Hstocks nifty_server "NIFTY 50" constituents_response
                    (VDict [("name", VStr "NIFTY 50");
                            ("data", VList constituents_rows)])
                    constituents_rows eq_refl eq_refl eq_refl eq_refl)).
  - apply (Hindex (always (snapshot_response snapshot_rows_no_meta))
             "NIFTY 50" (snapshot_response snapshot_rows_no_meta)
             (snapshot_body snapshot_rows_no_meta) snapshot_rows_no_meta
             1%nat
             [("symbol", VStr "SBIN"); ("open", VInt 600);
              ("dayHigh", VInt 602); ("dayLow", VInt 598);
              ("lastPrice", VInt 601); ("previousClose", VInt 600);
              ("change", VInt 1); ("pChange", VInt 1);
              ("yearHigh", VInt 650); ("yearLow", VInt 550);
              ("totalTradedVolume", VInt 1000);
              ("totalTradedValue", VInt 600000);
              ("perChange365d", VInt 12); ("perChange30d", VInt 3)]);
      try reflexivity.
    lia.
Defined.

(** The exception of the example is the missing key. *)
Lemma index_data_no_meta_key_error :
  index_data (always (snapshot_response snapshot_rows_no_meta)) "NIFTY 50"
    = Raise (KeyError "meta").
Proof. reflexivity. Qed.

(** ** C9: the fields of [get_stock_data] *)

Lemma py_get_of_getitem (j : value) (k : string) (v default : value) :
  py_getitem j k = Ok v -> py_get j k default = Ok v.
Proof.
  destruct j as [| | | | | | d]; try discriminate.
  unfold py_getitem, py_get.
  destruct (dict_lookup k d); [intros [= ->]; reflexivity | discriminate].
Qed.

(** C9. In a record [get_stock_data] returns, [change] and [pChange] are the
    source values rounded to two decimals, [industry] is the value of
    [info.get('industry')], and every other field is the value found at its
    source path; and the method returns a record on a 200 response with a
    well-formed body. *)
Theorem get_stock_data_fields (self : NseAPI) (symbol : string)
  (response : Response) (j : value) :
  client self (quote_url symbol) (HEADERS self) None = Ok response ->
  json response = Ok j ->
  (forall record,
      get_stock_data self symbol = Ok (VDict record) ->
      dict_keys record = STOCK_FIELDS
      /\ (forall out path,
             In (out, path) STOCK_ROUNDED ->
             exists v r,
               py_path j path = Ok v /\ py_round v 2 = Ok r
               /\ dict_lookup out record = Some r)
      /\ (forall out path,
             In (out, path) STOCK_RENAMES ->
             exists v, py_path j path = Ok v /\ dict_lookup out record = Some v)
      /\ (exists info v,
             py_getitem j "info" = Ok info
             /\ py_get info "industry" VNone = Ok v
             /\ dict_lookup "industry" record = Some v))
  /\ (status_code response = 200 ->
      stock_body_ok j = true ->
      exists record, get_stock_data self symbol = Ok (VDict record)).
Proof.
  intros Hget Hjson. split.
  - intros record H. unfold get_stock_data in H.
    rewrite Hget in H. cbn [bind] in H.
    destruct (Z.eqb (status_code response) 200); [| discriminate H].
    rewrite Hjson in H. cbn [bind] in H.
    destruct (py_get j "info" VNone) as [info0 |]; [| discriminate H].
    cbn [bind] in H.
    destruct (py_truthy info0); [| discriminate H].
    cbn [bind] in H. binds_inv H. injection H as <-.
    split; [reflexivity |]. split; [| split].
    + intros out path Hin. cbn [In STOCK_ROUNDED] in Hin.
      repeat destruct Hin as [Hin | Hin]; try contradiction.
      all: injection Hin as <- <-; do 2 eexists.
      all: split; [eassumption |].
      all: split; [eassumption | reflexivity].
    + intros out path Hin. cbn [In STOCK_RENAMES] in Hin.
      repeat destruct Hin as [Hin | Hin]; try contradiction.
      all: injection Hin as <- <-; eexists.
      all: split; [eassumption | reflexivity].
    + do 2 eexists. split; [reflexivity | split; [eassumption | reflexivity]].
  - intros Hstatus Hok. unfold stock_body_ok in Hok.
    apply andb_prop in Hok as [Hinfo Hok].
    apply andb_prop in Hok as [Hrenames Hrounded].
    cbn [forallb STOCK_RENAMES STOCK_ROUNDED snd] in Hrenames, Hrounded.
    unfold resolves in Hrenames. unfold rounds in Hrounded.
    repeat match goal with
           | H : andb _ _ = true |- _ => apply andb_prop in H as [? ?]
           end.
    unfold get_stock_data. rewrite Hget. cbn [bind].
    rewrite Hstatus, Hjson. cbn [Z.eqb Pos.eqb bind].
    destruct (py_getitem j "info") as [[| | | | | | [| item info]] |] eqn:Einfo;
      try discriminate.
    rewrite (py_get_of_getitem j "info" _ VNone Einfo).
    cbn [bind py_truthy].
    repeat match goal with
           | H : match py_path j ?p with _ => _ end = true |- _ =>
               destruct (py_path j p); [clear H | discriminate H]
           | H : match bind (py_path j ?p) _ with _ => _ end = true |- _ =>
               destruct (py_path j p); [| discriminate H];
               cbn [bind] in H |- *;
               match type of H with
               | match py_round ?v 2 with _ => _ end = true =>
                   destruct (py_round v 2); [clear H | discriminate H]
               end
           end.
    cbn [bind py_get].
    destruct (dict_lookup "industry" (item :: info)); eexists; reflexivity.
Qed.

Lemma get_stock_data_fields_example :
  exists record,
    get_stock_data (always stock_response) "SBIN" = Ok (VDict record)
    /\ dict_keys record = STOCK_FIELDS
    /\ dict_lookup "change" record = Some (VFloat (float_of_decimal 1235 2))
    /\ dict_lookup "pChange" record = Some (VFloat (float_of_decimal 267 2))
    /\ dict_lookup "symbol" record = Some (VStr "SBIN")
    /\ dict_lookup "industry" record = Some VNone.
Proof.
  destruct (get_stock_data_fields (always stock_response) "SBIN"
              stock_response stock_body eq_refl eq_refl)
    as [Hfields Hreturns].
  destruct (Hreturns eq_refl eq_refl) as [record Hrecord].
  destruct (Hfields record Hrecord) as (Hkeys & Hrounded & Hrenames & Hindustry).
  exists record. split; [exact Hrecord |]. split; [exact Hkeys |].
  split; [| split; [| split]].
  - destruct (Hrounded "change" ["priceInfo"; "change"])
      as (v & r & Hv & Hr & Hl); [simpl; tauto |].
    vm_compute in Hv. injection Hv as <-.
    vm_compute in Hr. injection Hr as <-. exact Hl.
  - destruct (Hrounded "pChange" ["priceInfo"; "pChange"])
      as (v & r & Hv & Hr & Hl); [simpl; tauto |].
    vm_compute in Hv. injection Hv as <-.
    vm_compute in Hr. injection Hr as <-. exact Hl.
  - destruct (Hrenames "symbol" ["info"; "symbol"])
      as (v & Hv & Hl); [simpl; tauto |].
    vm_compute in Hv. injection Hv as <-. exact Hl.
  - destruct Hindustry as (info & v & Hinfo & Hv & Hl).
    vm_compute in Hinfo. injection Hinfo as <-.
    vm_compute in Hv. injection Hv as <-. exact Hl.
Defined.

(* ================================================================== *)
(** * The historical table *)

Lemma mapM_length {A B : Type} (f : A -> result B) (l : list A) :
  forall r, mapM f l = Ok r -> List.length r = List.length l.
Proof.
  induction l as [| a l IH]; intros r H.
  - injection H as <-. reflexivity.
  - cbn [mapM] in H.
    destruct (f a) as [b |]; [| discriminate].
    destruct (mapM f l) as [bs |]; [| discriminate].
    cbn [bind] in H. injection H as <-.
    cbn [List.length]. now rewrite (IH bs eq_refl).
Qed.




Lemma append_empty_r (s : string) : s ++ "" = s.
Proof.
  induction s as [| c s IH]; [reflexivity |].
  cbn [append]. now rewrite IH.
Qed.

Section HistoricalProofs.
Context {P : Pandas}.

Lemma unify_length (ns : list number) :
  column_length (unify ns) = List.length ns.
Proof.
  unfold unify, column_length.
  destruct (orb _ _); [cbn [cells]; now rewrite !length_map |].
  destruct (existsb number_is_int ns).
  - destruct (existsb number_is_uint ns); cbn [cells]; now rewrite !length_map.
  - destruct ns; [reflexivity |]. cbn [cells]. now rewrite !length_map.
Qed.

Lemma to_numeric_length (c : column) :
  column_length (to_numeric c) = column_length c.
Proof.
  destruct c; try reflexivity.
  - cbn [to_numeric]. rewrite unify_length. unfold column_length.
    cbn [cells]. now rewrite length_map.
  - unfold column_length. cbn [to_numeric cells]. now rewrite !length_map.
Qed.

Lemma unify_dtype (ns : list number) : numeric_dtype (unify ns) = true.
Proof.
  unfold unify.
  destruct (orb _ _); [reflexivity |].
  destruct (existsb number_is_int ns).
  - now destruct (existsb number_is_uint ns).
  - now destruct ns.
Qed.

(** The dtype of a column [to_numeric] returns is numeric. *)
Lemma to_numeric_dtype (c : column) : numeric_dtype (to_numeric c) = true.
Proof. destruct c; try reflexivity. apply unify_dtype. Qed.




(** The values of the converted column, one by one. *)
Lemma unify_nth (ns : list number) (k : nat) (n : number) :
  nth_error ns k = Some n ->
  nth_error (cells (unify ns)) k = Some (number_cell (unify ns) n).
Proof.
  intros Hnth. unfold unify.
  destruct (orb _ _);
    [cbn [cells number_cell]; now rewrite !nth_error_map, Hnth |].
  destruct (existsb number_is_int ns).
  - destruct (existsb number_is_uint ns);
      cbn [cells number_cell]; now rewrite !nth_error_map, Hnth.
  - destruct ns as [| n0 ns]; [now destruct k |].
    cbn [cells number_cell]. now rewrite !nth_error_map, Hnth.
Qed.

(** A float among the values makes the column a float column. *)
Lemma unify_float (ns : list number) (k : nat) (f : float) :
  nth_error ns k = Some (NFloat f) ->
  unify ns = Float64 (map number_to_float ns).
Proof.
  intros Hnth. unfold unify.
  assert (Hfloat : existsb number_is_float ns = true).
  { apply existsb_exists. exists (NFloat f). split; [| reflexivity].
    now apply nth_error_In with (n := k). }
  now rewrite Hfloat.
Qed.

(** What [to_numeric] makes of a text of an object column: the number it
    reads in it, in the dtype of the column, NaN when it reads none. *)
Lemma to_numeric_text (l : list cell) (k : nat) (t : string) :
  nth_error l k = Some (CStr t) ->
  (str_to_number t = None ->
   nth_error (cells (to_numeric (Object l))) k = Some (CFloat NaN))
  /\ (forall f, str_to_number t = Some (NFloat f) ->
                nth_error (cells (to_numeric (Object l))) k = Some (CFloat f))
  /\ (forall n, str_to_number t = Some n ->
                nth_error (cells (to_numeric (Object l))) k
                  = Some (number_cell (to_numeric (Object l)) n)).
Proof.
  intros Hnth. cbn [to_numeric].
  assert (Hn : nth_error (map coerce_cell l) k
               = Some (match str_to_number t with
                       | Some n => n
                       | None => NFloat NaN
                       end))
    by (now rewrite nth_error_map, Hnth).
  split; [| split].
  - intros Ht. rewrite Ht in Hn.
    rewrite (unify_nth _ _ _ Hn), (unify_float _ _ _ Hn). reflexivity.
  - intros f Ht. rewrite Ht in Hn.
    rewrite (unify_nth _ _ _ Hn), (unify_float _ _ _ Hn). reflexivity.
  - intros n Ht. rewrite Ht in Hn. apply (unify_nth _ _ _ Hn).
Qed.

(** A text [to_numeric] cannot read becomes NaN. *)
Lemma to_numeric_malformed (l : list cell) (k : nat) (s : string) :
  nth_error l k = Some (CStr s) ->
  str_to_number s = None ->
  nth_error (cells (to_numeric (Object l))) k = Some (CFloat NaN).
Proof. intros Hnth. apply (to_numeric_text l k s Hnth). Qed.

Lemma date_objects_cells (stamps : list (option date)) :
  cells (date_objects stamps) = map date_cell stamps.
Proof.
  unfold date_objects. destruct stamps as [| o stamps]; [reflexivity |].
  destruct (forallb is_nat (o :: stamps)) eqn:Hall; [| reflexivity].
  cbn [cells]. apply map_ext_in. intros a Ha.
  rewrite forallb_forall in Hall. specialize (Hall a Ha).
  now destruct a.
Qed.

Lemma date_objects_length (stamps : list (option date)) :
  column_length (date_objects stamps) = List.length stamps.
Proof.
  unfold column_length. now rewrite date_objects_cells, length_map.
Qed.

(** Fourteen columns, one by one. *)
Lemma fourteen_columns (cols : list (string * column)) :
  List.length cols = 14%nat ->
  exists l0 c0 l1 c1 l2 c2 l3 c3 l4 c4 l5 c5 l6 c6 l7 c7 l8 c8 l9 c9
         l10 c10 l11 c11 l12 c12 l13 c13,
    cols = [(l0, c0); (l1, c1); (l2, c2); (l3, c3); (l4, c4); (l5, c5);
            (l6, c6); (l7, c7); (l8, c8); (l9, c9); (l10, c10); (l11, c11);
            (l12, c12); (l13, c13)].
Proof.
  intros H.
  do 14 (destruct cols as [| [? ?] cols]; [discriminate H |]).
  destruct cols; [| discriminate H].
  repeat eexists.
Qed.

(** The [try] block on a frame of fourteen columns whose first column holds
    dates. *)
Lemma parse_table_value (response_text symbol : string) (df : DataFrame)
  (dates : column) (stamps : list (option date)) :
  read_csv response_text "," = Ok df ->
  List.length (columns df) = 14%nat ->
  frame_ok df = true ->
  column_at df 0 = Some dates ->
  mapM to_datetime_cell (cells dates) = Ok stamps ->
  parse_table response_text symbol = Ok (historical_frame symbol df stamps).
Proof.
  intros Hread Hlen Hok Hdates Hstamps.
  destruct df as [n cols]. cbn [columns nrows] in *.
  destruct (fourteen_columns cols Hlen)
    as (l0 & c0 & l1 & c1 & l2 & c2 & l3 & c3 & l4 & c4 & l5 & c5 & l6 & c6
        & l7 & c7 & l8 & c8 & l9 & c9 & l10 & c10 & l11 & c11 & l12 & c12
        & l13 & c13 & ->).
  unfold column_at in Hdates. cbn in Hdates. injection Hdates as ->.
  unfold frame_ok in Hok. cbn [forallb columns nrows snd] in Hok.
  repeat match goal with
         | H : andb _ _ = true |- _ => apply andb_prop in H as [? ?]
         end.
  repeat match goal with
         | H : Nat.eqb _ _ = true |- _ => apply Nat.eqb_eq in H
         end.
  set (sym := Object (repeat (CStr symbol) n)).
  set (rest := [("SERIES", c1); ("OPEN", c2); ("HIGH", c3); ("LOW", c4);
                ("PREV_CLOSE", c5); ("LTP", c6); ("CLOSE", c7)]).
  set (tail := [("52W_H", c9); ("52W_L", c10); ("VOLUME", c11);
                ("VALUE", c12); ("NO_OF_TRADES", c13)]).
  set (df1 := {| nrows := n;
                 columns := ("DATE", dates) :: rest ++ ("VWAP", c8) :: tail |}).
  set (df2 := {| nrows := n;
                 columns := ("SYMBOL", sym) :: ("DATE", dates)
                              :: rest ++ ("VWAP", c8) :: tail |}).
  set (df3 := {| nrows := n;
                 columns := ("SYMBOL", sym)
                              :: ("DATE", date_objects stamps)
                              :: rest ++ ("VWAP", c8) :: tail |}).
  unfold parse_table. rewrite Hread. cbn [bind].
  replace (set_columns _ HIST_COLUMNS) with (Ok df1) by reflexivity.
  cbn [bind].
  replace (insert df1 0 "SYMBOL" (CStr symbol)) with (Ok df2) by reflexivity.
  cbn [bind].
  replace (getitem df2 "DATE") with (Ok dates) by reflexivity.
  cbn [bind]. unfold to_datetime. rewrite Hstamps. cbn [bind dt_date].
  assert (Hdate_len : column_length (date_objects stamps) = n).
  { rewrite date_objects_length, (mapM_length _ _ _ Hstamps). assumption. }
  unfold setitem at 1. rewrite Hdate_len. cbn [nrows df2].
  rewrite Nat.eqb_refl. cbn [bind].
  replace (getitem _ "VWAP") with (Ok c8) by reflexivity.
  cbn [bind]. unfold setitem. rewrite to_numeric_length.
  match goal with
  | H : column_length c8 = n |- _ => rewrite H
  end.
  cbn [nrows]. rewrite Nat.eqb_refl. reflexivity.
Qed.


(** The columns of the specified table. *)
Lemma historical_frame_columns (symbol : string) (df : DataFrame)
  (stamps : list (option date)) :
  List.length (columns df) = 14%nat ->
  let out := historical_frame symbol df stamps in
  labels out = "SYMBOL" :: HIST_COLUMNS
  /\ hd_error (columns out)
       = Some ("SYMBOL", Object (repeat (CStr symbol) (nrows out)))
  /\ getitem out "DATE" = Ok (date_objects stamps)
  /\ (forall vwap, column_at df 8 = Some vwap ->
                   getitem out "VWAP" = Ok (to_numeric vwap))
  /\ (forall i label c,
         nth_error HIST_COLUMNS i = Some label ->
         label <> "DATE" -> label <> "VWAP" ->
         column_at df i = Some c ->
         getitem out label = Ok c).
Proof.
  intros Hlen. destruct df as [n cols]. cbn [columns nrows] in *.
  destruct (fourteen_columns cols Hlen)
    as (l0 & c0 & l1 & c1 & l2 & c2 & l3 & c3 & l4 & c4 & l5 & c5 & l6 & c6
        & l7 & c7 & l8 & c8 & l9 & c9 & l10 & c10 & l11 & c11 & l12 & c12
        & l13 & c13 & ->).
  cbv zeta. repeat split.
  - intros vwap [= <-]. reflexivity.
  - intros i label c Hlabel Hdate Hvwap Hc.
    do 14 (destruct i as [| i];
           [ injection Hlabel as <-; injection Hc as <-;
             solve [reflexivity | contradiction] | ]).
    destruct i; discriminate Hlabel.
Qed.


(** The method on a 200 response whose body the [try] block accepts. *)
Lemma get_historical_data_ok (self : NseAPI)
  (symbol start_date end_date : string) (response : Response)
  (out : DataFrame) :
  client self (historical_url symbol start_date end_date) (HEADERS self)
         (Some 1000) = Ok response ->
  status_code response = 200 ->
  parse_table (text response) symbol = Ok out ->
  get_historical_data self symbol start_date end_date = ([], Ok (Some out)).
Proof.
  intros Hget Hstatus Hparse. unfold get_historical_data.
  now rewrite Hget, Hstatus, Hparse.
Qed.

(** ** C1: the historical table *)



(** ** C3: a body that is not the table *)

(** C3. On a 200 response whose body makes the [try] block fail,
    [get_historical_data] raises; when the decoded body has a [showMessage],
    the exception is [Exception] with the message ["Error: "] followed by
    that value, so a text diagnostic occurs in the message. *)
Theorem get_historical_data_malformed (self : NseAPI)
  (symbol start_date end_date : string) (response : Response) (cause : exn) :
  client self (historical_url symbol start_date end_date) (HEADERS self)
         (Some 1000) = Ok response ->
  status_code response = 200 ->
  parse_table (text response) symbol = Raise cause ->
  (exists e,
      get_historical_data self symbol start_date end_date = ([], Raise e))
  /\ (forall body diagnostic,
         json response = Ok (VDict body) ->
         dict_lookup "showMessage" body = Some diagnostic ->
         get_historical_data self symbol start_date end_date
           = ([], Raise (Exception ("Error: " ++ py_str diagnostic))))
  /\ (forall body diagnostic,
         json response = Ok (VDict body) ->
         dict_lookup "showMessage" body = Some (VStr diagnostic) ->
         exists message,
           get_historical_data self symbol start_date end_date
             = ([], Raise (Exception message))
           /\ occurs_in diagnostic message).
Proof.
  intros Hget Hstatus Hparse.
  assert (Hrun : get_historical_data self symbol start_date end_date
                 = ([], j <- json response ;;
                        showMessage <- py_get j "showMessage" VNone ;;
                        Raise (Exception ("Error: " ++ py_str showMessage)))).
  { unfold get_historical_data. now rewrite Hget, Hstatus, Hparse. }
  rewrite Hrun. split; [| split].
  - destruct (json response) as [j | e]; [| now exists e].
    cbn [bind].
    destruct (py_get j "showMessage" VNone) as [m | e]; [| now exists e].
    cbn [bind]. eauto.
  - intros body diagnostic Hjson Hmessage.
    rewrite Hjson. cbn [bind py_get]. now rewrite Hmessage.
  - intros body diagnostic Hjson Hmessage.
    rewrite Hjson. cbn [bind py_get]. rewrite Hmessage. cbn [bind py_str].
    exists ("Error: " ++ diagnostic). split; [reflexivity |].
    exists "Error: ", "". now rewrite append_empty_r.
Qed.

(** The two ways a body fails the [try] block before any date is read: the
    reader refuses it, or it has not fourteen columns. *)
Lemma parse_table_raises (response_text symbol : string) :
  (exists e, read_csv response_text "," = Raise e)
  \/ (exists df, read_csv response_text "," = Ok df
                 /\ List.length (columns df) <> 14%nat) ->
  exists cause, parse_table response_text symbol = Raise cause.
Proof.
  unfold parse_table. intros [[e He] | [df [Hdf Hlen]]].
  - rewrite He. now exists e.
  - rewrite Hdf. cbn [bind]. unfold set_columns.
    destruct (Nat.eqb_spec (List.length HIST_COLUMNS) (List.length (columns df)))
      as [Heq | Hne].
    + exfalso. apply Hlen. now rewrite <- Heq.
    + now exists ValueError.
Qed.

(** ** C4: a status other than 200 *)

(** C4. On a status other than 200, [get_historical_data] prints the body of
    the response and returns [None]; it does not raise. *)
Theorem get_historical_data_not_200 (self : NseAPI)
  (symbol start_date end_date : string) (response : Response) :
  client self (historical_url symbol start_date end_date) (HEADERS self)
         (Some 1000) = Ok response ->
  status_code response <> 200 ->
  get_historical_data self symbol start_date end_date
    = ([text response], Ok None).
Proof.
  intros Hget Hstatus. unfold get_historical_data. rewrite Hget.
  destruct (Z.eqb_spec (status_code response) 200); [contradiction |].
  reflexivity.
Qed.

(** ** C6: what is coerced to numbers *)

(** What the method returned, when it returned a table. *)
Lemma get_historical_data_inv (self : NseAPI)
  (symbol start_date end_date : string) (response : Response)
  (out : DataFrame) :
  client self (historical_url symbol start_date end_date) (HEADERS self)
         (Some 1000) = Ok response ->
  get_historical_data self symbol start_date end_date = ([], Ok (Some out)) ->
  status_code response = 200 /\ parse_table (text response) symbol = Ok out.
Proof.
  intros Hget H. unfold get_historical_data in H. rewrite Hget in H.
  destruct (Z.eqb_spec (status_code response) 200) as [Hstatus | _];
    [| discriminate H].
  split; [assumption |].
  destruct (parse_table (text response) symbol) as [df | cause].
  - now injection H as ->.
  - exfalso. injection H as H.
    destruct (json response) as [j |]; [| discriminate H].
    cbn [bind] in H.
    destruct (py_get j "showMessage" VNone); discriminate H.
Qed.


End HistoricalProofs.

(* ================================================================== *)
(** * The historical operation on the example bodies *)



Lemma get_historical_data_malformed_example :
  get_historical_data (always diagnostic_response)
    "SBIN" "2023-01-01" "2023-01-31"
    = ([], Raise (Exception "Error: No record found"))
  /\ occurs_in "No record found" "Error: No record found".
Proof.
  destruct (get_historical_data_malformed (P := reader)
              (always diagnostic_response) "SBIN" "2023-01-01" "2023-01-31"
              diagnostic_response ValueError)
    as (_ & Hmessage & Hoccurs).
  - reflexivity.
  - reflexivity.
  - vm_compute. reflexivity.
  - split.
    + apply (Hmessage [("showMessage", VStr "No record found")]
               (VStr "No record found")); reflexivity.
    + destruct (Hoccurs [("showMessage", VStr "No record found")]
                  "No record found") as (message & Hrun & Hin);
        [reflexivity | reflexivity |].
      vm_compute in Hrun. injection Hrun as <-. exact Hin.
Defined.

Lemma get_historical_data_not_200_example :
  get_historical_data (always not_found_response)
    "SBIN" "2023-01-01" "2023-01-31" = (["Not Found"], Ok None).
Proof.
  apply (get_historical_data_not_200 (P := reader) (always not_found_response)
           "SBIN" "2023-01-01" "2023-01-31" not_found_response).
  - reflexivity.
  - simpl. lia.
Defined.



(* ================================================================== *)
(** * At the edge of the properties

    What the methods do on bodies just outside the hypotheses above. *)

(** A ['meta'] that is present but is [None] makes [get_all_stocks] raise:
    the default of [get] covers the missing key only. *)
Lemma get_all_stocks_null_meta :
  get_all_stocks
    (always {| status_code := 200; text := "";
               json := Ok (VDict [("data",
                                   VList [VDict [("symbol", VStr "SBIN");
                                                 ("meta", VNone)]])]) |})
    "NIFTY 50" = Raise AttributeError.
Proof. reflexivity. Qed.

(** A 200 body that is a list, not a dictionary, makes [get_stock_data]
    raise where it looks for ['info']. *)
Lemma get_stock_data_list_body :
  get_stock_data
    (always {| status_code := 200; text := ""; json := Ok (VList []) |})
    "SBIN" = Raise AttributeError.
Proof. reflexivity. Qed.

(** A 200 body without ['timestamp'] makes [index_data] raise. *)
Lemma index_data_no_timestamp :
  index_data
    (always {| status_code := 200; text := "";
               json := Ok (VDict [("data", VList [])]) |})
    "NIFTY 50" = Raise (KeyError "timestamp").
Proof. reflexivity. Qed.

(** A 200 body that is neither the table nor JSON: the exception is the
    decoder's, raised inside the handler. *)
Lemma get_historical_data_not_json :
  get_historical_data
    (always {| status_code := 200; text := "Service unavailable";
               json := Raise JSONDecodeError |})
    "SBIN" "2023-01-01" "2023-01-31" = ([], Raise JSONDecodeError).
Proof. vm_compute. reflexivity. Qed.

(** Beside a dash in the same column, a VWAP written with a thousands
    separator is a text for [to_numeric] too, and becomes NaN. *)
Lemma vwap_thousands_beside_dash :
  to_numeric (Reader.infer_column (Some ","%char) ["1,234.56"; "-"])
    = Float64 [NaN; NaN]
  /\ to_numeric (Reader.infer_column (Some ","%char) ["1,234.56"; "1,015.50"])
     = Float64 [float_of_decimal 123456 2; float_of_decimal 10155 1].
Proof. split; vm_compute; reflexivity. Qed.

(* ================================================================== *)
(** * Further properties of the methods *)

(** ** Failures of the transport *)

(** X1. An exception of the session's [get] is not caught by any of the five
    methods: each raises it, and [get_historical_data], whose request stands
    before its [try], raises it without printing. *)
Theorem transport_errors_propagate (self : NseAPI) (e : exn) :
  (client self indices_url (HEADERS self) None = Raise e ->
   get_indices self = Raise e)
  /\ (forall index,
         client self (stocks_url index) (HEADERS self) None = Raise e ->
         get_all_stocks self index = Raise e)
  /\ (forall stock_index,
         client self (index_url stock_index) (HEADERS self) None = Raise e ->
         index_data self stock_index = Raise e)
  /\ (forall symbol,
         client self (quote_url symbol) (HEADERS self) None = Raise e ->
         get_stock_data self symbol = Raise e)
  /\ (forall (P : Pandas) symbol start_date end_date,
         client self (historical_url symbol start_date end_date)
                (HEADERS self) (Some 1000) = Raise e ->
         get_historical_data self symbol start_date end_date = ([], Raise e)).
Proof.
  repeat split.
  - intros H. unfold get_indices. now rewrite H.
  - intros index H. unfold get_all_stocks. now rewrite H.
  - intros stock_index H. unfold index_data. now rewrite H.
  - intros symbol H. unfold get_stock_data. now rewrite H.
  - intros P symbol start_date end_date H. unfold get_historical_data.
    now rewrite H.
Qed.

Lemma transport_errors_propagate_example :
  get_indices offline = Raise ConnectionError
  /\ get_all_stocks offline "NIFTY 50" = Raise ConnectionError
  /\ index_data offline "NIFTY 50" = Raise ConnectionError
  /\ get_stock_data offline "SBIN" = Raise ConnectionError
  /\ get_historical_data offline "SBIN" "2023-01-01" "2023-01-31"
     = ([], Raise ConnectionError).
Proof.
  destruct (transport_errors_propagate offline ConnectionError)
    as (H1 & H2 & H3 & H4 & H5).
  split; [apply H1; reflexivity |].
  split; [apply H2; reflexivity |].
  split; [apply H3; reflexivity |].
  split; [apply H4; reflexivity |].
  apply (H5 reader). reflexivity.
Defined.

(** ** [get_indices] on any dictionary *)

Lemma get_indices_iterates (d0 d : list (string * value)) :
  (forall k v, In (k, v) d -> dict_lookup k d0 = Some v) ->
  mapM (fun symbols =>
          group <- py_getitem (VDict d0) symbols ;; py_iter group)
       (dict_keys d)
  = mapM py_iter (map snd d).
Proof.
  induction d as [| [k v] d IH]; intros Hlook; [reflexivity |].
  change (dict_keys ((k, v) :: d)) with (k :: dict_keys d).
  cbn [mapM map snd]. unfold py_getitem at 1.
  rewrite (Hlook k v) by now left. cbn [bind].
  rewrite IH; [reflexivity |].
  intros k' v' Hin. apply Hlook. now right.
Qed.

Lemma mapM_raises {A B : Type} (f : A -> result B) (e : exn) (l : list A) :
  (forall a, In a l -> f a = Raise e \/ exists b, f a = Ok b) ->
  (exists a, In a l /\ f a = Raise e) ->
  mapM f l = Raise e.
Proof.
  induction l as [| a l IH]; intros Hall [a0 [Hin Ha0]]; [contradiction |].
  cbn [mapM].
  destruct (Hall a (or_introl eq_refl)) as [Ha | [b Hb]].
  - now rewrite Ha.
  - rewrite Hb. cbn [bind].
    destruct Hin as [-> | Hin]; [congruence |].
    rewrite IH; [reflexivity | | now exists a0].
    intros a' Ha'. apply Hall. now right.
Qed.

(** X2. On a body that is a dictionary, [get_indices] joins what iterating
    each value gives, in the order of the keys: a text contributes its
    characters and a dictionary its keys; and it raises [TypeError] as soon
    as one value cannot be iterated ([None], a boolean, a number). *)
Theorem get_indices_iterates_every_group (self : NseAPI) (response : Response)
  (d : list (string * value)) :
  client self indices_url (HEADERS self) None = Ok response ->
  json response = Ok (VDict d) ->
  unique_keys (dict_keys d) = true ->
  get_indices self
    = (groups <- mapM py_iter (map snd d) ;; Ok (VList (List.concat groups)))
  /\ (forallb iterable (map snd d) = false -> get_indices self = Raise TypeError).
Proof.
  intros Hget Hjson Hunique.
  assert (Hrun : get_indices self
                 = (groups <- mapM py_iter (map snd d) ;;
                    Ok (VList (List.concat groups)))).
  { unfold get_indices. rewrite Hget. cbn [bind]. rewrite Hjson.
    cbn [bind py_keys]. rewrite (get_indices_iterates d d); [reflexivity |].
    intros k v Hin. now apply dict_lookup_unique. }
  split; [exact Hrun |].
  intros Hbad. rewrite Hrun.
  rewrite (mapM_raises py_iter TypeError); [reflexivity | |].
  - intros v _. destruct v; cbn [py_iter]; eauto.
  - destruct (existsb (fun v => negb (iterable v)) (map snd d)) eqn:E.
    + apply existsb_exists in E as [v [Hin Hv]]. exists v. split; [assumption |].
      unfold iterable in Hv. destruct v; cbn [py_iter] in Hv |- *;
        try discriminate Hv; reflexivity.
    + exfalso. rewrite <- Hbad in E.
      assert (Hall : forallb iterable (map snd d) = true).
      { apply forallb_forall. intros v Hin.
        destruct (iterable v) eqn:Hv; [reflexivity |].
        assert (Hex : existsb (fun v => negb (iterable v)) (map snd d) = true).
        { apply existsb_exists. exists v. split; [assumption |].
          now rewrite Hv. }
        rewrite Hbad in E. congruence. }
      congruence.
Qed.

Lemma get_indices_iterates_every_group_example :
  get_indices (always mixed_master_response)
    = Ok (VList [VStr "X"; VStr "Y"; VStr "Z"; VStr "K"])
  /\ get_indices (always null_group_response) = Raise TypeError.
Proof.
  split.
  - exact (proj1 (get_indices_iterates_every_group
                    (always mixed_master_response) mixed_master_response
                    _ eq_refl eq_refl eq_refl)).
  - exact (proj2 (get_indices_iterates_every_group
                    (always null_group_response) null_group_response
                    _ eq_refl eq_refl eq_refl) eq_refl).
Defined.

(** ** [get_all_stocks] on any body *)

Lemma stock_entry_inv (index : string) (stock record : value) :
  stock_entry index stock = Ok (Some record) ->
  exists sym company,
    record = VDict [("stock_symbol", sym); ("company_name", company)]
    /\ py_getitem stock "symbol" = Ok sym
    /\ py_ne_str sym (upper index) = true.
Proof.
  unfold stock_entry. intros H.
  destruct (py_getitem stock "symbol") as [sym |]; [| discriminate H].
  cbn [bind] in H.
  destruct (py_ne_str sym (upper index)) eqn:Hne; [| discriminate H].
  destruct (py_get stock "meta" (VDict [])) as [meta |]; [| discriminate H].
  cbn [bind] in H.
  destruct (py_get meta "companyName" VNone) as [company |];
    [| discriminate H].
  cbn [bind] in H. injection H as <-.
  exists sym, company. repeat split. assumption.
Qed.

Lemma filter_mapM_inv {A B : Type} (f : A -> result (option B)) (l : list A) :
  forall bs,
    filter_mapM f l = Ok bs ->
    (List.length bs <= List.length l)%nat
    /\ forall b, In b bs -> exists a, In a l /\ f a = Ok (Some b).
Proof.
  induction l as [| a l IH]; intros bs H.
  - injection H as <-. split; [apply le_n | contradiction].
  - cbn [filter_mapM] in H.
    destruct (f a) as [ob |] eqn:Ha; [| discriminate H].
    destruct (filter_mapM f l) as [bs' |]; [| discriminate H].
    cbn [bind] in H. injection H as <-.
    destruct (IH bs' eq_refl) as [Hlen Hin].
    destruct ob as [b |]; cbn [List.length].
    + split; [lia |]. intros b' [<- | Hb'].
      * exists a. split; [now left | assumption].
      * destruct (Hin b' Hb') as [a' [Ha' Hfa']]. exists a'. split;
          [now right | assumption].
    + split; [lia |]. intros b' Hb'.
      destruct (Hin b' Hb') as [a' [Ha' Hfa']]. exists a'. split;
        [now right | assumption].
Qed.

(** X3. Whatever the body, a result of [get_all_stocks] is a list of records
    with exactly the two fields [stock_symbol] and [company_name], no longer
    than the iterated ['data'], and no record in it has the upper-cased index
    name as its [stock_symbol]. *)
Theorem get_all_stocks_result_shape (self : NseAPI) (index : string)
  (response : Response) (j r : value) :
  client self (stocks_url index) (HEADERS self) None = Ok response ->
  json response = Ok j ->
  get_all_stocks self index = Ok r ->
  exists rows records,
    (d <- py_getitem j "data" ;; py_iter d) = Ok rows
    /\ r = VList records
    /\ (List.length records <= List.length rows)%nat
    /\ forall record,
         In record records ->
         field_names record = Some ["stock_symbol"; "company_name"]
         /\ field record "stock_symbol" <> VStr (upper index).
Proof.
  intros Hget Hjson H. unfold get_all_stocks in H.
  rewrite Hget in H. cbn [bind] in H. rewrite Hjson in H. cbn [bind] in H.
  destruct (py_getitem j "data") as [d |]; [| discriminate H].
  cbn [bind] in H |- *.
  destruct (py_iter d) as [rows |]; [| discriminate H].
  cbn [bind] in H.
  destruct (filter_mapM (stock_entry index) rows) as [records |] eqn:Hrecords;
    [| discriminate H].
  cbn [bind] in H. injection H as <-.
  destruct (filter_mapM_inv _ _ _ Hrecords) as [Hlen Hin].
  exists rows, records. repeat split; try assumption.
  - destruct (Hin record H) as (row & _ & Hrow).
    destruct (stock_entry_inv index row record Hrow) as (sym & c & -> & _ & _).
    reflexivity.
  - destruct (Hin record H) as (row & _ & Hrow).
    destruct (stock_entry_inv index row record Hrow)
      as (sym & c & -> & _ & Hne).
    cbn. intros ->. cbn [py_ne_str] in Hne.
    now rewrite String.eqb_refl in Hne.
Qed.

Lemma get_all_stocks_result_shape_example :
  exists records,
    get_all_stocks nifty_server "nifty 50" = Ok (VList records)
    /\ (List.length records <= 4)%nat
    /\ forall record,
         In record records ->
         field_names record = Some ["stock_symbol"; "company_name"]
         /\ field record "stock_symbol" <> VStr "NIFTY 50".
Proof.
  destruct (get_all_stocks_result_shape nifty_server "nifty 50"
              constituents_response
              (VDict [("name", VStr "NIFTY 50");
                      ("data", VList constituents_rows)])
              (VList (map stock_record
                        (filter (not_named "NIFTY 50") constituents_rows)))
              eq_refl eq_refl eq_refl)
    as (rows & records & Hrows & Hr & Hlen & Hrecords).
  injection Hrows as <-. injection Hr as <-.
  eexists. split; [reflexivity |]. split; [exact Hlen | exact Hrecords].
Defined.

Lemma filter_mapM_raises {A B : Type} (f : A -> result (option B))
  (good : list A) (bad : A) (rest : list A) (e : exn) :
  (forall a, In a good -> exists ob, f a = Ok ob) ->
  f bad = Raise e ->
  filter_mapM f (good ++ bad :: rest) = Raise e.
Proof.
  intros Hgood Hbad. induction good as [| a good IH]; cbn [app filter_mapM].
  - now rewrite Hbad.
  - destruct (Hgood a (or_introl eq_refl)) as [ob Ha]. rewrite Ha. cbn [bind].
    rewrite IH; [reflexivity |].
    intros a' Ha'. apply Hgood. now right.
Qed.

(** X4. ['symbol'] is read without a default: when the rows before it are
    well formed, a row that is a dictionary without ['symbol'] makes
    [get_all_stocks] raise [KeyError('symbol')], whatever follows. *)
Theorem get_all_stocks_row_without_symbol (self : NseAPI) (index : string)
  (response : Response) (j : value) (good rest : list value)
  (fields : list (string * value)) :
  client self (stocks_url index) (HEADERS self) None = Ok response ->
  json response = Ok j ->
  py_getitem j "data" = Ok (VList (good ++ VDict fields :: rest)) ->
  forallb stock_row_ok good = true ->
  dict_lookup "symbol" fields = None ->
  get_all_stocks self index = Raise (KeyError "symbol").
Proof.
  intros Hget Hjson Hdata Hgood Hsymbol. unfold get_all_stocks.
  rewrite Hget. cbn [bind]. rewrite Hjson. cbn [bind].
  rewrite Hdata. cbn [bind py_iter].
  rewrite (filter_mapM_raises (stock_entry index) good (VDict fields) rest
             (KeyError "symbol")); [reflexivity | |].
  - intros row Hin. rewrite forallb_forall in Hgood.
    rewrite (stock_entry_ok index row (Hgood row Hin)). eauto.
  - unfold stock_entry, py_getitem. now rewrite Hsymbol.
Qed.

Lemma get_all_stocks_row_without_symbol_example :
  get_all_stocks (always no_symbol_response) "NIFTY 50"
    = Raise (KeyError "symbol").
Proof.
  exact (get_all_stocks_row_without_symbol (always no_symbol_response)
           "NIFTY 50" no_symbol_response _
           [VDict [("symbol", VStr "SBIN")]] [VDict [("symbol", VStr "INFY")]]
           [("identifier", VStr "TCSEQN")]
           eq_refl eq_refl eq_refl eq_refl eq_refl).
Defined.

(** ** [quote] and the request of [get_all_stocks] *)

Lemma unescape_escape (c : ascii) :
  ascii_of_nat (16 * hex_value (hex_digit (Nat.div (nat_of_ascii c) 16))
                + hex_value (hex_digit (Nat.modulo (nat_of_ascii c) 16))) = c.
Proof.
  destruct c as [[] [] [] [] [] [] [] []]; vm_compute; reflexivity.
Qed.

Lemma safe_not_percent (c : ascii) : quote_safe c = true -> Ascii.eqb c "%" = false.
Proof.
  intros H. destruct (Ascii.eqb_spec c "%") as [-> | _]; [| reflexivity].
  discriminate H.
Qed.

Lemma unescape_quote (s : string) : unescape (quote s) = s.
Proof.
  induction s as [| c s IH]; [reflexivity |].
  cbn [quote]. destruct (quote_safe c) eqn:Hsafe.
  - cbn [unescape]. rewrite (safe_not_percent c Hsafe). now rewrite IH.
  - cbn [unescape]. rewrite Ascii.eqb_refl.
    now rewrite unescape_escape, IH.
Qed.

Lemma append_inj_l (p a b : string) : p ++ a = p ++ b -> a = b.
Proof.
  induction p as [| c p IH]; cbn [append]; [trivial |].
  intros [= H]. now apply IH.
Qed.

(** X5. [quote] loses nothing: two texts with the same escaping are equal.
    So [get_all_stocks] requests the same URL for two index names exactly
    when their upper-casings are equal. *)
Theorem stocks_url_distinguishes_names (a b : string) :
  (quote a = quote b -> a = b)
  /\ (stocks_url a = stocks_url b <-> upper a = upper b).
Proof.
  assert (Hinj : forall x y, quote x = quote y -> x = y).
  { intros x y H. rewrite <- (unescape_quote x), <- (unescape_quote y).
    now rewrite H. }
  split; [apply Hinj |]. unfold stocks_url. split.
  - intros H. apply Hinj. now apply append_inj_l in H.
  - now intros ->.
Qed.

Lemma escaped_char_ok (c : ascii) :
  quote_safe (hex_digit (Nat.div (nat_of_ascii c) 16)) = true
  /\ quote_safe (hex_digit (Nat.modulo (nat_of_ascii c) 16)) = true.
Proof.
  destruct c as [[] [] [] [] [] [] [] []]; split; vm_compute; reflexivity.
Qed.

(** X6. Where the name goes into the URL.  [get_all_stocks] and
    [get_historical_data] put it there upper-cased and escaped by [quote]:
    the URL is a fixed text, the escaped name and, for the historical
    operation, the fixed query with the two dates as they were passed.  The
    escaped name holds only letters, digits, [_.-~/] and percent signs, so
    no space, [&], [?] or [#] of the name reaches the URL, and a name whose
    upper-casing is made of the former characters alone is there as that
    upper-casing.  [index_data] and [get_stock_data] put the name after the
    fixed text as it was passed, unescaped. *)
Theorem quote_is_url_safe (name : string) :
  forallb url_char (list_ascii_of_string (quote name)) = true
  /\ (forallb quote_safe (list_ascii_of_string name) = true ->
      quote name = name)
  /\ (exists escaped,
         stocks_url name = STOCK_INDICES_PREFIX ++ escaped
         /\ (forall start_date end_date,
                historical_url name start_date end_date
                  = HISTORICAL_PREFIX ++ escaped
                      ++ historical_query start_date end_date)
         /\ forallb url_char (list_ascii_of_string escaped) = true
         /\ (forallb quote_safe (list_ascii_of_string (upper name)) = true ->
             escaped = upper name))
  /\ index_url name = STOCK_INDICES_PREFIX ++ name
  /\ quote_url name = QUOTE_PREFIX ++ name.
Proof.
  assert (Hchars : forall s,
             forallb url_char (list_ascii_of_string (quote s)) = true).
  { induction s as [| c s IH]; [reflexivity |].
    cbn [quote]. destruct (quote_safe c) eqn:Hsafe.
    - cbn [list_ascii_of_string forallb]. unfold url_char at 1.
      now rewrite Hsafe, IH.
    - destruct (escaped_char_ok c) as [Hhi Hlo].
      cbn [list_ascii_of_string forallb]. unfold url_char at 1 2 3.
      rewrite Hhi, Hlo, IH. reflexivity. }
  assert (Hsame : forall s,
             forallb quote_safe (list_ascii_of_string s) = true ->
             quote s = s).
  { induction s as [| c s IH]; [reflexivity |].
    cbn [list_ascii_of_string forallb quote]. intros H.
    apply andb_prop in H as [Hc Hs]. rewrite Hc. now rewrite IH. }
  split; [apply Hchars |]. split; [apply Hsame |].
  split; [| split; reflexivity].
  exists (quote (upper name)).
  split; [reflexivity |]. split; [reflexivity |].
  split; [apply Hchars | apply Hsame].
Qed.

Lemma quote_is_url_safe_example :
  stocks_url "nifty_50" = STOCK_INDICES_PREFIX ++ "NIFTY_50"
  /\ index_url "NIFTY 50&x=1#y" = STOCK_INDICES_PREFIX ++ "NIFTY 50&x=1#y".
Proof.
  destruct (quote_is_url_safe "nifty_50")
    as (_ & _ & (escaped & Hurl & _ & _ & Hsame) & _).
  rewrite Hurl, (Hsame eq_refl). split; [reflexivity |].
  exact (proj1 (proj2 (proj2 (proj2 (quote_is_url_safe "NIFTY 50&x=1#y"))))).
Defined.

Lemma stocks_url_distinguishes_names_example :
  stocks_url "Nifty 50" = stocks_url "NIFTY 50".
Proof.
  exact (proj2 (proj2 (stocks_url_distinguishes_names "Nifty 50" "NIFTY 50"))
           eq_refl).
Defined.

(** ** The values of the records of [index_data] *)

Lemma index_row_values (last_updated : value) (i : nat) (datum r : value) :
  index_row last_updated i datum = Ok r ->
  (forall out source,
      In (out, source) INDEX_RENAMES ->
      exists v, py_getitem datum source = Ok v /\ field r out = v)
  /\ field r "last_updated_at" = last_updated
  /\ (i <> 0%nat ->
      exists meta company,
        py_getitem datum "meta" = Ok meta
        /\ py_get meta "companyName" VNone = Ok company
        /\ field r "company_name" = company).
Proof.
  unfold index_row. intros H. binds_inv H.
  destruct i as [| i]; cbn [negb Nat.eqb] in H.
  - injection H as <-. split; [| split].
    + intros out source Hin. cbn [In INDEX_RENAMES] in Hin.
      repeat destruct Hin as [Hin | Hin]; try contradiction.
      all: injection Hin as <- <-; eexists.
      all: split; [eassumption | reflexivity].
    + reflexivity.
    + intros Hi. contradiction.
  - binds_inv H. injection H as <-. split; [| split].
    + intros out source Hin. cbn [In INDEX_RENAMES] in Hin.
      repeat destruct Hin as [Hin | Hin]; try contradiction.
      all: injection Hin as <- <-; eexists.
      all: split; [eassumption | reflexivity].
    + reflexivity.
    + intros _. do 2 eexists.
      split; [reflexivity | split; [eassumption | reflexivity]].
Qed.

Lemma index_loop_nth (last_updated : value) (data : list value) :
  forall (i0 : nat) (records : list value) (i : nat) (r : value),
    index_loop last_updated i0 data = Ok records ->
    nth_error records i = Some r ->
    exists datum,
      nth_error data i = Some datum
      /\ index_row last_updated (i0 + i) datum = Ok r.
Proof.
  induction data as [| datum data IH]; intros i0 records i r H Hr.
  - injection H as <-. destruct i; discriminate.
  - cbn [index_loop] in H.
    destruct (index_row last_updated i0 datum) as [row |] eqn:Hrow;
      [| discriminate].
    destruct (index_loop last_updated (S i0) data) as [rows |] eqn:Hrows;
      [| discriminate].
    cbn [bind] in H. injection H as <-.
    destruct i as [| i]; cbn [nth_error] in Hr |- *.
    + injection Hr as <-. exists datum. now rewrite Nat.add_0_r.
    + destruct (IH (S i0) rows i r Hrows Hr) as [d [Hd Hrow']].
      exists d. split; [assumption |]. now rewrite <- Nat.add_succ_comm.
Qed.

(** X7. In a result of [index_data] on a 200 response, the [i]-th record is
    made from the [i]-th row: each field is the row's value under the source
    key ([52W_High] from ['yearHigh'], [52W_Low] from ['yearLow'], the others
    under their own name), [last_updated_at] is the body's ['timestamp'] in
    every record, and after the first record [company_name] is
    [row['meta'].get('companyName')]. *)
Theorem index_data_record_values (self : NseAPI) (stock_index : string)
  (response : Response) (j : value) (records : list value) :
  client self (index_url stock_index) (HEADERS self) None = Ok response ->
  status_code response = 200 ->
  json response = Ok j ->
  index_data self stock_index = Ok (VList records) ->
  exists last_updated data,
    py_getitem j "timestamp" = Ok last_updated
    /\ (d <- py_getitem j "data" ;; py_iter d) = Ok data
    /\ forall i record,
         nth_error records i = Some record ->
         exists datum,
           nth_error data i = Some datum
           /\ (forall out source,
                  In (out, source) INDEX_RENAMES ->
                  exists v, py_getitem datum source = Ok v
                            /\ field record out = v)
           /\ field record "last_updated_at" = last_updated
           /\ (i <> 0%nat ->
               exists meta company,
                 py_getitem datum "meta" = Ok meta
                 /\ py_get meta "companyName" VNone = Ok company
                 /\ field record "company_name" = company).
Proof.
  intros Hget Hstatus Hjson H. unfold index_data in H.
  rewrite Hget in H. cbn [bind] in H.
  rewrite Hstatus, Hjson in H. cbn [Z.eqb Pos.eqb negb bind] in H.
  destruct (py_getitem j "timestamp") as [last_updated |]; [| discriminate].
  destruct (py_getitem j "data") as [d |]; [| discriminate].
  cbn [bind] in H |- *.
  destruct (py_iter d) as [data |]; [| discriminate].
  cbn [bind] in H.
  destruct (index_loop last_updated 0 data) as [records' |] eqn:Hloop;
    [| discriminate].
  cbn [bind] in H. injection H as <-.
  exists last_updated, data. split; [reflexivity |]. split; [reflexivity |].
  intros i record Hrecord.
  destruct (index_loop_nth last_updated data 0 records' i record Hloop Hrecord)
    as [datum [Hdatum Hrow]].
  exists datum. split; [assumption |].
  now apply (index_row_values last_updated (0 + i) datum record).
Qed.

Lemma index_data_record_values_example :
  exists records,
    index_data (always (snapshot_response snapshot_rows)) "NIFTY 50"
      = Ok (VList records)
    /\ map (fun r => field r "52W_High") records
       = [VInt 18050; VInt 650; VInt 3350]
    /\ map (fun r => field r "last_updated_at") records
       = [VStr "02-Jan-2023 15:30:00"; VStr "02-Jan-2023 15:30:00";
          VStr "02-Jan-2023 15:30:00"]
    /\ map (fun r => field r "company_name") records
       = [VNone; VStr "State Bank of India"; VNone].
Proof.
  destruct (index_data (always (snapshot_response snapshot_rows)) "NIFTY 50")
    as [[| | | | | records |] |] eqn:Hrun; try discriminate Hrun.
  destruct (index_data_record_values
              (always (snapshot_response snapshot_rows)) "NIFTY 50"
              (snapshot_response snapshot_rows) (snapshot_body snapshot_rows)
              records eq_refl eq_refl eq_refl Hrun)
    as (last_updated & data & _).
  exists records. split; [reflexivity |].
  vm_compute in Hrun. injection Hrun as <-. repeat split.
Defined.

(** ** A row of [index_data] without a source key *)

Lemma index_row_first_missing (last_updated : value) (i : nat)
  (fields : list (string * value)) (k : string) :
  first_missing fields INDEX_SOURCE_KEYS = Some k ->
  index_row last_updated i (VDict fields) = Raise (KeyError k).
Proof.
  unfold first_missing, has_key. cbn [find INDEX_SOURCE_KEYS].
  unfold index_row, py_getitem. intros H.
  repeat match type of H with
         | (if negb (match dict_lookup ?key fields with _ => _ end)
            then _ else _) = _ =>
             destruct (dict_lookup key fields);
             cbn [negb bind] in H |- *;
             [| injection H as <-; reflexivity]
         end.
  discriminate H.
Qed.

Lemma index_loop_app_raises (last_updated : value) (bad : value)
  (rest : list value) (e : exn) :
  forall (good : list value) (i0 : nat),
    index_rows_ok i0 good = true ->
    index_row last_updated (i0 + List.length good) bad = Raise e ->
    index_loop last_updated i0 (good ++ bad :: rest) = Raise e.
Proof.
  induction good as [| datum good IH]; intros i0 Hgood Hbad.
  - cbn [app index_loop]. cbn [List.length] in Hbad.
    rewrite Nat.add_0_r in Hbad. now rewrite Hbad.
  - cbn [index_rows_ok] in Hgood. apply andb_prop in Hgood as [Hrow Hrest].
    destruct (index_row_total last_updated i0 datum Hrow) as [r Hr].
    cbn [app index_loop]. rewrite Hr. cbn [bind].
    rewrite IH; [reflexivity | assumption |].
    cbn [List.length] in Hbad. now rewrite <- Nat.add_succ_comm in Hbad.
Qed.

(** X8. The source keys of a row are read without a default, in the order
    symbol, open, dayHigh, dayLow, lastPrice, previousClose, change, pChange,
    yearHigh, yearLow, totalTradedVolume, totalTradedValue, perChange365d,
    perChange30d: when the rows before it are well formed, a row that lacks
    some of them makes [index_data] raise [KeyError] for the first one it
    lacks, and no record is returned. *)
Theorem index_data_row_without_key (self : NseAPI) (stock_index : string)
  (response : Response) (j last_updated : value) (good rest : list value)
  (fields : list (string * value)) (k : string) :
  client self (index_url stock_index) (HEADERS self) None = Ok response ->
  status_code response = 200 ->
  json response = Ok j ->
  py_getitem j "timestamp" = Ok last_updated ->
  py_getitem j "data" = Ok (VList (good ++ VDict fields :: rest)) ->
  index_rows_ok 0 good = true ->
  first_missing fields INDEX_SOURCE_KEYS = Some k ->
  index_data self stock_index = Raise (KeyError k).
Proof.
  intros Hget Hstatus Hjson Hts Hdata Hgood Hmissing. unfold index_data.
  rewrite Hget. cbn [bind]. rewrite Hstatus, Hjson.
  cbn [Z.eqb Pos.eqb negb bind]. rewrite Hts. cbn [bind].
  rewrite Hdata. cbn [bind py_iter].
  rewrite (index_loop_app_raises last_updated (VDict fields) rest (KeyError k)
             good 0 Hgood); [reflexivity |].
  now apply index_row_first_missing.
Qed.

Lemma index_data_row_without_key_example :
  index_data (always (snapshot_response incomplete_rows)) "NIFTY 50"
    = Raise (KeyError "dayLow").
Proof.
  exact (index_data_row_without_key
           (always (snapshot_response incomplete_rows)) "NIFTY 50"
           (snapshot_response incomplete_rows) (snapshot_body incomplete_rows)
           (VStr "02-Jan-2023 15:30:00")
           [snapshot_row "NIFTY 50" 18000 []] []
           [("symbol", VStr "SBIN"); ("open", VInt 600); ("dayHigh", VInt 602);
            ("lastPrice", VInt 601); ("previousClose", VInt 600);
            ("change", VInt 1); ("pChange", VInt 1); ("yearLow", VInt 550);
            ("totalTradedVolume", VInt 1000);
            ("totalTradedValue", VInt 600000);
            ("perChange365d", VInt 12); ("perChange30d", VInt 3);
            ("meta", VDict [])]
           "dayLow" eq_refl eq_refl eq_refl eq_refl eq_refl eq_refl eq_refl).
Defined.

(** ** [get_all_stocks] and [index_data] on the same body *)

Lemma index_row_constituent (last_updated : value) (i : nat) (row r : value) :
  i <> 0%nat ->
  index_row last_updated i row = Ok r ->
  constituent_of r = stock_record row.
Proof.
  intros Hi H.
  destruct (index_row_values last_updated i row r H) as (Hrenames & _ & Hmeta).
  destruct (Hrenames "symbol" "symbol") as (sym & Hsym & Hfield);
    [cbn; tauto |].
  destruct (Hmeta Hi) as (meta & company & Hm & Hc & Hcompany).
  unfold constituent_of, stock_record. rewrite Hfield, Hcompany.
  destruct row as [| | | | | | fields]; try discriminate Hsym.
  unfold py_getitem in Hsym, Hm. cbn [row_symbol row_company].
  destruct (dict_lookup "symbol" fields); [| discriminate Hsym].
  injection Hsym as ->.
  destruct (dict_lookup "meta" fields); [| discriminate Hm].
  injection Hm as ->.
  destruct meta as [| | | | | | m]; try discriminate Hc.
  unfold py_get in Hc. destruct (dict_lookup "companyName" m);
    injection Hc as ->; reflexivity.
Qed.

Lemma index_loop_constituents (last_updated : value) (rows : list value) :
  forall (i0 : nat) (records : list value),
    i0 <> 0%nat ->
    index_loop last_updated i0 rows = Ok records ->
    map constituent_of records = map stock_record rows.
Proof.
  induction rows as [| row rows IH]; intros i0 records Hi H.
  - now injection H as <-.
  - cbn [index_loop] in H.
    destruct (index_row last_updated i0 row) as [r |] eqn:Hr; [| discriminate].
    destruct (index_loop last_updated (S i0) rows) as [rs |] eqn:Hrs;
      [| discriminate].
    cbn [bind] in H. injection H as <-. cbn [map].
    rewrite (index_row_constituent last_updated i0 row r Hi Hr).
    now rewrite (IH (S i0) rs).
Qed.

Lemma index_rows_stock_rows (rows : list value) :
  forall i0, i0 <> 0%nat -> index_rows_ok i0 rows = true ->
             forallb stock_row_ok rows = true.
Proof.
  induction rows as [| row rows IH]; intros i0 Hi H; [reflexivity |].
  cbn [index_rows_ok] in H. apply andb_prop in H as [Hrow Hrest].
  cbn [forallb]. rewrite (IH (S i0)) by (assumption || lia).
  rewrite andb_true_r.
  destruct row as [| | | | | | fields]; try discriminate Hrow.
  unfold index_row_ok in Hrow. apply andb_prop in Hrow as [Hkeys Hmeta].
  cbn [forallb INDEX_SOURCE_KEYS] in Hkeys.
  apply andb_prop in Hkeys as [Hsymbol _].
  unfold has_key in Hsymbol. unfold stock_row_ok.
  destruct (dict_lookup "symbol" fields); [| discriminate Hsymbol].
  destruct i0 as [| i0]; [contradiction |].
  destruct (dict_lookup "meta" fields) as [[| | | | | | m] |];
    try discriminate Hmeta; reflexivity.
Qed.

Lemma filter_all (keep : value -> bool) (rows : list value) :
  forallb keep rows = true -> filter keep rows = rows.
Proof.
  induction rows as [| row rows IH]; [reflexivity |].
  cbn [forallb filter]. intros H. apply andb_prop in H as [Hrow Hrest].
  now rewrite Hrow, IH.
Qed.

(** X9. Both methods read the same endpoint.  For an index name that is
    already upper-case and needs no escaping they request the same URL, and
    on a well-formed body whose first row is the index itself and whose
    other rows are its constituents, the records of [get_all_stocks] are the
    records of [index_data] after the first, reduced to [symbol] (as
    [stock_symbol]) and [company_name], in the same order. *)
Theorem get_all_stocks_agrees_with_index_data (self : NseAPI) (index : string)
  (response : Response) (j last_updated first : value) (rows : list value) :
  upper index = index ->
  quote index = index ->
  client self (index_url index) (HEADERS self) None = Ok response ->
  status_code response = 200 ->
  json response = Ok j ->
  py_getitem j "timestamp" = Ok last_updated ->
  py_getitem j "data" = Ok (VList (first :: rows)) ->
  index_rows_ok 0 (first :: rows) = true ->
  stock_row_ok first = true ->
  row_symbol first = VStr index ->
  forallb (not_named index) rows = true ->
  stocks_url index = index_url index
  /\ exists head records,
       index_data self index = Ok (VList (head :: records))
       /\ get_all_stocks self index = Ok (VList (map constituent_of records)).
Proof.
  intros Hupper Hquote Hget Hstatus Hjson Hts Hdata Hrows Hfirst Hsymbol Hothers.
  assert (Hurl : stocks_url index = index_url index).
  { unfold stocks_url, index_url. now rewrite Hupper, Hquote. }
  split; [exact Hurl |].
  cbn [index_rows_ok] in Hrows. apply andb_prop in Hrows as [Hrow0 Hrest].
  destruct (index_row_total last_updated 0 first Hrow0) as [head Hhead].
  destruct (index_loop_total last_updated rows 1 Hrest) as [records Hrecords].
  exists head, records. split.
  - unfold index_data. rewrite Hget. cbn [bind].
    rewrite Hstatus, Hjson. cbn [Z.eqb Pos.eqb negb bind].
    rewrite Hts. cbn [bind]. rewrite Hdata. cbn [bind py_iter index_loop].
    now rewrite Hhead, Hrecords.
  - rewrite (get_all_stocks_value self index response j (first :: rows)).
    + rewrite Hupper. cbn [filter]. unfold not_named at 1.
      rewrite Hsymbol. cbn [py_ne_str]. rewrite String.eqb_refl. cbn [negb].
      rewrite (filter_all (not_named index) rows Hothers).
      now rewrite (index_loop_constituents last_updated rows 1 records).
    + now rewrite Hurl.
    + assumption.
    + assumption.
    + cbn [forallb]. rewrite Hfirst.
      now rewrite (index_rows_stock_rows rows 1).
Qed.

Lemma get_all_stocks_agrees_with_index_data_example :
  exists head records,
    index_data (always (snapshot_response nifty50_rows)) "NIFTY50"
      = Ok (VList (head :: records))
    /\ get_all_stocks (always (snapshot_response nifty50_rows)) "NIFTY50"
       = Ok (VList (map constituent_of records))
    /\ map constituent_of records
       = [VDict [("stock_symbol", VStr "SBIN");
                 ("company_name", VStr "State Bank of India")];
          VDict [("stock_symbol", VStr "TCS"); ("company_name", VNone)]].
Proof.
  destruct (get_all_stocks_agrees_with_index_data
              (always (snapshot_response nifty50_rows)) "NIFTY50"
              (snapshot_response nifty50_rows) (snapshot_body nifty50_rows)
              (VStr "02-Jan-2023 15:30:00")
              (snapshot_row "NIFTY50" 18000 [])
              (tl nifty50_rows)
              eq_refl eq_refl eq_refl eq_refl eq_refl eq_refl eq_refl
              eq_refl eq_refl eq_refl eq_refl)
    as (_ & head & records & Hindex & Hstocks).
  exists head, records. split; [exact Hindex |]. split; [exact Hstocks |].
  vm_compute in Hindex. injection Hindex as <- <-. reflexivity.
Defined.

(** ** When [get_stock_data] answers [None], a record, or an exception *)

(** X10. A value [get_stock_data] returns is [None] or a record with exactly
    the nineteen fields, never a part of one.  It is [None] only when the
    status is not 200 or ['info'] is absent or false in Python's sense
    ([None], an empty dictionary, an empty text, zero), and it is [None]
    whenever a 200 body has such an ['info']. *)
Theorem get_stock_data_none_or_record (self : NseAPI) (symbol : string)
  (response : Response) :
  client self (quote_url symbol) (HEADERS self) None = Ok response ->
  (forall r,
      get_stock_data self symbol = Ok r ->
      (r = VNone
       /\ (status_code response <> 200
           \/ exists j info,
                json response = Ok j
                /\ py_get j "info" VNone = Ok info
                /\ py_truthy info = false))
      \/ (exists record,
             r = VDict record
             /\ status_code response = 200
             /\ dict_keys record = STOCK_FIELDS))
  /\ (forall j info,
         status_code response = 200 ->
         json response = Ok j ->
         py_get j "info" VNone = Ok info ->
         py_truthy info = false ->
         get_stock_data self symbol = Ok VNone).
Proof.
  intros Hget. split.
  - intros r H. unfold get_stock_data in H.
    rewrite Hget in H. cbn [bind] in H.
    destruct (Z.eqb_spec (status_code response) 200) as [Hstatus | Hstatus].
    + destruct (json response) as [j |] eqn:Hjson; [| discriminate H].
      cbn [bind] in H.
      destruct (py_get j "info" VNone) as [info |] eqn:Hinfo;
        [| discriminate H].
      cbn [bind] in H.
      destruct (py_truthy info) eqn:Htruthy.
      * right. cbn [bind] in H. binds_inv H. injection H as <-.
        eexists. repeat split. assumption.
      * left. injection H as <-. split; [reflexivity |].
        right. now exists j, info.
    + left. cbn [bind] in H. injection H as <-. split; [reflexivity |].
      now left.
  - intros j info Hstatus Hjson Hinfo Htruthy. unfold get_stock_data.
    rewrite Hget. cbn [bind]. rewrite Hstatus, Hjson.
    cbn [Z.eqb Pos.eqb bind]. rewrite Hinfo. cbn [bind].
    now rewrite Htruthy.
Qed.

Lemma get_stock_data_none_or_record_example :
  get_stock_data (always empty_info_response) "SBIN" = Ok VNone.
Proof.
  exact (proj2 (get_stock_data_none_or_record (always empty_info_response)
                  "SBIN" empty_info_response eq_refl)
           _ (VDict []) eq_refl eq_refl eq_refl eq_refl).
Defined.

(** X11. ['companyName'] is read without a default, unlike ['industry']:
    on a 200 body whose ['info'] is a non-empty dictionary with a ['symbol']
    and no ['companyName'], [get_stock_data] raises
    [KeyError('companyName')]. *)
Theorem get_stock_data_without_company_name (self : NseAPI) (symbol : string)
  (response : Response) (j : value) (info : list (string * value))
  (sym : value) :
  client self (quote_url symbol) (HEADERS self) None = Ok response ->
  status_code response = 200 ->
  json response = Ok j ->
  py_getitem j "info" = Ok (VDict info) ->
  dict_lookup "symbol" info = Some sym ->
  dict_lookup "companyName" info = None ->
  get_stock_data self symbol = Raise (KeyError "companyName").
Proof.
  intros Hget Hstatus Hjson Hinfo Hsym Hcompany. unfold get_stock_data.
  rewrite Hget. cbn [bind]. rewrite Hstatus, Hjson. cbn [Z.eqb Pos.eqb bind].
  rewrite (py_get_of_getitem j "info" _ VNone Hinfo). cbn [bind py_truthy].
  destruct info as [| item info]; [discriminate Hsym |].
  cbn [bind py_path]. rewrite Hinfo. cbn [bind py_getitem].
  rewrite Hsym, Hcompany. reflexivity.
Qed.

Lemma get_stock_data_without_company_name_example :
  get_stock_data (always no_company_response) "SBIN"
    = Raise (KeyError "companyName").
Proof.
  exact (get_stock_data_without_company_name (always no_company_response)
           "SBIN" no_company_response _
           [("symbol", VStr "SBIN"); ("industry", VStr "Banks")]
           (VStr "SBIN") eq_refl eq_refl eq_refl eq_refl eq_refl eq_refl).
Defined.

Lemma not_roundable (v : value) :
  roundable v = false -> py_round v 2 = Raise TypeError.
Proof.
  unfold roundable. destruct v; cbn [py_round]; try discriminate; reflexivity.
Qed.

(** X12. The change is rounded as it comes: when every renamed field of a
    200 body is present and the value under [priceInfo.change] is not a
    number (a text, [None], a list or a dictionary), [round] raises
    [TypeError] and [get_stock_data] returns no record. *)
Theorem get_stock_data_change_not_a_number (self : NseAPI) (symbol : string)
  (response : Response) (j change : value) :
  client self (quote_url symbol) (HEADERS self) None = Ok response ->
  status_code response = 200 ->
  json response = Ok j ->
  (match py_getitem j "info" with
   | Ok (VDict (_ :: _)) => true
   | _ => false
   end) = true ->
  forallb (fun op => resolves j (snd op)) STOCK_RENAMES = true ->
  py_path j ["priceInfo"; "change"] = Ok change ->
  roundable change = false ->
  get_stock_data self symbol = Raise TypeError.
Proof.
  intros Hget Hstatus Hjson Hinfo Hrenames Hchange Hround.
  cbn [forallb STOCK_RENAMES snd] in Hrenames. unfold resolves in Hrenames.
  repeat match goal with
         | H : andb _ _ = true |- _ => apply andb_prop in H as [? ?]
         end.
  unfold get_stock_data. rewrite Hget. cbn [bind].
  rewrite Hstatus, Hjson. cbn [Z.eqb Pos.eqb bind].
  destruct (py_getitem j "info") as [[| | | | | | [| item info]] |] eqn:Einfo;
    try discriminate.
  rewrite (py_get_of_getitem j "info" _ VNone Einfo).
  cbn [bind py_truthy].
  rewrite Hchange.
  repeat match goal with
         | H : match py_path j ?p with _ => _ end = true |- _ =>
             destruct (py_path j p); [clear H | discriminate H]
         end.
  cbn [bind py_get].
  destruct (dict_lookup "industry" (item :: info)); cbn [bind];
    now rewrite (not_roundable change Hround).
Qed.

Lemma get_stock_data_change_not_a_number_example :
  get_stock_data (always text_change_response) "SBIN" = Raise TypeError.
Proof.
  exact (get_stock_data_change_not_a_number (always text_change_response)
           "SBIN" text_change_response text_change_body (VStr "12.35")
           eq_refl eq_refl eq_refl eq_refl eq_refl eq_refl eq_refl).
Defined.

(* ================================================================== *)
(** * Further properties of the historical table *)

Lemma mapM_In {A B : Type} (f : A -> result B) (l : list A) :
  forall r, mapM f l = Ok r ->
            (forall b, In b r -> exists a, In a l /\ f a = Ok b)
            /\ (forall a, In a l -> exists b, f a = Ok b).
Proof.
  induction l as [| a l IH]; intros r H.
  - injection H as <-. split; contradiction.
  - cbn [mapM] in H.
    destruct (f a) as [b |] eqn:Hb; [| discriminate].
    destruct (mapM f l) as [bs |]; [| discriminate].
    cbn [bind] in H. injection H as <-.
    destruct (IH bs eq_refl) as [Hout Hin]. split.
    + intros b' [<- | Hb']; [exists a; split; [now left | assumption] |].
      destruct (Hout b' Hb') as [a' [Ha' Hfa']].
      exists a'. split; [now right | assumption].
    + intros a' [<- | Ha']; [now exists b | now apply Hin].
Qed.

Section HistoricalTable.
Context {P : Pandas}.

(** What the [try] block returns, with the lengths it checked. *)
Lemma parse_table_inv_lengths (response_text symbol : string) (out : DataFrame) :
  parse_table response_text symbol = Ok out ->
  exists df dates vwap stamps,
    read_csv response_text "," = Ok df
    /\ List.length (columns df) = 14%nat
    /\ column_at df 0 = Some dates
    /\ column_at df 8 = Some vwap
    /\ mapM to_datetime_cell (cells dates) = Ok stamps
    /\ column_length dates = nrows df
    /\ column_length vwap = nrows df
    /\ out = historical_frame symbol df stamps.
Proof.
  unfold parse_table. intros H.
  destruct (read_csv response_text ",") as [df |]; [| discriminate H].
  cbn [bind] in H. unfold set_columns in H.
  destruct (Nat.eqb (List.length HIST_COLUMNS) (List.length (columns df)))
    eqn:Hlen; [| discriminate H].
  apply Nat.eqb_eq in Hlen. symmetry in Hlen.
  change (List.length HIST_COLUMNS) with 14%nat in Hlen.
  destruct df as [n cols]. cbn [columns nrows] in *.
  destruct (fourteen_columns cols Hlen)
    as (l0 & c0 & l1 & c1 & l2 & c2 & l3 & c3 & l4 & c4 & l5 & c5 & l6 & c6
        & l7 & c7 & l8 & c8 & l9 & c9 & l10 & c10 & l11 & c11 & l12 & c12
        & l13 & c13 & ->).
  cbn [bind] in H.
  set (sym := Object (repeat (CStr symbol) n)) in *.
  set (rest := [("SERIES", c1); ("OPEN", c2); ("HIGH", c3); ("LOW", c4);
                ("PREV_CLOSE", c5); ("LTP", c6); ("CLOSE", c7)]) in *.
  set (tail := [("52W_H", c9); ("52W_L", c10); ("VOLUME", c11);
                ("VALUE", c12); ("NO_OF_TRADES", c13)]) in *.
  set (df2 := {| nrows := n;
                 columns := ("SYMBOL", sym) :: ("DATE", c0)
                              :: rest ++ ("VWAP", c8) :: tail |}).
  match type of H with
  | bind ?c _ = _ => replace c with (Ok df2) in H by reflexivity
  end.
  cbn [bind] in H.
  replace (getitem df2 "DATE") with (Ok c0) in H by reflexivity.
  cbn [bind] in H. unfold to_datetime in H.
  destruct (mapM to_datetime_cell (cells c0)) as [stamps |] eqn:Hstamps;
    [| discriminate H].
  cbn [bind dt_date] in H. unfold setitem at 1 in H.
  destruct (Nat.eqb _ (nrows df2)) eqn:Hdates; [| discriminate H].
  apply Nat.eqb_eq in Hdates.
  cbn [bind] in H.
  match type of H with
  | bind ?c _ = _ => replace c with (Ok c8) in H by reflexivity
  end.
  cbn [bind] in H. unfold setitem in H.
  destruct (Nat.eqb _ _) eqn:Hvwap; [| discriminate H].
  cbn [bind] in H. injection H as <-.
  apply Nat.eqb_eq in Hvwap.
  cbn [nrows df2] in Hdates, Hvwap.
  rewrite date_objects_length, (mapM_length _ _ _ Hstamps) in Hdates.
  rewrite to_numeric_length in Hvwap.
  exists {| nrows := n;
            columns := [(l0, c0); (l1, c1); (l2, c2); (l3, c3); (l4, c4);
                        (l5, c5); (l6, c6); (l7, c7); (l8, c8); (l9, c9);
                        (l10, c10); (l11, c11); (l12, c12); (l13, c13)] |},
    c0, c8, stamps.
  repeat split; reflexivity || assumption.
Qed.

(** The [try] block on a frame whose first and ninth column are as long as
    the index. *)
Lemma parse_table_value_lengths (response_text symbol : string)
  (df : DataFrame) (dates vwap : column) (stamps : list (option date)) :
  read_csv response_text "," = Ok df ->
  List.length (columns df) = 14%nat ->
  column_at df 0 = Some dates ->
  column_at df 8 = Some vwap ->
  mapM to_datetime_cell (cells dates) = Ok stamps ->
  column_length dates = nrows df ->
  column_length vwap = nrows df ->
  parse_table response_text symbol = Ok (historical_frame symbol df stamps).
Proof.
  intros Hread Hlen Hdates Hvwap Hstamps Hdates_len Hvwap_len.
  destruct df as [n cols]. cbn [columns nrows] in *.
  destruct (fourteen_columns cols Hlen)
    as (l0 & c0 & l1 & c1 & l2 & c2 & l3 & c3 & l4 & c4 & l5 & c5 & l6 & c6
        & l7 & c7 & l8 & c8 & l9 & c9 & l10 & c10 & l11 & c11 & l12 & c12
        & l13 & c13 & ->).
  unfold column_at in Hdates, Hvwap. cbn in Hdates, Hvwap.
  injection Hdates as ->. injection Hvwap as ->.
  set (sym := Object (repeat (CStr symbol) n)).
  set (rest := [("SERIES", c1); ("OPEN", c2); ("HIGH", c3); ("LOW", c4);
                ("PREV_CLOSE", c5); ("LTP", c6); ("CLOSE", c7)]).
  set (tail := [("52W_H", c9); ("52W_L", c10); ("VOLUME", c11);
                ("VALUE", c12); ("NO_OF_TRADES", c13)]).
  set (df1 := {| nrows := n;
                 columns := ("DATE", dates) :: rest ++ ("VWAP", vwap) :: tail |}).
  set (df2 := {| nrows := n;
                 columns := ("SYMBOL", sym) :: ("DATE", dates)
                              :: rest ++ ("VWAP", vwap) :: tail |}).
  unfold parse_table. rewrite Hread. cbn [bind].
  replace (set_columns _ HIST_COLUMNS) with (Ok df1) by reflexivity.
  cbn [bind].
  replace (insert df1 0 "SYMBOL" (CStr symbol)) with (Ok df2) by reflexivity.
  cbn [bind].
  replace (getitem df2 "DATE") with (Ok dates) by reflexivity.
  cbn [bind]. unfold to_datetime. rewrite Hstamps. cbn [bind dt_date].
  assert (Hdate_len : column_length (date_objects stamps) = n).
  { rewrite date_objects_length, (mapM_length _ _ _ Hstamps). assumption. }
  unfold setitem at 1. rewrite Hdate_len. cbn [nrows df2].
  rewrite Nat.eqb_refl. cbn [bind].
  replace (getitem _ "VWAP") with (Ok vwap) by reflexivity.
  cbn [bind]. unfold setitem. rewrite to_numeric_length, Hvwap_len.
  cbn [nrows]. rewrite Nat.eqb_refl. reflexivity.
Qed.

(** The handler of the [try] block never returns. *)
Lemma handler_raises (response : Response) :
  exists e,
    (j <- json response ;;
     showMessage <- py_get j "showMessage" VNone ;;
     Raise (Exception ("Error: " ++ py_str showMessage))) = Raise e
    :> result (option DataFrame).
Proof.
  destruct (json response) as [j | e]; [| now exists e].
  cbn [bind].
  destruct (py_get j "showMessage" VNone) as [m | e]; [| now exists e].
  cbn [bind]. eauto.
Qed.

Lemma dates_or_nat (stamps : list (option date)) :
  forallb date_or_nat (map date_cell stamps) = true.
Proof.
  apply forallb_forall. intros c Hc.
  apply in_map_iff in Hc as [stamp [<- _]]. now destruct stamp.
Qed.

Lemma all_nat_cells (stamps : list (option date)) :
  forallb is_nat_cell (map date_cell stamps) = forallb is_nat stamps.
Proof.
  induction stamps as [| o stamps IH]; [reflexivity |].
  cbn [map forallb]. rewrite IH. now destruct o.
Qed.

(** X13. Every table [get_historical_data] returns comes from a 200
    response and has the fifteen labels SYMBOL, DATE, SERIES, ...,
    NO_OF_TRADES in this order; its SYMBOL column repeats the symbol as
    passed; its DATE column holds, for every row, a date or NaT, never a
    text, and is a column of objects, unless the table has a row and every
    date is NaT, when it is a datetime column; and its VWAP column has a
    numeric dtype. *)
Theorem historical_table_shape (self : NseAPI)
  (symbol start_date end_date : string) (response : Response)
  (out : DataFrame) :
  client self (historical_url symbol start_date end_date) (HEADERS self)
         (Some 1000) = Ok response ->
  get_historical_data self symbol start_date end_date = ([], Ok (Some out)) ->
  status_code response = 200
  /\ labels out = "SYMBOL" :: HIST_COLUMNS
  /\ hd_error (columns out)
       = Some ("SYMBOL", Object (repeat (CStr symbol) (nrows out)))
  /\ (exists dates,
         getitem out "DATE" = Ok dates
         /\ column_length dates = nrows out
         /\ forallb date_or_nat (cells dates) = true
         /\ (if andb (forallb is_nat_cell (cells dates))
                     (negb (Nat.eqb (nrows out) 0))
             then exists stamps, dates = Datetime64 stamps
             else exists objects, dates = Object objects))
  /\ (exists vwap,
         getitem out "VWAP" = Ok vwap
         /\ column_length vwap = nrows out
         /\ numeric_dtype vwap = true).
Proof.
  intros Hget Hrun.
  destruct (get_historical_data_inv self symbol start_date end_date
              response out Hget Hrun) as [Hstatus Hparse].
  destruct (parse_table_inv_lengths (text response) symbol out Hparse)
    as (df & dates & vwap & stamps & Hread & Hlen & Hdates & Hvwap & Hstamps
        & Hdates_len & Hvwap_len & ->).
  destruct (historical_frame_columns symbol df stamps Hlen)
    as (Hlabels & Hfirst & Hdate & Hnumeric & _).
  split; [assumption |]. split; [exact Hlabels |]. split; [exact Hfirst |].
  split.
  - exists (date_objects stamps). split; [exact Hdate |].
    assert (Hrows : List.length stamps = nrows df)
      by (now rewrite (mapM_length _ _ _ Hstamps)).
    split; [now rewrite date_objects_length |].
    rewrite date_objects_cells. split; [apply dates_or_nat |].
    rewrite all_nat_cells. cbn [nrows historical_frame]. rewrite <- Hrows.
    unfold date_objects. destruct stamps as [| o stamps].
    + cbn [forallb List.length Nat.eqb negb andb]. now exists [].
    + cbn [List.length Nat.eqb negb]. rewrite andb_true_r.
      destruct (forallb is_nat (o :: stamps)); eauto.
  - exists (to_numeric vwap). split; [now apply Hnumeric |]. split.
    + rewrite to_numeric_length. exact Hvwap_len.
    + apply to_numeric_dtype.
Qed.

Lemma shaped_column_length (stamps : list (option date)) (label : string)
  (c : column) (n : nat) :
  List.length stamps = n ->
  column_length c = n ->
  column_length (shaped_column stamps label c) = n.
Proof.
  intros Hstamps Hc. unfold shaped_column.
  destruct (String.eqb label "DATE").
  - now rewrite date_objects_length.
  - destruct (String.eqb label "VWAP"); [| assumption].
    now rewrite to_numeric_length.
Qed.

(** X14. The table keeps the rows of the reader's frame: it has as many
    rows, and when every column of the reader's frame is as long as its
    index, so is every column of the table, the new SYMBOL column
    included. *)
Theorem historical_table_is_rectangular (self : NseAPI)
  (symbol start_date end_date : string) (response : Response)
  (out : DataFrame) :
  client self (historical_url symbol start_date end_date) (HEADERS self)
         (Some 1000) = Ok response ->
  get_historical_data self symbol start_date end_date = ([], Ok (Some out)) ->
  exists df,
    read_csv (text response) "," = Ok df
    /\ nrows out = nrows df
    /\ List.length (columns out) = 15%nat
    /\ (frame_ok df = true -> frame_ok out = true).
Proof.
  intros Hget Hrun.
  destruct (get_historical_data_inv self symbol start_date end_date
              response out Hget Hrun) as [_ Hparse].
  destruct (parse_table_inv_lengths (text response) symbol out Hparse)
    as (df & dates & vwap & stamps & Hread & Hlen & Hdates & _ & Hstamps
        & Hdates_len & _ & ->).
  exists df. split; [assumption |]. split; [reflexivity |]. split.
  - cbn [historical_frame columns List.length].
    rewrite length_map, length_combine, length_map, Hlen. reflexivity.
  - intros Hok. unfold frame_ok in *.
    cbn [historical_frame columns nrows forallb snd].
    unfold column_length at 1. cbn [cells]. rewrite repeat_length.
    rewrite Nat.eqb_refl. cbn [andb].
    apply forallb_forall. intros [label c] Hin.
    apply in_map_iff in Hin as [[label' c'] [[= <- <-] Hin]].
    cbn [fst snd]. apply Nat.eqb_eq. apply shaped_column_length.
    + rewrite (mapM_length _ _ _ Hstamps). exact Hdates_len.
    + apply in_combine_r in Hin. apply in_map_iff in Hin as [lc [<- Hlc]].
      rewrite forallb_forall in Hok. apply Nat.eqb_eq. now apply Hok.
Qed.

(** X15. The table is all or nothing.  On a 200 response,
    [get_historical_data] raises, returns no table and prints nothing when
    the reader refuses the body, when the body has a number of columns other
    than fourteen, or when a single cell of the first column is no
    day-month-year text. *)
Theorem historical_table_all_or_nothing (self : NseAPI)
  (symbol start_date end_date : string) (response : Response) :
  client self (historical_url symbol start_date end_date) (HEADERS self)
         (Some 1000) = Ok response ->
  status_code response = 200 ->
  (exists e, read_csv (text response) "," = Raise e)
  \/ (exists df,
         read_csv (text response) "," = Ok df
         /\ (List.length (columns df) <> 14%nat
             \/ exists dates c,
                  column_at df 0 = Some dates
                  /\ In c (cells dates)
                  /\ date_cell_ok c = false)) ->
  exists e,
    get_historical_data self symbol start_date end_date = ([], Raise e).
Proof.
  intros Hget Hstatus Hcause.
  assert (Hparse : exists cause,
             parse_table (text response) symbol = Raise cause).
  { destruct (parse_table (text response) symbol) as [out | cause] eqn:Hparse;
      [exfalso | now exists cause].
    destruct (parse_table_inv_lengths (text response) symbol out Hparse)
      as (df & dates & vwap & stamps & Hread & Hlen & Hdates & _ & Hstamps & _).
    destruct Hcause as [[e He] | (df' & Hread' & [Hlen' | Hdate])].
    - congruence.
    - rewrite Hread in Hread'. injection Hread' as <-. contradiction.
    - destruct Hdate as (dates' & c & Hdates' & Hin & Hbad).
      rewrite Hread in Hread'. injection Hread' as <-.
      rewrite Hdates in Hdates'. injection Hdates' as <-.
      destruct (mapM_In _ _ _ Hstamps) as [_ Hall].
      destruct (Hall c Hin) as [stamp Hstamp].
      unfold date_cell_ok in Hbad. now rewrite Hstamp in Hbad. }
  destruct Hparse as [cause Hparse].
  destruct (handler_raises response) as [e He].
  exists e. unfold get_historical_data.
  rewrite Hget, Hstatus, Hparse. cbn [Z.eqb Pos.eqb]. now rewrite He.
Qed.

(** X16. The symbol reaches the URL upper-cased and the table as it was
    passed: two symbols that differ only in case make the same request, and
    when one gets a table the other gets the same table but for the SYMBOL
    column, which repeats its own spelling. *)
Theorem historical_symbol_case (self : NseAPI)
  (a b start_date end_date : string) (response : Response)
  (out_a : DataFrame) :
  upper a = upper b ->
  client self (historical_url a start_date end_date) (HEADERS self)
         (Some 1000) = Ok response ->
  get_historical_data self a start_date end_date = ([], Ok (Some out_a)) ->
  historical_url a start_date end_date = historical_url b start_date end_date
  /\ exists out_b,
       get_historical_data self b start_date end_date
         = ([], Ok (Some out_b))
       /\ nrows out_b = nrows out_a
       /\ tl (columns out_b) = tl (columns out_a)
       /\ hd_error (columns out_b)
            = Some ("SYMBOL", Object (repeat (CStr b) (nrows out_b))).
Proof.
  intros Hupper Hget Hrun.
  assert (Hurl : historical_url a start_date end_date
                 = historical_url b start_date end_date).
  { unfold historical_url. now rewrite Hupper. }
  split; [exact Hurl |].
  destruct (get_historical_data_inv self a start_date end_date
              response out_a Hget Hrun) as [Hstatus Hparse].
  destruct (parse_table_inv_lengths (text response) a out_a Hparse)
    as (df & dates & vwap & stamps & Hread & Hlen & Hdates & Hvwap & Hstamps
        & Hdates_len & Hvwap_len & ->).
  exists (historical_frame b df stamps). split.
  - apply (get_historical_data_ok self b start_date end_date response).
    + now rewrite <- Hurl.
    + assumption.
    + now apply (parse_table_value_lengths (text response) b df dates vwap
                   stamps).
  - repeat split.
Qed.

(** X17. A body with its fourteen columns and no row is not an error: on a
    200 response whose frame has no row, [get_historical_data] returns a
    table of fifteen columns and no row, whatever the first column is
    labelled. *)
Theorem historical_table_without_rows (self : NseAPI)
  (symbol start_date end_date : string) (response : Response)
  (df : DataFrame) :
  client self (historical_url symbol start_date end_date) (HEADERS self)
         (Some 1000) = Ok response ->
  status_code response = 200 ->
  read_csv (text response) "," = Ok df ->
  List.length (columns df) = 14%nat ->
  frame_ok df = true ->
  nrows df = 0%nat ->
  exists out,
    get_historical_data self symbol start_date end_date = ([], Ok (Some out))
    /\ nrows out = 0%nat
    /\ labels out = "SYMBOL" :: HIST_COLUMNS
    /\ frame_ok out = true.
Proof.
  intros Hget Hstatus Hread Hlen Hok Hrows.
  assert (Hdates : exists dates, column_at df 0 = Some dates).
  { unfold column_at. destruct (nth_error (map snd (columns df)) 0) eqn:E;
      [eauto |].
    apply nth_error_None in E. rewrite length_map, Hlen in E. lia. }
  destruct Hdates as [dates Hdates].
  assert (Hempty : cells dates = []).
  { assert (Hin : In dates (map snd (columns df)))
      by (unfold column_at in Hdates; eapply nth_error_In; eassumption).
    apply in_map_iff in Hin as [lc [<- Hlc]].
    unfold frame_ok in Hok. rewrite forallb_forall in Hok.
    specialize (Hok lc Hlc). apply Nat.eqb_eq in Hok.
    rewrite Hrows in Hok. unfold column_length in Hok.
    now apply length_zero_iff_nil. }
  assert (Hparse : parse_table (text response) symbol
                   = Ok (historical_frame symbol df [])).
  { apply (parse_table_value (text response) symbol df dates []);
      try assumption.
    now rewrite Hempty. }
  exists (historical_frame symbol df []). split.
  - now apply (get_historical_data_ok self symbol start_date end_date response).
  - split; [exact Hrows |].
    destruct (historical_frame_columns symbol df [] Hlen) as (Hlabels & _).
    split; [exact Hlabels |].
    unfold frame_ok in *. cbn [historical_frame columns nrows forallb snd].
    unfold column_length at 1. cbn [cells]. rewrite repeat_length.
    rewrite Nat.eqb_refl. cbn [andb].
    apply forallb_forall. intros [label c] Hin.
    apply in_map_iff in Hin as [[label' c'] [[= <- <-] Hin]].
    cbn [fst snd]. apply Nat.eqb_eq. apply shaped_column_length.
    + now rewrite Hrows.
    + apply in_combine_r in Hin. apply in_map_iff in Hin as [lc [<- Hlc]].
      rewrite forallb_forall in Hok. apply Nat.eqb_eq. now apply Hok.
Qed.

End HistoricalTable.

(** ** The historical table on the example bodies *)

Lemma dashed_table_returned (symbol : string) :
  get_historical_data (always dashed_response) symbol "2023-01-01" "2023-01-31"
    = ([], Ok (Some (dashed_table symbol))).
Proof.
  apply (get_historical_data_ok (P := reader) (always dashed_response) symbol
           "2023-01-01" "2023-01-31" dashed_response); reflexivity.
Qed.

Lemma historical_table_shape_example :
  labels (dashed_table "sbin") = "SYMBOL" :: HIST_COLUMNS
  /\ exists dates,
       getitem (dashed_table "sbin") "DATE" = Ok (Object dates)
       /\ forallb date_or_nat dates = true.
Proof.
  destruct (historical_table_shape (P := reader) (always dashed_response)
              "sbin" "2023-01-01" "2023-01-31" dashed_response
              (dashed_table "sbin") eq_refl (dashed_table_returned "sbin"))
    as (_ & Hlabels & _ & (dates & Hdate & _ & Hdates & Hdtype) & _).
  split; [exact Hlabels |].
  assert (Hsome : forallb is_nat_cell (cells dates) = false)
    by (vm_compute in Hdate; injection Hdate as <-; reflexivity).
  rewrite Hsome in Hdtype. destruct Hdtype as [objects ->].
  exists objects. split; assumption.
Defined.

Lemma historical_table_is_rectangular_example :
  exists df,
    Reader.read dashed_csv "," = Ok df
    /\ nrows (dashed_table "sbin") = nrows df
    /\ List.length (columns (dashed_table "sbin")) = 15%nat
    /\ frame_ok (dashed_table "sbin") = true.
Proof.
  destruct (historical_table_is_rectangular (P := reader)
              (always dashed_response) "sbin" "2023-01-01" "2023-01-31"
              dashed_response (dashed_table "sbin") eq_refl
              (dashed_table_returned "sbin"))
    as (df & Hread & Hrows & Hcolumns & Hok).
  exists df. split; [exact Hread |]. split; [exact Hrows |].
  split; [exact Hcolumns |]. apply Hok.
  cbn [read_csv reader text dashed_response] in Hread.
  vm_compute in Hread. injection Hread as <-. reflexivity.
Defined.

Lemma historical_table_all_or_nothing_example :
  exists e,
    get_historical_data (always bad_date_response)
      "SBIN" "2023-01-01" "2023-01-31" = ([], Raise e).
Proof.
  apply (historical_table_all_or_nothing (P := reader)
           (always bad_date_response) "SBIN" "2023-01-01" "2023-01-31"
           bad_date_response eq_refl eq_refl).
  right. exists bad_date_frame_read. split; [vm_compute; reflexivity |].
  right. exists (Object [CStr "01-Jan-2023"; CStr "02-01-2023"]),
    (CStr "02-01-2023").
  split; [reflexivity |]. split; [cbn; tauto | reflexivity].
Defined.

(** The exception of the example carries the body's diagnostic. *)
Lemma bad_date_raises_the_diagnostic :
  get_historical_data (always bad_date_response)
    "SBIN" "2023-01-01" "2023-01-31" = ([], Raise (Exception "Error: ok")).
Proof. vm_compute. reflexivity. Qed.

Lemma historical_symbol_case_example :
  exists out,
    get_historical_data (always dashed_response)
      "SBIN" "2023-01-01" "2023-01-31" = ([], Ok (Some out))
    /\ tl (columns out) = tl (columns (dashed_table "sbin"))
    /\ hd_error (columns out)
       = Some ("SYMBOL", Object [CStr "SBIN"; CStr "SBIN"]).
Proof.
  destruct (historical_symbol_case (P := reader) (always dashed_response)
              "sbin" "SBIN" "2023-01-01" "2023-01-31" dashed_response
              (dashed_table "sbin") eq_refl eq_refl
              (dashed_table_returned "sbin"))
    as (_ & out & Hrun & Hrows & Htail & Hhead).
  exists out. split; [exact Hrun |]. split; [exact Htail |].
  rewrite Hhead, Hrows. reflexivity.
Defined.

Lemma historical_table_without_rows_example :
  exists out,
    get_historical_data (always header_only_response)
      "SBIN" "2023-01-01" "2023-01-31" = ([], Ok (Some out))
    /\ nrows out = 0%nat
    /\ labels out = "SYMBOL" :: HIST_COLUMNS
    /\ frame_ok out = true.
Proof.
  assert (Hread : Reader.read header_only_csv "," = Ok header_only_frame_read)
    by (vm_compute; reflexivity).
  exact (historical_table_without_rows (P := reader)
           (always header_only_response) "SBIN" "2023-01-01" "2023-01-31"
           header_only_response header_only_frame_read
           eq_refl eq_refl Hread eq_refl eq_refl eq_refl).
Defined.

(* ================================================================== *)
(** * The constructor, and the operations the methods rely on *)

Lemma init_inv (session : Session) (self : NseAPI) :
  init session = Ok self ->
  self = {| HEADERS := FIXED_HEADERS; client := session |}.
Proof.
  unfold init. intros H.
  destruct (session _ _ None); [| discriminate H].
  cbn [bind] in H. now injection H as <-.
Qed.

(** X18. A client made by [__init__] sends the two fixed headers with every
    request and nothing else: if a second session answers as the first one
    does whenever the headers are these two, it also yields a client, and
    all five methods return for it what they return for the first. *)
Theorem constructed_client_sends_fixed_headers (P : Pandas)
  (session session' : Session) (self : NseAPI) :
  init session = Ok self ->
  (forall url timeout,
      session' url FIXED_HEADERS timeout = session url FIXED_HEADERS timeout) ->
  exists self',
    init session' = Ok self'
    /\ get_indices self' = get_indices self
    /\ (forall index, get_all_stocks self' index = get_all_stocks self index)
    /\ (forall stock_index,
           index_data self' stock_index = index_data self stock_index)
    /\ (forall symbol, get_stock_data self' symbol = get_stock_data self symbol)
    /\ (forall symbol start_date end_date,
           get_historical_data self' symbol start_date end_date
           = get_historical_data self symbol start_date end_date).
Proof.
  intros Hinit Hsame.
  pose proof (init_inv session self Hinit) as ->.
  exists {| HEADERS := FIXED_HEADERS; client := session' |}. split.
  - unfold init in *. fold FIXED_HEADERS in *. rewrite Hsame.
    destruct (session _ FIXED_HEADERS None); [reflexivity | discriminate Hinit].
  - repeat split; intros.
    + unfold get_indices. cbn [client HEADERS]. now rewrite Hsame.
    + unfold get_all_stocks. cbn [client HEADERS]. now rewrite Hsame.
    + unfold index_data. cbn [client HEADERS]. now rewrite Hsame.
    + unfold get_stock_data. cbn [client HEADERS]. now rewrite Hsame.
    + unfold get_historical_data. cbn [client HEADERS]. now rewrite Hsame.
Qed.

Lemma constructed_client_sends_fixed_headers_example :
  exists self',
    init strict_master_session = Ok self'
    /\ get_indices self' = Ok (VList [VStr "X"; VStr "Y"; VStr "Z"]).
Proof.
  destruct (constructed_client_sends_fixed_headers reader master_session
              strict_master_session
              {| HEADERS := FIXED_HEADERS; client := master_session |}
              eq_refl)
    as (self' & Hinit & Hindices & _).
  - intros url timeout. reflexivity.
  - exists self'. split; [exact Hinit |]. rewrite Hindices. reflexivity.
Defined.

(** ** Assignment to a dictionary *)

Lemma dict_set_keys (k : string) (v : value) (d : list (string * value)) :
  dict_keys (dict_set k v d)
  = if existsb (String.eqb k) (dict_keys d) then dict_keys d
    else (dict_keys d ++ [k])%list.
Proof.
  induction d as [| [k' v'] d IH]; [reflexivity |].
  cbn [dict_set dict_keys map fst existsb].
  destruct (String.eqb k k'); [reflexivity |].
  cbn [orb dict_keys map fst app]. fold (dict_keys d).
  fold (dict_keys (dict_set k v d)). rewrite IH.
  now destruct (existsb (String.eqb k) (dict_keys d)).
Qed.

Lemma unique_keys_snoc (k : string) (keys : list string) :
  unique_keys keys = true ->
  existsb (String.eqb k) keys = false ->
  unique_keys (keys ++ [k])%list = true.
Proof.
  induction keys as [| k' keys IH]; [reflexivity |].
  cbn [unique_keys existsb app]. intros Hu Hk.
  apply andb_prop in Hu as [Hfresh Hu].
  apply orb_false_elim in Hk as [Hkk' Hk].
  rewrite (IH Hu Hk), andb_true_r.
  rewrite existsb_app. cbn [existsb].
  apply negb_true_iff in Hfresh. rewrite Hfresh, orb_false_r. cbn [orb].
  now rewrite String.eqb_sym, Hkk'.
Qed.

(** X19. [d[k] = v], as [index_data] uses it for [company_name]: afterwards
    [k] has the value [v] and every other key its old value; a key that was
    absent goes to the end, after the items that were there; and the keys
    stay without repetition. *)
Theorem dict_set_then_lookup (k : string) (v : value)
  (d : list (string * value)) :
  dict_lookup k (dict_set k v d) = Some v
  /\ (forall k', k' <> k -> dict_lookup k' (dict_set k v d) = dict_lookup k' d)
  /\ (dict_lookup k d = None -> dict_set k v d = (d ++ [(k, v)])%list)
  /\ (unique_keys (dict_keys d) = true ->
      unique_keys (dict_keys (dict_set k v d)) = true).
Proof.
  split; [| split; [| split]].
  - induction d as [| [k' v'] d IH]; cbn [dict_set dict_lookup].
    + now rewrite String.eqb_refl.
    + destruct (String.eqb k k') eqn:E; cbn [dict_lookup]; now rewrite E.
  - intros k0 Hne. induction d as [| [k' v'] d IH]; cbn [dict_set dict_lookup].
    + destruct (String.eqb_spec k0 k); [contradiction | reflexivity].
    + destruct (String.eqb_spec k k') as [<- | Hkk']; cbn [dict_lookup].
      * destruct (String.eqb_spec k0 k); [contradiction | reflexivity].
      * now rewrite IH.
  - induction d as [| [k' v'] d IH]; cbn [dict_set dict_lookup app];
      [reflexivity |].
    destruct (String.eqb k k'); [discriminate |].
    intros H. now rewrite IH.
  - intros Hu. rewrite dict_set_keys.
    destruct (existsb (String.eqb k) (dict_keys d)) eqn:E; [assumption |].
    now apply unique_keys_snoc.
Qed.

Lemma dict_set_then_lookup_example :
  dict_set "company_name" (VStr "State Bank of India")
    [("symbol", VStr "SBIN"); ("open", VInt 600)]
  = [("symbol", VStr "SBIN"); ("open", VInt 600);
     ("company_name", VStr "State Bank of India")].
Proof.
  exact (proj1 (proj2 (proj2 (dict_set_then_lookup "company_name"
                                (VStr "State Bank of India")
                                [("symbol", VStr "SBIN"); ("open", VInt 600)])))
           eq_refl).
Defined.

(** ** The dates [to_datetime] reads *)

(** A day that is not in the calendar is refused; a day of the calendar is
    read whatever its year. *)
Lemma february_29_of_2023_is_refused :
  to_datetime_cell (CStr "29-Feb-2023") = Raise ValueError
  /\ to_datetime_cell (CStr "01-Jan-1600")
     = Ok (Some {| year := 1600; month := 1; day := 1 |}).
Proof. split; reflexivity. Qed.

(* ================================================================== *)
(** * What the handler of [get_historical_data] raises *)

Section Handler.
Context {P : Pandas}.

(** X21. When the [try] block fails on a 200 response, the exception the
    caller sees is made from the decoded body, not from the failure: the
    decoder's own exception when the body is not JSON, [AttributeError]
    when the decoded body is not a dictionary, and
    [Exception("Error: None")] when it is a dictionary without
    ['showMessage']. *)
Theorem historical_handler_cases (self : NseAPI)
  (symbol start_date end_date : string) (response : Response) (cause : exn) :
  client self (historical_url symbol start_date end_date) (HEADERS self)
         (Some 1000) = Ok response ->
  status_code response = 200 ->
  parse_table (text response) symbol = Raise cause ->
  (forall e, json response = Raise e ->
             get_historical_data self symbol start_date end_date
               = ([], Raise e))
  /\ (forall j, json response = Ok j ->
                (forall body, j <> VDict body) ->
                get_historical_data self symbol start_date end_date
                  = ([], Raise AttributeError))
  /\ (forall body, json response = Ok (VDict body) ->
                   dict_lookup "showMessage" body = None ->
                   get_historical_data self symbol start_date end_date
                     = ([], Raise (Exception "Error: None"))).
Proof.
  intros Hget Hstatus Hparse.
  assert (Hrun : get_historical_data self symbol start_date end_date
                 = ([], j <- json response ;;
                        showMessage <- py_get j "showMessage" VNone ;;
                        Raise (Exception ("Error: " ++ py_str showMessage)))).
  { unfold get_historical_data. now rewrite Hget, Hstatus, Hparse. }
  rewrite Hrun. split; [| split].
  - intros e ->. reflexivity.
  - intros j -> Hj. cbn [bind].
    destruct j as [| | | | | | body]; try reflexivity.
    now contradiction (Hj body).
  - intros body -> Hmessage. cbn [bind py_get]. now rewrite Hmessage.
Qed.

End Handler.

Lemma historical_handler_cases_example :
  get_historical_data (always mute_response) "SBIN" "2023-01-01" "2023-01-31"
    = ([], Raise (Exception "Error: None")).
Proof.
  assert (Hparse : parse_table (P := reader) (text mute_response) "SBIN"
                   = Raise ValueError) by (vm_compute; reflexivity).
  exact (proj2 (proj2 (historical_handler_cases (P := reader)
                         (always mute_response) "SBIN" "2023-01-01"
                         "2023-01-31" mute_response ValueError
                         eq_refl eq_refl Hparse))
           [("error", VStr "Bad Request")] eq_refl eq_refl).
Defined.
